(** * autoplanting: the job scheduler, the actuator tasks and the telemetry link

    A shallow embedding of [schedule.py], [mqtt.py] and the control routines of
    [autoplant.py].  Each Python function becomes a Rocq function of the same
    name.  Time is counted in microseconds (the resolution of [datetime]),
    Python exceptions are values of [Py.exc], and everything the program gets
    from outside (the cron file, the sensors, the clock, the random source,
    the network callbacks) is an explicit argument. *)

From Stdlib Require Import ZArith QArith Qround List String Ascii Bool Lia.
From Stdlib Require Import Permutation Sorted.
Import ListNotations.

Local Open Scope Z_scope.

Notation "a ^^ b" := (String.append a b) (at level 60, right associativity).

(** ** The fragment of Python the three modules rely on *)

Module Py.

(** The exception classes that occur in the program.  [CancelledError] and
    [KeyboardInterrupt] derive from [BaseException] only, so that
    [except Exception] does not catch them. *)
Inductive exc_class : Type :=
| Exception
| RuntimeError
| ValueError
| OverflowError
| IndexError
| KeyError
| TypeError
| ZeroDivisionError
| AttributeError
| CancelledError
| KeyboardInterrupt.

Record exc : Type := Raise { cls : exc_class; message : string }.

Definition is_Exception (c : exc_class) : bool :=
  match c with
  | CancelledError | KeyboardInterrupt => false
  | _ => true
  end.

Definition is_RuntimeError (c : exc_class) : bool :=
  match c with
  | RuntimeError => true
  | _ => false
  end.

Definition is_KeyboardInterrupt (c : exc_class) : bool :=
  match c with
  | KeyboardInterrupt => true
  | _ => false
  end.

(** The result of evaluating an expression or a call. *)
Inductive result (A : Type) : Type :=
| Ok (a : A)
| Raised (e : exc).
Arguments Ok {A} a.
Arguments Raised {A} e.

(** [str.isspace] on the characters of a one-byte string. *)
Definition isspace (c : ascii) : bool :=
  let n := nat_of_ascii c in
  ((9 <=? n) && (n <=? 13) || (28 <=? n) && (n <=? 32) ||
   (n =? 133) || (n =? 160))%nat.

(** [s.rstrip()] *)
Fixpoint rstrip (s : string) : string :=
  match s with
  | EmptyString => EmptyString
  | String c s' =>
      match rstrip s' with
      | EmptyString => if isspace c then EmptyString else String c EmptyString
      | r => String c r
      end
  end.

(** [s.split(sep)] for a one-character separator: every occurrence cuts, so
    adjacent separators give empty fields and the result is never empty. *)
Fixpoint split (sep : ascii) (s : string) : list string :=
  match s with
  | EmptyString => [EmptyString]
  | String c s' =>
      if Ascii.eqb c sep then EmptyString :: split sep s'
      else match split sep s' with
           | w :: ws => String c w :: ws
           | [] => [String c EmptyString]
           end
  end.

(** [sep.join(l)] *)
Definition join (sep : string) (l : list string) : string := String.concat sep l.

(** [s.startswith(p)] *)
Definition startswith (s p : string) : bool := String.prefix p s.

(** Values that [json.loads] produces and that travel as job arguments.  A
    finite float is represented by the rational it denotes. *)
#[warnings="-register-all"]
Inductive value : Type :=
| VNone
| VBool (b : bool)
| VInt (z : Z)
| VFloat (q : Q)
| VInf (negative : bool)
| VNaN
| VStr (s : string)
| VList (l : list value)
| VDict (items : list (string * value)).

(** [d[key]] on a dict with string keys. *)
Fixpoint dict_get (items : list (string * value)) (key : string) : option value :=
  match items with
  | [] => None
  | (k, v) :: rest => if String.eqb k key then Some v else dict_get rest key
  end.

(** [obj[key]] with a string key: only a dict accepts it. *)
Definition getitem (obj : value) (key : string) : result value :=
  match obj with
  | VDict items =>
      match dict_get items key with
      | Some v => Ok v
      | None => Raised (Raise KeyError key)
      end
  | _ => Raised (Raise TypeError "indices must be integers or the object is not subscriptable")
  end.

(** [obj == s] for a string literal [s]. *)
Definition eq_str (obj : value) (s : string) : bool :=
  match obj with
  | VStr t => String.eqb t s
  | _ => false
  end.

(** [s.lstrip()] *)
Fixpoint lstrip (s : string) : string :=
  match s with
  | EmptyString => EmptyString
  | String c s' => if isspace c then lstrip s' else s
  end.

Definition digit (c : ascii) : option Z :=
  let n := nat_of_ascii c in
  if ((48 <=? n) && (n <=? 57))%nat then Some (Z.of_nat (n - 48)) else None.

(** The decimal digits of an integer literal: single underscores may stand
    between two digits. *)
Fixpoint digits (acc : Z) (after_digit : bool) (s : string) : option Z :=
  match s with
  | EmptyString => if after_digit then Some acc else None
  | String c s' =>
      match digit c with
      | Some d => digits (10 * acc + d) true s'
      | None => if Ascii.eqb c "_"%char && after_digit then digits acc false s' else None
      end
  end.

(** [int(s)] for a string: surrounding white space, a sign, digits. *)
Definition int_of_str (s : string) : option Z :=
  match lstrip (rstrip s) with
  | String "+"%char r => digits 0 false r
  | String "-"%char r => option_map Z.opp (digits 0 false r)
  | t => digits 0 false t
  end.

(** [int(v)] *)
Definition int (v : value) : result Z :=
  match v with
  | VInt z => Ok z
  | VBool b => Ok (if b then 1 else 0)
  | VFloat q => Ok (Z.quot (Qnum q) (Zpos (Qden q)))
  | VInf _ => Raised (Raise OverflowError "cannot convert float infinity to integer")
  | VNaN => Raised (Raise ValueError "cannot convert float NaN to integer")
  | VStr s =>
      match int_of_str s with
      | Some z => Ok z
      | None => Raised (Raise ValueError "invalid literal for int() with base 10")
      end
  | _ => Raised (Raise TypeError "int() argument must be a string or a number")
  end.

(** [max(l)] and [min(l)]: the first greatest and the first least element. *)
Definition max (l : list Q) : result Q :=
  match l with
  | [] => Raised (Raise ValueError "max() arg is an empty sequence")
  | x :: l' => Ok (fold_left (fun m y => if Qle_bool y m then m else y) l' x)
  end.

Definition min (l : list Q) : result Q :=
  match l with
  | [] => Raised (Raise ValueError "min() arg is an empty sequence")
  | x :: l' => Ok (fold_left (fun m y => if Qle_bool m y then m else y) l' x)
  end.

(** [l.remove(x)]: without the first element equal to [x]. *)
Fixpoint remove (x : Q) (l : list Q) : result (list Q) :=
  match l with
  | [] => Raised (Raise ValueError "list.remove(x): x not in list")
  | y :: l' =>
      if Qeq_bool y x then Ok l'
      else match remove x l' with
           | Ok r => Ok (y :: r)
           | Raised e => Raised e
           end
  end.

(** [sum(l)] *)
Definition sum (l : list Q) : Q := fold_left Qplus l 0%Q.

(** [sum(l) / len(l)] *)
Definition average (l : list Q) : result Q :=
  match l with
  | [] => Raised (Raise ZeroDivisionError "division by zero")
  | _ => Ok (sum l / inject_Z (Z.of_nat (List.length l)))%Q
  end.

End Py.

(** A [datetime], in microseconds since the epoch of the local clock: an
    integer, without the range limits of [datetime] and [timedelta]. *)
Definition datetime : Type := Z.

(** [timedelta(seconds=s)] in microseconds. *)
Definition seconds (s : Z) : Z := s * 1000000.

(** ** schedule.py *)

Module schedule.

(** The two entry points of the [croniter] package that [readCron] calls. *)
Record Croniter : Type := {
  is_valid : string -> bool;
  get_next : string -> datetime -> datetime
}.

(** A job: the tuple [(next, cmd[0], cmd[1:])]. *)
Definition job : Type := (datetime * string * list string)%type.

Definition fireTime (j : job) : datetime := fst (fst j).
Definition command (j : job) : string := snd (fst j).
Definition args (j : job) : list string := snd j.

(** What [readCron] has built so far: [entries] and the lines printed. *)
Record parsed : Type := {
  entries : list job;
  stdout : list string
}.

Definition print (msg : string) (p : parsed) : parsed :=
  {| entries := entries p; stdout := stdout p ++ [msg] |}.

Definition append (j : job) (p : parsed) : parsed :=
  {| entries := entries p ++ [j]; stdout := stdout p |}.

(** The body of the [try] block: the schedule and the command of one line. *)
Definition split_entry (line : string) : Py.result (string * list string) :=
  let data := Py.split " "%char (Py.rstrip line) in
  if (List.length data <? 6)%nat
  then Py.Raised (Py.Raise Py.Exception "invalid lenght of cron entry")
  else Py.Ok (Py.join " " (firstn 5 data), skipn 5 data).

(** One iteration of [for line in f]. *)
Definition readCron_line (cron : Croniter) (base : datetime) (p : parsed)
    (line : string) : Py.result parsed :=
  let p := print ("line content: " ^^ Py.rstrip line) p in
  if Py.startswith line "#" then Py.Ok p
  else
    match split_entry line with
    | Py.Raised e =>
        Py.Ok (print ("[" ^^ Py.rstrip line ^^ "]: invalid entry: " ^^ Py.message e) p)
    | Py.Ok (sched, cmd) =>
        if is_valid cron sched then
          let p := print ("have valid cron entry [" ^^ sched ^^ "]") p in
          match cmd with
          | cmd0 :: rest => Py.Ok (append (get_next cron sched base, cmd0, rest) p)
          | [] => Py.Raised (Py.Raise Py.IndexError "list index out of range")
          end
        else Py.Ok p
    end.

Fixpoint readCron_loop (cron : Croniter) (base : datetime) (p : parsed)
    (f : list string) : Py.result parsed :=
  match f with
  | [] => Py.Ok p
  | line :: f' =>
      match readCron_line cron base p line with
      | Py.Ok p' => readCron_loop cron base p' f'
      | Py.Raised e => Py.Raised e
      end
  end.

(** [readCron(cronFile)]: [f] is the list of lines of the file, as iterating
    over the file object yields them, and [base] is [datetime.now()]. *)
Definition readCron (cron : Croniter) (base : datetime) (f : list string)
    : Py.result parsed :=
  readCron_loop cron base {| entries := []; stdout := [] |} f.

(** [a < b] on lists of strings. *)
Fixpoint list_ltb (a b : list string) : bool :=
  match a, b with
  | [], [] => false
  | [], _ :: _ => true
  | _ :: _, [] => false
  | x :: a', y :: b' => if String.eqb x y then list_ltb a' b' else String.ltb x y
  end.

(** [a < b] on job tuples: the first component that differs decides. *)
Definition job_ltb (a b : job) : bool :=
  if negb (fireTime a =? fireTime b) then fireTime a <? fireTime b
  else if negb (String.eqb (command a) (command b))
       then String.ltb (command a) (command b)
       else list_ltb (args a) (args b).

(** [data.sort()]: a stable sort by [<]. *)
Fixpoint insert (x : job) (l : list job) : list job :=
  match l with
  | [] => [x]
  | y :: l' => if job_ltb y x then y :: insert x l' else x :: y :: l'
  end.

Fixpoint sort (l : list job) : list job :=
  match l with
  | [] => []
  | x :: l' => insert x (sort l')
  end.

(** The [for job in data[1:]] loop: [jobs] grows while the fire time equals
    that of [jobs[0]], and the first other fire time breaks the loop. *)
Fixpoint same_time (t0 : datetime) (rest : list job) : list job :=
  match rest with
  | [] => []
  | j :: rest' => if fireTime j =? t0 then j :: same_time t0 rest' else []
  end.

(** The part of [getNextJobs] after [readCron]: the job table is [data]. *)
Definition nextBatch (data : list job) : Py.result (list job) :=
  match sort data with
  | [] => Py.Raised (Py.Raise Py.IndexError "list index out of range")
  | first :: rest => Py.Ok (first :: same_time (fireTime first) rest)
  end.

(** [getNextJobs(cronFile)]: the jobs, or the exception, and what was printed. *)
Definition getNextJobs (cron : Croniter) (base : datetime) (f : list string)
    : Py.result (list job) * list string :=
  match readCron cron base f with
  | Py.Raised e => (Py.Raised e, [])
  | Py.Ok p => (nextBatch (entries p), stdout p)
  end.

End schedule.

(** ** mqtt.py *)

Module mqtt.

(** The maximum backoff time before giving up, in seconds. *)
Definition MAXIMUM_BACKOFF_TIME : Z := 128.

(** The entries of [args] that the class reads. *)
Record Config : Type := {
  project_id : string;
  cloud_region : string;
  registry_id : string;
  device_id : string;
  private_key_file : string;
  algorithm : string;
  ca_certs : string;
  mqtt_bridge_hostname : string;
  mqtt_bridge_port : Z
}.

(** The claims of the token that [create_jwt] signs. *)
Record JWT : Type := {
  iat : datetime;
  exp : datetime;
  aud : string
}.

(** The paho client object: what the program has put into it. *)
Record Client : Type := {
  client_id : string;
  password : option JWT
}.

(** The attributes of an [Mqtt] object. *)
Record Mqtt : Type := {
  config : Config;
  publishing_default_topic : string;
  connected : bool;
  should_backoff : bool;
  minimum_backoff_time : Z;
  jwt_exp_mins : Z;
  jwt_iat : datetime;
  client : Client
}.

(** What the object does to the outside, in order.  A [print] keeps its
    format string and its arguments apart; a [Publish] carries the token of
    the client that sends it. *)
Inductive event : Type :=
| Print (fmt : string) (args : list Py.value)
| NewClient (c : Client)
| UsernamePwSet (token : JWT)
| TlsSet (ca : string)
| Connect (host : string) (port : Z)
| LoopStart
| Subscribe (topic : string) (qos : Z)
| Disconnect
| LoopStop
| Sleep (delay : Q)
| Publish (topic : string) (key : string) (val : Py.value) (qos : Z) (token : option JWT).

(** The callbacks that paho runs on its network thread. *)
Inductive callback : Type :=
| connack (rc : Z)
| disconnected (rc : Z).

(** The outside: the raw random source and, for each point at which the main
    thread looks at the flags again, the callbacks that ran since the last
    such point. *)
Record Env : Type := {
  random_source : nat -> Z;
  network : nat -> list callback
}.

(** The state of the outside as the calls of the object advance it. *)
Record World : Type := {
  utcnow : datetime;
  draws : nat;
  turns : nat;
  trace : list event
}.

Definition emit (e : event) (w : World) : World :=
  {| utcnow := utcnow w; draws := draws w; turns := turns w;
     trace := trace w ++ [e] |}.

(** [random.randint(a, b)]: [a] plus a draw below [b - a + 1]. *)
Definition randint (env : Env) (a b : Z) (w : World) : Z * World :=
  (a + random_source env (draws w) mod (b - a + 1),
   {| utcnow := utcnow w; draws := S (draws w); turns := turns w;
      trace := trace w |}).

(** [time.sleep(delay)] with [delay] in seconds. *)
Definition sleep (delay : Q) (w : World) : World :=
  {| utcnow := utcnow w + Qfloor (delay * 1000000); draws := draws w;
     turns := turns w; trace := trace w ++ [Sleep delay] |}.

Definition with_flags (self : Mqtt) (c b : bool) (t : Z) : Mqtt :=
  {| config := config self;
     publishing_default_topic := publishing_default_topic self;
     connected := c; should_backoff := b; minimum_backoff_time := t;
     jwt_exp_mins := jwt_exp_mins self; jwt_iat := jwt_iat self;
     client := client self |}.

Definition with_jwt_iat (self : Mqtt) (t : datetime) : Mqtt :=
  {| config := config self;
     publishing_default_topic := publishing_default_topic self;
     connected := connected self; should_backoff := should_backoff self;
     minimum_backoff_time := minimum_backoff_time self;
     jwt_exp_mins := jwt_exp_mins self; jwt_iat := t;
     client := client self |}.

Definition with_client (self : Mqtt) (c : Client) : Mqtt :=
  {| config := config self;
     publishing_default_topic := publishing_default_topic self;
     connected := connected self; should_backoff := should_backoff self;
     minimum_backoff_time := minimum_backoff_time self;
     jwt_exp_mins := jwt_exp_mins self; jwt_iat := jwt_iat self;
     client := c |}.

(** [on_connect] *)
Definition on_connect (self : Mqtt) (rc : Z) (w : World) : Mqtt * World :=
  (with_flags self true false 1, emit (Print "Connection Result:" [Py.VInt rc]) w).

(** [on_disconnect] *)
Definition on_disconnect (self : Mqtt) (rc : Z) (w : World) : Mqtt * World :=
  (with_flags self false true (minimum_backoff_time self),
   emit (Print "Disconnected:" [Py.VInt rc]) w).

Definition run_callback (sw : Mqtt * World) (cb : callback) : Mqtt * World :=
  match cb with
  | connack rc => on_connect (fst sw) rc (snd sw)
  | disconnected rc => on_disconnect (fst sw) rc (snd sw)
  end.

(** The callbacks of the network thread take effect here. *)
Definition deliver (env : Env) (self : Mqtt) (w : World) : Mqtt * World :=
  fold_left run_callback (network env (turns w))
    (self, {| utcnow := utcnow w; draws := draws w; turns := S (turns w);
              trace := trace w |}).

(** [create_jwt]: the token is issued now and expires 60 minutes later. *)
Definition create_jwt (project key_file alg : string) (w : World) : JWT * World :=
  ({| iat := utcnow w; exp := utcnow w + seconds (60 * 60); aud := project |},
   emit (Print "Creating JWT using {} from private key file {}"
           [Py.VStr alg; Py.VStr key_file]) w).

(** The two topics of a device and the subscriptions to them. *)
Definition mqtt_config_topic (c : Config) : string :=
  "/devices/" ^^ device_id c ^^ "/config".

Definition mqtt_command_topic (c : Config) : string :=
  "/devices/" ^^ device_id c ^^ "/commands/#".

Definition connect_and_subscribe (self : Mqtt) (w : World) : World :=
  let c := config self in
  let w := emit (Connect (mqtt_bridge_hostname c) (mqtt_bridge_port c)) w in
  let w := emit LoopStart w in
  let w := emit (Print "Subscribing to {} and {}"
                   [Py.VStr (mqtt_config_topic c); Py.VStr (mqtt_command_topic c)]) w in
  let w := emit (Subscribe (mqtt_config_topic c) 1) w in
  emit (Subscribe (mqtt_command_topic c) 0) w.

(** [__init_and_connect] *)
Definition __init_and_connect (env : Env) (self : Mqtt) (w : World) : Mqtt * World :=
  let c := config self in
  let id := "projects/" ^^ project_id c ^^ "/locations/" ^^ cloud_region c ^^
            "/registries/" ^^ registry_id c ^^ "/devices/" ^^ device_id c in
  let w := emit (Print "Device client_id is '{}'" [Py.VStr id]) w in
  let self := with_client self {| client_id := id; password := None |} in
  let w := emit (NewClient (client self)) w in
  let self := with_jwt_iat self (utcnow w) in
  let (token, w) := create_jwt (project_id c) (private_key_file c) (algorithm c) w in
  let self := with_client self {| client_id := id; password := Some token |} in
  let w := emit (UsernamePwSet token) w in
  let w := emit (TlsSet (ca_certs c)) w in
  let w := emit (Print "Connecting client" []) w in
  let w := connect_and_subscribe self w in
  deliver env self w.

(** The [while self.should_backoff] loop of [__connect_with_retry].  [None]
    means that the loop is still running when the fuel is used up. *)
Fixpoint backoff (fuel : nat) (env : Env) (self : Mqtt) (w : World)
    : option (Mqtt * World) :=
  match fuel with
  | O => None
  | S fuel' =>
      if should_backoff self then
        let w := emit (Print "will do the backoff" []) w in
        if minimum_backoff_time self >? MAXIMUM_BACKOFF_TIME then
          Some (self, emit (Print "Exceeded maximum backoff time. Giving up." []) w)
        else
          let (r, w) := randint env 0 1000 w in
          let delay := (inject_Z (minimum_backoff_time self) + inject_Z r / 1000)%Q in
          let w := emit (Print "Waiting for {} before reconnecting." [Py.VFloat delay]) w in
          let w := sleep delay w in
          let (self, w) := deliver env self w in
          if negb (should_backoff self) then Some (self, w)
          else
            let self := with_flags self (connected self) (should_backoff self)
                          (minimum_backoff_time self * 2) in
            let w := connect_and_subscribe self w in
            let (self, w) := deliver env self w in
            backoff fuel' env self w
      else Some (self, w)
  end.

(** [__connect_with_retry] *)
Definition __connect_with_retry (fuel : nat) (env : Env) (self : Mqtt) (w : World)
    : option (Mqtt * World) :=
  let (self, w) := __init_and_connect env self w in
  backoff fuel env self w.

(** [__init__]: the attributes as the constructor sets them, then the first
    connection.  [client] and [jwt_iat] do not exist before
    [__init_and_connect] assigns them; they hold a placeholder until then. *)
Definition __init__ (fuel : nat) (env : Env) (c : Config) (w : World)
    : option (Mqtt * World) :=
  let self :=
    {| config := c;
       publishing_default_topic := "/devices/" ^^ device_id c ^^ "/events";
       connected := false; should_backoff := true; minimum_backoff_time := 1;
       jwt_exp_mins := 60; jwt_iat := 0;
       client := {| client_id := EmptyString; password := None |} |} in
  __connect_with_retry fuel env self w.

(** [td.seconds]: the seconds of a normalised [timedelta], between 0 and
    86399; the whole days are in [td.days]. *)
Definition timedelta_seconds (td : Z) : Z := (td mod seconds 86400) / 1000000.

(** [__check_and_refresh_jwt] *)
Definition __check_and_refresh_jwt (fuel : nat) (env : Env) (self : Mqtt) (w : World)
    : option (Mqtt * World) :=
  let seconds_since_issue := timedelta_seconds (utcnow w - jwt_iat self) in
  if seconds_since_issue >? 60 * jwt_exp_mins self then
    let w := emit (Print "Refreshing token after {}s" [Py.VInt seconds_since_issue]) w in
    let self := with_jwt_iat self (utcnow w) in
    let w := emit Disconnect w in
    let (self, w) := deliver env self w in
    __connect_with_retry fuel env self w
  else Some (self, w).

(** [publish]; the payload [json.dumps({key: value})] is kept as the pair. *)
Definition publish (fuel : nat) (env : Env) (self : Mqtt) (key : string)
    (value : Py.value) (topic : string) (w : World) : option (Mqtt * World) :=
  match __check_and_refresh_jwt fuel env self w with
  | None => None
  | Some (self, w) =>
      let w := emit (Print "Publishing payload" [Py.VDict [(key, value)]]) w in
      let topic := if String.eqb topic EmptyString then publishing_default_topic self else topic in
      Some (self, emit (Publish topic key value 1 (password (client self))) w)
  end.

(** [deinit] *)
Definition deinit (self : Mqtt) (w : World) : Mqtt * World :=
  let w := emit Disconnect w in
  let w := emit LoopStop w in
  (self, emit (Print "Finished loop successfully." []) w).

(** The names bound at the top level of the module: its imports, its
    constant, its two functions and its class. *)
Definition module_names : list string :=
  ["argparse"; "datetime"; "os"; "random"; "ssl"; "time"; "json"; "jwt";
   "mqtt"; "MAXIMUM_BACKOFF_TIME"; "create_jwt"; "error_str"; "Mqtt"]%string.

End mqtt.

(** ** autoplant.py *)

Module autoplant.

(** A coroutine object handed to [loop.create_task]. *)
Inductive coroutine : Type :=
| doWatering_co (attr : list Py.value)
| doLight_co (attr : list Py.value).

(** What the display is told. *)
Inductive display_op : Type :=
| clear
| message (fmt : string) (args : list Py.value).

(** The outside of the control routines: the [k]-th read of the level pin,
    the [k]-th read of a property of the DHT device, the [k]-th
    [await asyncio.sleep(..)] (it resumes some microseconds late, or an
    exception is thrown into the coroutine there, as a cancellation is), and
    [json.loads]. *)
Record Env : Type := {
  level_value : nat -> Py.result bool;
  dht_value : nat -> Py.result Q;
  wake : nat -> Py.result N;
  json_loads : string -> Py.result Py.value
}.

(** The devices, the clock, the event loop and the standard output. *)
Record World : Type := {
  now : datetime;
  pump_value : bool;
  lamp_value : bool;
  lcd : list display_op;
  level_reads : nat;
  dht_reads : nat;
  awaits : nat;
  slept : list Z;
  stdout : list (string * list Py.value);
  tasks : list coroutine;
  call_soon : list (string * Py.value)
}.

(** How a routine stands after a run: it has returned, it has raised, or it
    is still inside a loop when the fuel is used up. *)
Inductive outcome (A : Type) : Type :=
| Returns (a : A)
| Raises (e : Py.exc)
| Running.
Arguments Returns {A} a.
Arguments Raises {A} e.
Arguments Running {A}.

Definition M (A : Type) : Type := World -> outcome A * World.

Definition ret {A : Type} (a : A) : M A := fun w => (Returns a, w).

Definition bind {A B : Type} (m : M A) (k : A -> M B) : M B :=
  fun w =>
    match m w with
    | (Returns a, w') => k a w'
    | (Raises e, w') => (Raises e, w')
    | (Running, w') => (Running, w')
    end.

Definition raise {A : Type} (e : Py.exc) : M A := fun w => (Raises e, w).

Definition lift {A : Type} (r : Py.result A) : M A :=
  match r with
  | Py.Ok a => ret a
  | Py.Raised e => raise e
  end.

Notation "x <- m ;; k" := (bind m (fun x => k))
  (at level 61, m at next level, right associativity).
Notation "m ;; k" := (bind m (fun _ => k))
  (at level 61, right associativity).

(** [try: body  except C as e: handler e] for the classes [C] that [catches]
    accepts. *)
Definition try_except {A : Type} (body : M A) (catches : Py.exc_class -> bool)
    (handler : Py.exc -> M A) : M A :=
  fun w =>
    match body w with
    | (Raises e, w') => if catches (Py.cls e) then handler e w' else (Raises e, w')
    | r => r
    end.

(** [try: body  finally: final]: [final] runs however [body] leaves, and an
    exception of [final] replaces the result of [body]. *)
Definition try_finally {A : Type} (body : M A) (final : M unit) : M A :=
  fun w =>
    match body w with
    | (Running, w') => (Running, w')
    | (r, w') =>
        match final w' with
        | (Returns _, w'') => (r, w'')
        | (Raises e, w'') => (Raises e, w'')
        | (Running, w'') => (Running, w'')
        end
    end.

(** *** The primitive operations *)

Definition print (fmt : string) (args : list Py.value) : M unit :=
  fun w =>
    (Returns tt,
     {| now := now w; pump_value := pump_value w; lamp_value := lamp_value w;
        lcd := lcd w; level_reads := level_reads w; dht_reads := dht_reads w;
        awaits := awaits w; slept := slept w;
        stdout := stdout w ++ [(fmt, args)];
        tasks := tasks w; call_soon := call_soon w |}).

(** [pump.value = v] *)
Definition set_pump (v : bool) : M unit :=
  fun w =>
    (Returns tt,
     {| now := now w; pump_value := v; lamp_value := lamp_value w;
        lcd := lcd w; level_reads := level_reads w; dht_reads := dht_reads w;
        awaits := awaits w; slept := slept w; stdout := stdout w;
        tasks := tasks w; call_soon := call_soon w |}).

(** [lamp.value = v] *)
Definition set_lamp (v : bool) : M unit :=
  fun w =>
    (Returns tt,
     {| now := now w; pump_value := pump_value w; lamp_value := v;
        lcd := lcd w; level_reads := level_reads w; dht_reads := dht_reads w;
        awaits := awaits w; slept := slept w; stdout := stdout w;
        tasks := tasks w; call_soon := call_soon w |}).

(** An operation on [devices["display"]]. *)
Definition display (op : display_op) : M unit :=
  fun w =>
    (Returns tt,
     {| now := now w; pump_value := pump_value w; lamp_value := lamp_value w;
        lcd := lcd w ++ [op]; level_reads := level_reads w;
        dht_reads := dht_reads w; awaits := awaits w; slept := slept w;
        stdout := stdout w; tasks := tasks w; call_soon := call_soon w |}).

(** [level.value] *)
Definition read_level (env : Env) : M bool :=
  fun w =>
    (match level_value env (level_reads w) with
     | Py.Ok b => Returns b
     | Py.Raised e => Raises e
     end,
     {| now := now w; pump_value := pump_value w; lamp_value := lamp_value w;
        lcd := lcd w; level_reads := S (level_reads w);
        dht_reads := dht_reads w; awaits := awaits w; slept := slept w;
        stdout := stdout w; tasks := tasks w; call_soon := call_soon w |}).

(** [dht.temperature] or [dht.humidity] *)
Definition read_dht (env : Env) : M Q :=
  fun w =>
    (match dht_value env (dht_reads w) with
     | Py.Ok q => Returns q
     | Py.Raised e => Raises e
     end,
     {| now := now w; pump_value := pump_value w; lamp_value := lamp_value w;
        lcd := lcd w; level_reads := level_reads w;
        dht_reads := S (dht_reads w); awaits := awaits w; slept := slept w;
        stdout := stdout w; tasks := tasks w; call_soon := call_soon w |}).

(** [datetime.now()] *)
Definition datetime_now : M datetime := fun w => (Returns (now w), w).

(** [await asyncio.sleep(d)] with [d] in seconds: at least [d] seconds pass
    (none if [d] is negative), unless an exception is thrown at the await. *)
Definition sleep (env : Env) (d : Z) : M unit :=
  fun w =>
    match wake env (awaits w) with
    | Py.Ok late =>
        (Returns tt,
         {| now := now w + Z.max 0 (seconds d) + Z.of_N late;
            pump_value := pump_value w; lamp_value := lamp_value w;
            lcd := lcd w; level_reads := level_reads w;
            dht_reads := dht_reads w; awaits := S (awaits w);
            slept := slept w ++ [d]; stdout := stdout w; tasks := tasks w;
            call_soon := call_soon w |})
    | Py.Raised e =>
        (Raises e,
         {| now := now w; pump_value := pump_value w;
            lamp_value := lamp_value w; lcd := lcd w;
            level_reads := level_reads w; dht_reads := dht_reads w;
            awaits := S (awaits w); slept := slept w ++ [d];
            stdout := stdout w; tasks := tasks w; call_soon := call_soon w |})
    end.

(** [loop.create_task(c)] *)
Definition create_task (c : coroutine) : M unit :=
  fun w =>
    (Returns tt,
     {| now := now w; pump_value := pump_value w; lamp_value := lamp_value w;
        lcd := lcd w; level_reads := level_reads w; dht_reads := dht_reads w;
        awaits := awaits w; slept := slept w; stdout := stdout w;
        tasks := tasks w ++ [c]; call_soon := call_soon w |}).

(** [loop.call_soon(mqttClient.publish, key, value)] *)
Definition call_soon_publish (key : string) (value : Py.value) : M unit :=
  fun w =>
    (Returns tt,
     {| now := now w; pump_value := pump_value w; lamp_value := lamp_value w;
        lcd := lcd w; level_reads := level_reads w; dht_reads := dht_reads w;
        awaits := awaits w; slept := slept w; stdout := stdout w;
        tasks := tasks w; call_soon := call_soon w ++ [(key, value)] |}).

(** *** The sensors *)

(** One turn of [for _ in range(5)] in [getTempAndHumid].  The two handlers
    are the one [except RuntimeError] clause: a failure of the humidity read
    leaves the temperature already appended. *)
Definition sample (env : Env) (th : list Q * list Q) : M (list Q * list Q) :=
  th' <- try_except
           (t <- read_dht env ;;
            try_except
              (h <- read_dht env ;; ret (fst th ++ [t], snd th ++ [h]))
              Py.is_RuntimeError
              (fun error => print "{}" [Py.VStr (Py.message error)] ;;
                            ret (fst th ++ [t], snd th)))
           Py.is_RuntimeError
           (fun error => print "{}" [Py.VStr (Py.message error)] ;; ret th) ;;
  sleep env 1 ;;
  ret th'.

Fixpoint sample_range (n : nat) (env : Env) (th : list Q * list Q)
    : M (list Q * list Q) :=
  match n with
  | O => ret th
  | S n' => th' <- sample env th ;; sample_range n' env th'
  end.

(** The list without its greatest and its least element. *)
Definition remove_max_min (l : list Q) : M (list Q) :=
  hi <- lift (Py.max l) ;;
  l1 <- lift (Py.remove hi l) ;;
  lo <- lift (Py.min l1) ;;
  lift (Py.remove lo l1).

(** [getTempAndHumid(dht)]: the pair is the dict with keys temp and humid. *)
Definition getTempAndHumid (env : Env) : M (Q * Q) :=
  th <- sample_range 5 env ([], []) ;;
  temperature <- remove_max_min (fst th) ;;
  humidity <- remove_max_min (snd th) ;;
  temp <- lift (Py.average temperature) ;;
  humid <- lift (Py.average humidity) ;;
  ret (temp, humid).

(** The [for _ in range(5)] loop of [getLevel]. *)
Fixpoint level_range (n : nat) (env : Env) (data : list bool) : M (list bool) :=
  match n with
  | O => ret data
  | S n' =>
      v <- read_level env ;;
      sleep env 1 ;;
      level_range n' env (data ++ [v])
  end.

(** [sum(data)] for a list of booleans. *)
Definition sum_bool (data : list bool) : Z :=
  fold_left (fun s (b : bool) => s + (if b then 1 else 0)) data 0.

(** [getLevel(level)] *)
Definition getLevel (env : Env) : M bool :=
  data <- level_range 5 env [] ;;
  ret (Qle_bool 1 (inject_Z (sum_bool data) / 3)).

Definition level_text (level : bool) : Py.value :=
  Py.VStr (if level then "empty" else "full").

(** [getAndPublishMeasurements]; [mqttClient] tells whether there is a client. *)
Fixpoint getAndPublishMeasurements (fuel : nat) (env : Env) (mqttClient : bool)
    : M unit :=
  match fuel with
  | O => fun w => (Running, w)
  | S fuel' =>
      data <- getTempAndHumid env ;;
      level <- getLevel env ;;
      display clear ;;
      (if level : bool then display (message "tank empty" [])
       else display (message "Temp: {:.1f} C\nHumidity: {:.1f} %"
                       [Py.VFloat (fst data); Py.VFloat (snd data)])) ;;
      print "Temp: {:.1f} C\nHumidity: {:.1f} %\nLevel: {}"
        [Py.VFloat (fst data); Py.VFloat (snd data); level_text level] ;;
      (if mqttClient then
         call_soon_publish "temp" (Py.VFloat (fst data)) ;;
         call_soon_publish "humid" (Py.VFloat (snd data)) ;;
         call_soon_publish "level" (level_text level)
       else ret tt) ;;
      sleep env 60 ;;
      getAndPublishMeasurements fuel' env mqttClient
  end.

(** *** The actuator tasks *)

(** The [while datetime.now() < endTime] loop of [startPump].  Nothing follows
    the loop inside the [try], so its [return] is the end of the block. *)
Fixpoint startPump_while (fuel : nat) (env : Env) (endTime : datetime) : M unit :=
  match fuel with
  | O => fun w => (Running, w)
  | S fuel' =>
      t <- datetime_now ;;
      if t <? endTime then
        v <- read_level env ;;
        if Bool.eqb v true then
          set_pump true ;;
          print "water level is too low; can not start pump" []
        else
          set_pump false ;;
          sleep env 1 ;;
          startPump_while fuel' env endTime
      else ret tt
  end.

(** [startPump(pump, level, period)] *)
Definition startPump (fuel : nat) (env : Env) (period : Z) : M unit :=
  t <- datetime_now ;;
  let endTime := t + seconds period in
  print "will try to start pump for {} seconds" [Py.VInt period] ;;
  try_finally
    (try_except (startPump_while fuel env endTime) Py.is_Exception
       (fun e => print "some error occured: {}" [Py.VStr (Py.message e)]))
    (print "stopping pump..." [] ;; set_pump true).

(** [startLamp(lamp, period)] *)
Definition startLamp (env : Env) (period : Z) : M unit :=
  print "will try to start lamp for {} seconds" [Py.VInt period] ;;
  try_finally
    (try_except (set_lamp false ;; sleep env period) Py.is_Exception
       (fun e => print "some error occured while starting lamp: {}"
                   [Py.VStr (Py.message e)]))
    (print "stopping lamp..." [] ;; set_lamp true).

(** [int(attr[0]) if attr else 10] *)
Definition period_of (attr : list Py.value) : M Z :=
  match attr with
  | a :: _ => lift (Py.int a)
  | [] => ret 10
  end.

(** [doWatering(devices, attr)] *)
Definition doWatering (fuel : nat) (env : Env) (attr : list Py.value) : M unit :=
  print "do watering {}" [Py.VList attr] ;;
  period <- period_of attr ;;
  startPump fuel env period.

(** [doLight(devices, attr)] *)
Definition doLight (env : Env) (attr : list Py.value) : M unit :=
  print "do light: {}" [Py.VList attr] ;;
  period <- period_of attr ;;
  startLamp env period.

(** The body of a task. *)
Definition run_task (fuel : nat) (env : Env) (c : coroutine) : M unit :=
  match c with
  | doWatering_co attr => doWatering fuel env attr
  | doLight_co attr => doLight env attr
  end.

(** *** The schedule loop *)

(** [getAction(entry)] *)
Definition getAction (entry : string) : M (option (list Py.value -> coroutine)) :=
  let action :=
    if String.eqb entry "lamp" then Some doLight_co
    else if String.eqb entry "pump" then Some doWatering_co
    else None in
  match action with
  | None => print "invalid job: {}" [Py.VStr entry] ;; ret None
  | Some a => ret (Some a)
  end.

(** A job tuple as a value, for [print]. *)
Definition value_of_job (j : schedule.job) : Py.value :=
  Py.VList [Py.VInt (schedule.fireTime j); Py.VStr (schedule.command j);
            Py.VList (map Py.VStr (schedule.args j))].

(** [for job in jobs] in [updateSchedule] *)
Fixpoint spawn (jobs : list schedule.job) : M unit :=
  match jobs with
  | [] => ret tt
  | job :: jobs' =>
      action <- getAction (schedule.command job) ;;
      match action with
      | None => spawn jobs'
      | Some a =>
          print "creating task for [{}][{}]"
            [Py.VInt (schedule.fireTime job); Py.VStr (schedule.command job)] ;;
          create_task (a (map Py.VStr (schedule.args job))) ;;
          spawn jobs'
      end
  end.

(** [schedule.getNextJobs(cronFile)] from inside the loop: what it prints
    goes to the same output. *)
Definition getNextJobs (cron : schedule.Croniter) (cronFile : list string)
    : M (list schedule.job) :=
  base <- datetime_now ;;
  let r := schedule.getNextJobs cron base cronFile in
  fold_right (fun line k => print line [] ;; k) (lift (fst r)) (snd r).

(** [updateSchedule]: [cronFile] holds the lines of the schedule file. *)
Fixpoint updateSchedule (fuel : nat) (env : Env) (cron : schedule.Croniter)
    (cronFile : list string) : M unit :=
  match fuel with
  | O => fun w => (Running, w)
  | S fuel' =>
      jobs <- getNextJobs cron cronFile ;;
      print "{}" [Py.VList (map value_of_job jobs)] ;;
      first <- lift (match jobs with
                     | j :: _ => Py.Ok j
                     | [] => Py.Raised (Py.Raise Py.IndexError "list index out of range")
                     end) ;;
      t <- datetime_now ;;
      (if schedule.fireTime first - t <? seconds 60 then
         print "scheduling job" [] ;; spawn jobs
       else ret tt) ;;
      sleep env 60 ;;
      updateSchedule fuel' env cron cronFile
  end.

(** *** The command handler *)

(** The [handler] closure that [handleMqtt] returns. *)
Definition handler (env : Env) (data : string) : M unit :=
  print "got MQTT data: {}" [Py.VStr data] ;;
  try_except
    (cmd <- lift (json_loads env data) ;;
     c <- lift (Py.getitem cmd "command") ;;
     if Py.eq_str c "pump_on" then
       d <- lift (Py.getitem cmd "duration") ;;
       create_task (doWatering_co [d])
     else
       c' <- lift (Py.getitem cmd "command") ;;
       if Py.eq_str c' "lamp_on" then
         d <- lift (Py.getitem cmd "duration") ;;
         create_task (doLight_co [d])
       else print "unknown command from server: {}" [cmd])
    Py.is_Exception
    (fun e => print "error occured while processing server data: {}"
                [Py.VStr (Py.message e)]).

(** *** The main program *)

(** The calls of [run] that reach outside the function. *)
Inductive main_step : Type :=
| call_initDevices
| call_get_event_loop
| call_Mqtt
| call_register_cb
| call_create_task (name : string)
| call_run_forever
| call_loop_close
| call_module_function (module name : string)
| call_Mqtt_deinit.

(** [module.name]: a name that the module does not bind is an error. *)
Definition getattr_module (names : list string) (module name : string)
    : Py.result unit :=
  if existsb (String.eqb name) names then Py.Ok tt
  else Py.Raised (Py.Raise Py.AttributeError
                    ("module '" ^^ module ^^ "' has no attribute '" ^^ name ^^ "'")).

(** [run(args)]: [do_mqtt] is [args.do_mqtt], and [stop] is the exception with
    which [loop.run_forever()] comes back. *)
Definition run (do_mqtt : bool) (stop : Py.exc) : Py.result unit * list main_step :=
  let steps := [call_initDevices; call_get_event_loop] in
  let steps := if do_mqtt then steps ++ [call_Mqtt; call_register_cb] else steps in
  let steps := steps ++ [call_create_task "getAndPublishMeasurements";
                         call_create_task "updateSchedule"] in
  let steps := if do_mqtt then steps ++ [call_create_task "ticker"] else steps in
  let steps := steps ++ [call_run_forever] in
  let pending := if Py.is_KeyboardInterrupt (Py.cls stop) then Py.Ok tt
                 else Py.Raised stop in
  let steps := steps ++ [call_loop_close] in
  match getattr_module mqtt.module_names "mqtt" "deinit" with
  | Py.Raised e => (Py.Raised e, steps)
  | Py.Ok _ => (pending, steps ++ [call_module_function "mqtt" "deinit"])
  end.

End autoplant.

(** ** character_lcd_pcf8574.py *)

Module character_lcd_pcf8574.

(** Commands *)
Definition _LCD_CLEARDISPLAY : Z := 0x01.
Definition _LCD_RETURNHOME : Z := 0x02.
Definition _LCD_ENTRYMODESET : Z := 0x04.
Definition _LCD_DISPLAYCONTROL : Z := 0x08.
Definition _LCD_CURSORSHIFT : Z := 0x10.
Definition _LCD_FUNCTIONSET : Z := 0x20.
Definition _LCD_SETCGRAMADDR : Z := 0x40.
Definition _LCD_SETDDRAMADDR : Z := 0x80.

(** Entry flags *)
Definition _LCD_ENTRYLEFT : Z := 0x02.
Definition _LCD_ENTRYSHIFTDECREMENT : Z := 0x00.

(** Control flags *)
Definition _LCD_DISPLAYON : Z := 0x04.
Definition _LCD_CURSOROFF : Z := 0x00.
Definition _LCD_BLINKOFF : Z := 0x00.

(** Move flags *)
Definition _LCD_DISPLAYMOVE : Z := 0x08.
Definition _LCD_MOVERIGHT : Z := 0x04.
Definition _LCD_MOVELEFT : Z := 0x00.

(** Function set flags *)
Definition _LCD_4BITMODE : Z := 0x00.
Definition _LCD_2LINE : Z := 0x08.
Definition _LCD_1LINE : Z := 0x00.
Definition _LCD_5X8DOTS : Z := 0x00.

(** Offset for up to 4 rows. *)
Definition _LCD_ROW_OFFSETS : list Z := [0x00; 0x40; 0x14; 0x54].

(** Flags for RS pin modes *)
Definition _RS_INSTRUCTION : Z := 0x00.
Definition _RS_DATA : Z := 0x01.

Definition LEFT_TO_RIGHT : Z := 0.
Definition RIGHT_TO_LEFT : Z := 1.

(** [t[i]] on a tuple: an index below zero counts from the end. *)
Definition tuple_get (t : list Z) (i : Z) : Py.result Z :=
  let n := Z.of_nat (List.length t) in
  let k := if i <? 0 then i + n else i in
  if (0 <=? k) && (k <? n) then Py.Ok (nth (Z.to_nat k) t 0)
  else Py.Raised (Py.Raise Py.IndexError "tuple index out of range").

(** [pattern[i]] on a list or a bytes object. *)
Definition list_get (l : list Z) (i : Z) : Py.result Z :=
  let n := Z.of_nat (List.length l) in
  let k := if i <? 0 then i + n else i in
  if (0 <=? k) && (k <? n) then Py.Ok (nth (Z.to_nat k) l 0)
  else Py.Raised (Py.Raise Py.IndexError "list index out of range").

(** What reaches the outside: [interface.send(value, rs)], the assignment to
    [interface.backlight], and [time.sleep], counted in microseconds. *)
Inductive io : Type :=
| Send (value : Z) (rs : Z)
| Backlight (enable : bool)
| Sleep (microseconds : Z).

(** The attributes of a [Character_LCD] object, and the calls it has made. *)
Record Character_LCD : Type := {
  columns : Z;
  lines : Z;
  displaycontrol : Z;
  displayfunction : Z;
  displaymode : Z;
  _message : option string;
  _enable : option bool;
  _direction : option Z;
  row : Z;
  column : Z;
  _column_align : bool;
  wire : list io
}.

Definition emit (e : io) (self : Character_LCD) : Character_LCD :=
  {| columns := columns self; lines := lines self;
     displaycontrol := displaycontrol self;
     displayfunction := displayfunction self;
     displaymode := displaymode self; _message := _message self;
     _enable := _enable self; _direction := _direction self;
     row := row self; column := column self;
     _column_align := _column_align self; wire := wire self ++ [e] |}.

Definition set_displaycontrol (v : Z) (self : Character_LCD) : Character_LCD :=
  {| columns := columns self; lines := lines self; displaycontrol := v;
     displayfunction := displayfunction self;
     displaymode := displaymode self; _message := _message self;
     _enable := _enable self; _direction := _direction self;
     row := row self; column := column self;
     _column_align := _column_align self; wire := wire self |}.

Definition set_displaymode (v : Z) (self : Character_LCD) : Character_LCD :=
  {| columns := columns self; lines := lines self;
     displaycontrol := displaycontrol self;
     displayfunction := displayfunction self; displaymode := v;
     _message := _message self; _enable := _enable self;
     _direction := _direction self; row := row self; column := column self;
     _column_align := _column_align self; wire := wire self |}.

Definition set_position (c r : Z) (self : Character_LCD) : Character_LCD :=
  {| columns := columns self; lines := lines self;
     displaycontrol := displaycontrol self;
     displayfunction := displayfunction self;
     displaymode := displaymode self; _message := _message self;
     _enable := _enable self; _direction := _direction self;
     row := r; column := c;
     _column_align := _column_align self; wire := wire self |}.

Definition set_message (m : string) (self : Character_LCD) : Character_LCD :=
  {| columns := columns self; lines := lines self;
     displaycontrol := displaycontrol self;
     displayfunction := displayfunction self;
     displaymode := displaymode self; _message := Some m;
     _enable := _enable self; _direction := _direction self;
     row := row self; column := column self;
     _column_align := _column_align self; wire := wire self |}.

Definition set_direction (d : Z) (self : Character_LCD) : Character_LCD :=
  {| columns := columns self; lines := lines self;
     displaycontrol := displaycontrol self;
     displayfunction := displayfunction self;
     displaymode := displaymode self; _message := _message self;
     _enable := _enable self; _direction := Some d;
     row := row self; column := column self;
     _column_align := _column_align self; wire := wire self |}.

Definition set_enable (b : bool) (self : Character_LCD) : Character_LCD :=
  {| columns := columns self; lines := lines self;
     displaycontrol := displaycontrol self;
     displayfunction := displayfunction self;
     displaymode := displaymode self; _message := _message self;
     _enable := Some b; _direction := _direction self;
     row := row self; column := column self;
     _column_align := _column_align self; wire := wire self |}.

Definition set_column_align (b : bool) (self : Character_LCD) : Character_LCD :=
  {| columns := columns self; lines := lines self;
     displaycontrol := displaycontrol self;
     displayfunction := displayfunction self;
     displaymode := displaymode self; _message := _message self;
     _enable := _enable self; _direction := _direction self;
     row := row self; column := column self;
     _column_align := b; wire := wire self |}.

(** [_write8(value, char_mode)] *)
Definition _write8 (value : Z) (char_mode : bool) (self : Character_LCD)
    : Character_LCD :=
  let self := emit (Sleep 1000) self in
  let self := emit (Send value (if char_mode then _RS_DATA else _RS_INSTRUCTION)) self in
  emit (Sleep 50) self.

(** [home()] *)
Definition home (self : Character_LCD) : Character_LCD :=
  emit (Sleep 3000) (_write8 _LCD_RETURNHOME false self).

(** [clear()] *)
Definition clear (self : Character_LCD) : Character_LCD :=
  emit (Sleep 3000) (_write8 _LCD_CLEARDISPLAY false self).

(** The setter of [column_align]. *)
Definition column_align_set (enable : Py.value) (self : Character_LCD)
    : Py.result Character_LCD :=
  match enable with
  | Py.VBool b => Py.Ok (set_column_align b self)
  | _ => Py.Raised (Py.Raise Py.ValueError
                      "The column_align value must be either True or False")
  end.





Definition display (self : Character_LCD) : bool :=
  Z.land (displaycontrol self) _LCD_DISPLAYON =? _LCD_DISPLAYON.


(** [cursor_position(column, row)]: the index into the row offsets is
    evaluated before anything is sent. *)
Definition cursor_position (column row : Z) (self : Character_LCD)
    : Py.result Character_LCD :=
  let row := if row >=? lines self then lines self - 1 else row in
  let column := if column >=? columns self then columns self - 1 else column in
  match tuple_get _LCD_ROW_OFFSETS row with
  | Py.Raised e => Py.Raised e
  | Py.Ok offset =>
      let self := _write8 (Z.lor _LCD_SETDDRAMADDR (column + offset)) false self in
      Py.Ok (set_position column row self)
  end.

(** [ord(character)] *)
Definition ord (character : ascii) : Z := Z.of_nat (nat_of_ascii character).

(** The text goes from left to right: [self.displaymode & _LCD_ENTRYLEFT > 0]. *)
Definition entry_left (self : Character_LCD) : bool :=
  Z.land (displaymode self) _LCD_ENTRYLEFT >? 0.

(** One turn of [for character in message] in the setter of [message]. *)
Definition message_character (character : ascii)
    (st : Character_LCD * Z * Z) : Py.result (Character_LCD * Z * Z) :=
  let '(self, line, initial_character) := st in
  let first :=
    if initial_character =? 0 then
      let col := if entry_left self then column self
                 else columns self - 1 - column self in
      match cursor_position col line self with
      | Py.Ok self => Py.Ok (self, initial_character + 1)
      | Py.Raised e => Py.Raised e
      end
    else Py.Ok (self, initial_character) in
  match first with
  | Py.Raised e => Py.Raised e
  | Py.Ok (self, initial_character) =>
      if Ascii.eqb character "010"%char then
        let line := line + 1 in
        let col :=
          if entry_left self then column self * (if _column_align self then 1 else 0)
          else if _column_align self then column self
               else columns self - 1 in
        match cursor_position col line self with
        | Py.Ok self => Py.Ok (self, line, initial_character)
        | Py.Raised e => Py.Raised e
        end
      else Py.Ok (_write8 (ord character) true self, line, initial_character)
  end.

Fixpoint message_loop (message : string) (st : Character_LCD * Z * Z)
    : Py.result (Character_LCD * Z * Z) :=
  match message with
  | EmptyString => Py.Ok st
  | String character rest =>
      match message_character character st with
      | Py.Ok st' => message_loop rest st'
      | Py.Raised e => Py.Raised e
      end
  end.

(** The setter of [message]. *)
Definition message_set (message : string) (self : Character_LCD)
    : Py.result Character_LCD :=
  let self := set_message message self in
  match message_loop message (self, row self, 0) with
  | Py.Ok (self, _, _) => Py.Ok (set_position 0 0 self)
  | Py.Raised e => Py.Raised e
  end.

(** [move_left()] and [move_right()] *)
Definition move_left (self : Character_LCD) : Character_LCD :=
  _write8 (Z.lor (Z.lor _LCD_CURSORSHIFT _LCD_DISPLAYMOVE) _LCD_MOVELEFT) false self.

Definition move_right (self : Character_LCD) : Character_LCD :=
  _write8 (Z.lor (Z.lor _LCD_CURSORSHIFT _LCD_DISPLAYMOVE) _LCD_MOVERIGHT) false self.

(** [_left_to_right()] and [_right_to_left()] *)
Definition _left_to_right (self : Character_LCD) : Character_LCD :=
  let self := set_displaymode (Z.lor (displaymode self) _LCD_ENTRYLEFT) self in
  _write8 (Z.lor _LCD_ENTRYMODESET (displaymode self)) false self.

Definition _right_to_left (self : Character_LCD) : Character_LCD :=
  let self := set_displaymode (Z.land (displaymode self) (Z.lnot _LCD_ENTRYLEFT)) self in
  _write8 (Z.lor _LCD_ENTRYMODESET (displaymode self)) false self.

(** The setter of [text_direction]. *)
Definition text_direction_set (direction : Z) (self : Character_LCD)
    : Character_LCD :=
  let self := set_direction direction self in
  if direction =? LEFT_TO_RIGHT then _left_to_right self
  else if direction =? RIGHT_TO_LEFT then _right_to_left self
  else self.

(** The [for i in range(8)] loop of [create_char], from [i] on. *)
Fixpoint create_char_loop (n : nat) (i : Z) (pattern : list Z)
    (self : Character_LCD) : Py.result unit * Character_LCD :=
  match n with
  | O => (Py.Ok tt, self)
  | S n' =>
      match list_get pattern i with
      | Py.Raised e => (Py.Raised e, self)
      | Py.Ok byte => create_char_loop n' (i + 1) pattern (_write8 byte true self)
      end
  end.

(** [create_char(location, pattern)]: the result and the object as the call
    leaves it. *)
Definition create_char (location : Z) (pattern : list Z) (self : Character_LCD)
    : Py.result unit * Character_LCD :=
  let location := Z.land location 0x7 in
  let self := _write8 (Z.lor _LCD_SETCGRAMADDR (Z.shiftl location 3)) false self in
  create_char_loop 8 0 pattern self.

(** The setter of [backlight] of [Character_LCD_Mono]. *)
Definition backlight_set (enable : bool) (self : Character_LCD) : Character_LCD :=
  let self := set_enable enable self in
  let self := emit (Backlight enable) self in
  emit (Send (ord " "%char) _RS_DATA) self.

(** [Character_LCD.__init__], as [Character_LCD_I2C_PCF8574(i2c, columns,
    lines)] reaches it. *)
Definition __init__ (columns lines : Z) : Character_LCD :=
  let self :=
    {| columns := columns; lines := lines; displaycontrol := 0;
       displayfunction := 0; displaymode := 0; _message := None;
       _enable := None; _direction := None; row := 0; column := 0;
       _column_align := false; wire := [] |} in
  let self := _write8 0x33 false self in
  let self := _write8 0x32 false self in
  let self :=
    set_displaycontrol
      (Z.lor (Z.lor _LCD_DISPLAYON _LCD_CURSOROFF) _LCD_BLINKOFF) self in
  let self :=
    {| columns := columns; lines := lines;
       displaycontrol := displaycontrol self;
       displayfunction :=
         Z.lor (Z.lor (Z.lor _LCD_4BITMODE _LCD_1LINE) _LCD_2LINE) _LCD_5X8DOTS;
       displaymode := Z.lor _LCD_ENTRYLEFT _LCD_ENTRYSHIFTDECREMENT;
       _message := None; _enable := None; _direction := None;
       row := 0; column := 0; _column_align := false; wire := wire self |} in
  let self := _write8 (Z.lor _LCD_DISPLAYCONTROL (displaycontrol self)) false self in
  let self := _write8 (Z.lor _LCD_FUNCTIONSET (displayfunction self)) false self in
  let self := _write8 (Z.lor _LCD_ENTRYMODESET (displaymode self)) false self in
  clear self.

End character_lcd_pcf8574.

(** * Vocabulary of the statements *)

Module fixtures.

Local Open Scope string_scope.
Local Open Scope Z_scope.

(** The end of a line of a text file. *)
Definition NL : string := String "010"%char EmptyString.

(** A stand-in for the croniter package in concrete runs: it accepts the
    expression of every minute and no other, and the next occurrence is the
    next full minute. *)
Definition every_minute : schedule.Croniter :=
  {| schedule.is_valid := fun sched => String.eqb sched "* * * * *";
     schedule.get_next := fun _ base => (base / seconds 60 + 1) * seconds 60 |}.

(** Two parse states put one after the other. *)
Definition then_parsed (p q : schedule.parsed) : schedule.parsed :=
  {| schedule.entries := schedule.entries p ++ schedule.entries q;
     schedule.stdout := schedule.stdout p ++ schedule.stdout q |}.

Definition nothing_parsed : schedule.parsed :=
  {| schedule.entries := []; schedule.stdout := [] |}.

(** The fields of a line, as [readCron] cuts them. *)
Definition fields (line : string) : list string :=
  Py.split " "%char (Py.rstrip line).

(** A line that is no comment and that has fewer than 6 fields, or whose
    first 5 fields croniter does not accept. *)
Definition too_short (line : string) : Prop :=
  (List.length (fields line) < 6)%nat.

Definition invalid_cron (cron : schedule.Croniter) (line : string) : Prop :=
  (6 <= List.length (fields line))%nat /\
  schedule.is_valid cron (Py.join " " (firstn 5 (fields line))) = false.

Definition malformed (cron : schedule.Croniter) (line : string) : Prop :=
  Py.startswith line "#" = false /\ (too_short line \/ invalid_cron cron line).

(** The report of [readCron] on a line that it could not split. *)
Definition invalid_entry_report (line : string) : string :=
  "[" ^^ Py.rstrip line ^^ "]: invalid entry: invalid lenght of cron entry".

(** Jobs ordered by fire time alone. *)
Definition by_time (a b : schedule.job) : Prop :=
  schedule.fireTime a <= schedule.fireTime b.

(** The test that no job of [data] fires before [j]. *)
Definition earliest (data : list schedule.job) (j : schedule.job) : bool :=
  forallb (fun j' => schedule.fireTime j <=? schedule.fireTime j') data.

(** The devices as [initDevices] leaves them, at time [t]: both relays off,
    nothing read, printed or scheduled yet. *)
Definition boot (t : datetime) : autoplant.World :=
  {| autoplant.now := t; autoplant.pump_value := true;
     autoplant.lamp_value := true; autoplant.lcd := [];
     autoplant.level_reads := 0; autoplant.dht_reads := 0;
     autoplant.awaits := 0; autoplant.slept := []; autoplant.stdout := [];
     autoplant.tasks := []; autoplant.call_soon := [] |}.

(** An outside in which the tank is full, the DHT device answers [reading]
    to every read, every sleep ends on time and [json.loads] answers
    [decoded]. *)
Definition calm (reading : Py.result Q) (decoded : Py.result Py.value)
    : autoplant.Env :=
  {| autoplant.level_value := fun _ => Py.Ok false;
     autoplant.dht_value := fun _ => reading;
     autoplant.wake := fun _ => Py.Ok 0%N;
     autoplant.json_loads := fun _ => decoded |}.

Definition no_json : Py.result Py.value :=
  Py.Raised (Py.Raise Py.ValueError "Expecting value").

(** The exception of [data[0]], [jobs[0]] on an empty list. *)
Definition index_error : Py.exc :=
  Py.Raise Py.IndexError "list index out of range".

(** The failure of a read of the DHT device. *)
Definition dht_failure : Py.result Q :=
  Py.Raised (Py.Raise Py.RuntimeError "Checksum did not validate. Try again.").

(** An outside in which the DHT device answers its first [n] reads with 21
    and fails from then on. *)
Definition dht_fails_after (n : nat) : autoplant.Env :=
  {| autoplant.level_value := fun _ => Py.Ok false;
     autoplant.dht_value := fun k => if (k <? n)%nat then Py.Ok 21%Q else dht_failure;
     autoplant.wake := fun _ => Py.Ok 0%N;
     autoplant.json_loads := fun _ => no_json |}.

(** Every sleep of the outside ends without an exception. *)
Definition undisturbed (env : autoplant.Env) : Prop :=
  forall k, exists late, autoplant.wake env k = Py.Ok late.

(** The level pin reads [samples], in this order, from the state [w] on. *)
Definition level_reads_are (env : autoplant.Env) (w : autoplant.World)
    (samples : list bool) : Prop :=
  forall k b, nth_error samples k = Some b ->
              autoplant.level_value env (autoplant.level_reads w + k) = Py.Ok b.

(** The number of samples that read [True]. *)
Definition count_true (samples : list bool) : nat :=
  List.length (filter (fun b : bool => b) samples).

(** An outside whose level pin reads [True] at the reads listed in [high]. *)
Definition level_high_at (high : list nat) : autoplant.Env :=
  {| autoplant.level_value := fun k => Py.Ok (existsb (Nat.eqb k) high);
     autoplant.dht_value := fun _ => Py.Ok 21%Q;
     autoplant.wake := fun _ => Py.Ok 0%N;
     autoplant.json_loads := fun _ => no_json |}.

(** An outside in which the task is cancelled at its [k]-th await. *)
Definition cancelled_at (k : nat) : autoplant.Env :=
  {| autoplant.level_value := fun _ => Py.Ok false;
     autoplant.dht_value := fun _ => Py.Ok 21%Q;
     autoplant.wake := fun i => if (i =? k)%nat
                                then Py.Raised (Py.Raise Py.CancelledError EmptyString)
                                else Py.Ok 0%N;
     autoplant.json_loads := fun _ => no_json |}.



(** The delays of the [time.sleep] calls of a trace, in order. *)
Definition delays (tr : list mqtt.event) : list Q :=
  flat_map (fun e => match e with mqtt.Sleep d => [d] | _ => [] end) tr.

(** The trace only grows. *)
Definition grows (w w' : mqtt.World) : Prop :=
  exists tr, mqtt.trace w' = (mqtt.trace w ++ tr)%list.



(** A device configuration for concrete runs. *)
Definition greenhouse : mqtt.Config :=
  {| mqtt.project_id := "garden"; mqtt.cloud_region := "us-central1";
     mqtt.registry_id := "plants"; mqtt.device_id := "rpi";
     mqtt.private_key_file := "rsa_private.pem"; mqtt.algorithm := "RS256";
     mqtt.ca_certs := "roots.pem";
     mqtt.mqtt_bridge_hostname := "mqtt.googleapis.com";
     mqtt.mqtt_bridge_port := 8883 |}.

(** The attributes of a link as [__init__] sets them, before it connects. *)
Definition unconnected (c : mqtt.Config) : mqtt.Mqtt :=
  {| mqtt.config := c;
     mqtt.publishing_default_topic := "/devices/" ^^ mqtt.device_id c ^^ "/events";
     mqtt.connected := false; mqtt.should_backoff := true;
     mqtt.minimum_backoff_time := 1; mqtt.jwt_exp_mins := 60;
     mqtt.jwt_iat := 0;
     mqtt.client := {| mqtt.client_id := EmptyString; mqtt.password := None |} |}.

(** The outside of the link at time [t], nothing done yet. *)
Definition offline (t : datetime) : mqtt.World :=
  {| mqtt.utcnow := t; mqtt.draws := 0; mqtt.turns := 0; mqtt.trace := [] |}.

(** A network on which nothing ever answers, with a random source that
    always draws [r]. *)
Definition dead_network (r : Z) : mqtt.Env :=
  {| mqtt.random_source := fun _ => r; mqtt.network := fun _ => [] |}.

(** A link whose token was issued at [t0], for 60 minutes. *)
Definition token_of (t0 : datetime) : mqtt.JWT :=
  {| mqtt.iat := t0; mqtt.exp := t0 + seconds (60 * 60); mqtt.aud := "garden" |}.

Definition linked (t0 : datetime) : mqtt.Mqtt :=
  {| mqtt.config := greenhouse;
     mqtt.publishing_default_topic := "/devices/rpi/events";
     mqtt.connected := true; mqtt.should_backoff := false;
     mqtt.minimum_backoff_time := 1; mqtt.jwt_exp_mins := 60;
     mqtt.jwt_iat := t0;
     mqtt.client := {| mqtt.client_id := "projects/garden/locations/us-central1/registries/plants/devices/rpi";
                       mqtt.password := Some (token_of t0) |} |}.


(** The level pin reads [False] (the tank is not empty) at the [k] reads
    that follow the state [w]. *)
Definition tank_full_for (env : autoplant.Env) (w : autoplant.World) (k : nat)
    : Prop :=
  forall i, (i < k)%nat ->
            autoplant.level_value env (autoplant.level_reads w + i) = Py.Ok false.

(** Every sleep ends on time and without an exception. *)
Definition on_time (env : autoplant.Env) : Prop :=
  forall k, autoplant.wake env k = Py.Ok 0%N.

(** The tasks that [updateSchedule] creates for a batch: one for each job
    whose command is [lamp] or [pump], in the order of the batch. *)
Definition launched (jobs : list schedule.job) : list autoplant.coroutine :=
  flat_map (fun j =>
              if String.eqb (schedule.command j) "lamp"
              then [autoplant.doLight_co (map Py.VStr (schedule.args j))]
              else if String.eqb (schedule.command j) "pump"
                   then [autoplant.doWatering_co (map Py.VStr (schedule.args j))]
                   else []) jobs.

(** The batch is due: its fire time is less than 60 seconds after [t]. *)
Definition due (jobs : list schedule.job) (t : datetime) : bool :=
  match jobs with
  | first :: _ => schedule.fireTime first - t <? seconds 60
  | [] => false
  end.

(** From the state [w] on the DHT device answers the temperatures [ts] and
    the humidities [hs], in turn. *)
Definition dht_reads_are (env : autoplant.Env) (w : autoplant.World)
    (ts hs : list Q) : Prop :=
  forall i t h,
    nth_error ts i = Some t -> nth_error hs i = Some h ->
    autoplant.dht_value env (autoplant.dht_reads w + 2 * i) = Py.Ok t /\
    autoplant.dht_value env (autoplant.dht_reads w + 2 * i + 1) = Py.Ok h.

(** All the values of [l] lie between [lo] and [hi]. *)
Definition within (lo hi : Q) (l : list Q) : Prop :=
  Forall (fun x => (lo <= x <= hi)%Q) l.

(** [rest] is [l] without one greatest and one least element. *)
Definition trimmed (l rest : list Q) : Prop :=
  exists a b,
    Permutation l (a :: b :: rest) /\
    Forall (fun x => (x <= a)%Q) l /\ Forall (fun x => (b <= x)%Q) l.

(** An outside whose DHT device answers the readings of [values] in turn,
    and 0 after them; the tank is full and every sleep ends on time. *)
Definition dht_answers (values : list Q) : autoplant.Env :=
  {| autoplant.level_value := fun _ => Py.Ok false;
     autoplant.dht_value := fun k => Py.Ok (nth k values 0%Q);
     autoplant.wake := fun _ => Py.Ok 0%N;
     autoplant.json_loads := fun _ => no_json |}.

(** What one round of [getAndPublishMeasurements] shows and hands to the
    client for the means [temp] and [humid] and the level [level]. *)
Definition shown (temp humid : Q) (level : bool) : list autoplant.display_op :=
  [autoplant.clear;
   if level then autoplant.message "tank empty" []
   else autoplant.message "Temp: {:.1f} C\nHumidity: {:.1f} %"
          [Py.VFloat temp; Py.VFloat humid]].

Definition queued (temp humid : Q) (level : bool) : list (string * Py.value) :=
  [("temp", Py.VFloat temp); ("humid", Py.VFloat humid);
   ("level", autoplant.level_text level)].

(** Between [w] and [w'] the display, the queue of the client, the tasks and
    the two relays were left alone. *)
Definition only_sensed (w w' : autoplant.World) : Prop :=
  autoplant.lcd w' = autoplant.lcd w /\
  autoplant.call_soon w' = autoplant.call_soon w /\
  autoplant.tasks w' = autoplant.tasks w /\
  autoplant.pump_value w' = autoplant.pump_value w /\
  autoplant.lamp_value w' = autoplant.lamp_value w.


(** No connection is acknowledged before the point [k] at which the main
    thread looks at the flags. *)
Definition quiet (env : mqtt.Env) (k : nat) : Prop :=
  forall rc, ~ In (mqtt.connack rc) (mqtt.network env k).

(** The last callback that ran before the point [k] is [on_connect]. *)
Definition acknowledged (env : mqtt.Env) (k : nat) : Prop :=
  exists cbs rc, mqtt.network env k = (cbs ++ [mqtt.connack rc])%list.

(** The attributes that a callback leaves as they are. *)
Definition same_settings (self self' : mqtt.Mqtt) : Prop :=
  mqtt.config self' = mqtt.config self /\
  mqtt.publishing_default_topic self' = mqtt.publishing_default_topic self /\
  mqtt.jwt_exp_mins self' = mqtt.jwt_exp_mins self /\
  mqtt.jwt_iat self' = mqtt.jwt_iat self /\
  mqtt.client self' = mqtt.client self.

(** Between [w] and [w'] nothing slept and nothing was drawn. *)
Definition no_wait (w w' : mqtt.World) : Prop :=
  mqtt.utcnow w' = mqtt.utcnow w /\ mqtt.draws w' = mqtt.draws w /\
  delays (mqtt.trace w') = delays (mqtt.trace w) /\ grows w w'.

(** The token that [create_jwt] makes at time [t] for the project of [c]. *)
Definition token_at (c : mqtt.Config) (t : datetime) : mqtt.JWT :=
  {| mqtt.iat := t; mqtt.exp := t + seconds (60 * 60);
     mqtt.aud := mqtt.project_id c |}.

(** A network that acknowledges the connection before the point [k] and is
    silent at every other point, with a random source that always draws
    [r]. *)
Definition answers_at (k : nat) (r : Z) : mqtt.Env :=
  {| mqtt.random_source := fun _ => r;
     mqtt.network := fun i => if (i =? k)%nat then [mqtt.connack 0] else [] |}.

(** The topic that [publish] sends to. *)
Definition topic_of (self : mqtt.Mqtt) (topic : string) : string :=
  if String.eqb topic EmptyString then mqtt.publishing_default_topic self
  else topic.

End fixtures.

(** ** Vocabulary for the display *)

Module lcd_fixtures.
Import character_lcd_pcf8574.

Local Open Scope string_scope.
Local Open Scope list_scope.
Local Open Scope Z_scope.

(** The bytes sent as data, and those sent as instructions. *)
Definition data_bytes (w : list io) : list Z :=
  flat_map (fun e => match e with
                     | Send value rs => if rs =? _RS_DATA then [value] else []
                     | _ => []
                     end) w.

Definition instructions (w : list io) : list Z :=
  flat_map (fun e => match e with
                     | Send value rs => if rs =? _RS_INSTRUCTION then [value] else []
                     | _ => []
                     end) w.

(** The characters of a message that are no line feed, and the number of
    its line feeds. *)
Fixpoint printable (message : string) : list ascii :=
  match message with
  | EmptyString => []
  | String c rest =>
      if Ascii.eqb c "010"%char then printable rest else c :: printable rest
  end.

Fixpoint line_feeds (message : string) : nat :=
  match message with
  | EmptyString => O
  | String c rest =>
      if Ascii.eqb c "010"%char then S (line_feeds rest) else line_feeds rest
  end.


End lcd_fixtures.

(** * Properties *)

(** ** The job scheduler *)

Module schedule_facts.
Import schedule fixtures.

Local Open Scope string_scope.
Local Open Scope list_scope.
Local Open Scope Z_scope.

(** *** The string operations and [int] *)

Example split_keeps_empty_fields :
  Py.split " "%char "* *  pump " = ["*"; "*"; EmptyString; "pump"; EmptyString].
Proof. reflexivity. Qed.

Example rstrip_removes_the_end_of_line :
  Py.rstrip ("0 6 * * * pump 15 " ^^ NL) = "0 6 * * * pump 15".
Proof. reflexivity. Qed.

Example int_of_the_argument_of_a_job :
  Py.int (Py.VStr " 15") = Py.Ok 15 /\
  Py.int (Py.VStr "1_000") = Py.Ok 1000 /\
  Py.int (Py.VStr "-7") = Py.Ok (-7) /\
  Py.int (Py.VStr "5s")
  = Py.Raised (Py.Raise Py.ValueError "invalid literal for int() with base 10").
Proof. repeat split; reflexivity. Qed.

Lemma job_ltb_true a b : job_ltb a b = true -> by_time a b.
Proof.
  unfold job_ltb, by_time.
  destruct (Z.eqb_spec (fireTime a) (fireTime b)) as [E | E]; simpl.
  - intros _. lia.
  - intros H. apply Z.ltb_lt in H. lia.
Qed.

Lemma job_ltb_false a b : job_ltb a b = false -> by_time b a.
Proof.
  unfold job_ltb, by_time.
  destruct (Z.eqb_spec (fireTime a) (fireTime b)) as [E | E]; simpl.
  - intros _. lia.
  - intros H. apply Z.ltb_ge in H. exact H.
Qed.

Lemma insert_perm x l : Permutation (insert x l) (x :: l).
Proof.
  induction l as [| y l IH]; simpl.
  - apply Permutation_refl.
  - destruct (job_ltb y x).
    + eapply perm_trans; [apply perm_skip, IH | apply perm_swap].
    + apply Permutation_refl.
Qed.

Lemma sort_perm l : Permutation (sort l) l.
Proof.
  induction l as [| x l IH]; simpl.
  - constructor.
  - eapply perm_trans; [apply insert_perm | apply perm_skip, IH].
Qed.

Lemma insert_sorted x l :
  StronglySorted by_time l -> StronglySorted by_time (insert x l).
Proof.
  induction 1 as [| y l Hs IH Hall]; simpl.
  - repeat constructor.
  - destruct (job_ltb y x) eqn:E.
    + constructor; [exact IH |].
      apply (Permutation_Forall (Permutation_sym (insert_perm x l))).
      constructor; [apply job_ltb_true, E | exact Hall].
    + apply job_ltb_false in E.
      constructor; [constructor; assumption |].
      constructor; [exact E |].
      eapply Forall_impl; [| exact Hall].
      unfold by_time in *. intros; lia.
Qed.

Lemma sort_sorted l : StronglySorted by_time (sort l).
Proof.
  induction l as [| x l IH]; simpl; [constructor | apply insert_sorted, IH].
Qed.

(** On a list sorted by time the loop of [getNextJobs] keeps exactly the
    jobs that fire with the first one. *)
Lemma same_time_filter first rest :
  StronglySorted by_time (first :: rest) ->
  same_time (fireTime first) rest
  = filter (fun j => fireTime j =? fireTime first) rest.
Proof.
  induction rest as [| j rest IH]; intros Hs; simpl; [reflexivity |].
  inversion Hs as [| ? ? Hrest Hall]; subst.
  inversion Hrest as [| ? ? Hrest' Hall']; subst.
  inversion Hall as [| ? ? Hj Hall'']; subst.
  destruct (Z.eqb_spec (fireTime j) (fireTime first)) as [E | E].
  - f_equal. apply IH. constructor; assumption.
  - transitivity (filter (fun _ : job => false) rest);
      [symmetry; apply filter_false |].
    apply filter_ext_in. intros k Hk. symmetry. apply Z.eqb_neq.
    rewrite Forall_forall in Hall'. specialize (Hall' k Hk).
    unfold by_time in *. lia.
Qed.

Lemma filter_perm (p : job -> bool) l l' :
  Permutation l l' -> Permutation (filter p l) (filter p l').
Proof.
  induction 1 as [| x l l' _ IH | x y l | l l' l'' _ IH1 _ IH2]; simpl.
  - constructor.
  - destruct (p x); [apply perm_skip |]; exact IH.
  - destruct (p x), (p y); try apply Permutation_refl. apply perm_swap.
  - eapply perm_trans; eassumption.
Qed.

Lemma earliest_spec data j :
  earliest data j = true <-> (forall j', In j' data -> fireTime j <= fireTime j').
Proof.
  unfold earliest. rewrite forallb_forall.
  split; intros H j' Hj'; specialize (H j' Hj'); [apply Z.leb_le | apply Z.leb_le]; exact H.
Qed.

(** The head of a list sorted by time is one of the earliest jobs, and the
    earliest jobs are those that fire with it. *)
Lemma earliest_head first rest j :
  StronglySorted by_time (first :: rest) ->
  In j (first :: rest) ->
  earliest (first :: rest) j = (fireTime j =? fireTime first).
Proof.
  intros Hs Hj.
  inversion Hs as [| ? ? _ Hall]; subst.
  assert (Hmin : forall k, In k (first :: rest) -> fireTime first <= fireTime k).
  { intros k [<- | Hk]; [lia |]. rewrite Forall_forall in Hall. apply Hall, Hk. }
  destruct (Z.eqb_spec (fireTime j) (fireTime first)) as [E | E].
  - apply earliest_spec. intros k Hk. rewrite E. apply Hmin, Hk.
  - apply not_true_is_false. intros H.
    rewrite earliest_spec in H.
    specialize (H first (or_introl eq_refl)). specialize (Hmin j Hj). lia.
Qed.

Lemma earliest_perm l l' j : Permutation l l' -> earliest l j = earliest l' j.
Proof.
  intros HP. apply eq_true_iff_eq. rewrite !earliest_spec.
  split; intros H k Hk; apply H.
  - eapply Permutation_in; [apply Permutation_sym, HP | exact Hk].
  - eapply Permutation_in; [exact HP | exact Hk].
Qed.

(** What [nextBatch] returns on a table that is not empty. *)
Lemma nextBatch_filter data :
  data <> [] ->
  exists first rest,
    sort data = first :: rest /\
    nextBatch data = Py.Ok (filter (earliest data) (sort data)).
Proof.
  intros Hne. unfold nextBatch.
  pose proof (sort_sorted data) as Hs.
  pose proof (sort_perm data) as HP.
  destruct (sort data) as [| first rest] eqn:E.
  - apply Permutation_nil in HP. contradiction.
  - exists first, rest. split; [reflexivity |].
    rewrite (same_time_filter first rest Hs).
    f_equal.
    transitivity (filter (fun j => fireTime j =? fireTime first) (first :: rest)).
    + simpl. rewrite Z.eqb_refl. reflexivity.
    + apply filter_ext_in. intros j Hj.
      rewrite (earliest_perm _ _ j (Permutation_sym HP)).
      symmetry. apply earliest_head; assumption.
Qed.

(** C5.  On every job table that is not empty, [getNextJobs] returns, after
    [readCron], exactly the entries whose fire time is the least of the table:
    the batch is a permutation of the entries that no entry precedes, so every
    tie is in it, each with its multiplicity, no later entry is, the batch is
    not empty and all its members fire together.  In particular a table of three
    entries at [T], [T] and [T + 5] gives the two entries at [T]. *)
Theorem nextBatch_is_the_minimum_fireTime_batch (data : list job) :
  data <> [] ->
  exists jobs,
    nextBatch data = Py.Ok jobs /\
    jobs <> [] /\
    Permutation jobs (filter (earliest data) data) /\
    (forall j, In j jobs <->
               In j data /\ forall j', In j' data -> fireTime j <= fireTime j') /\
    (forall j j', In j jobs -> In j' jobs -> fireTime j = fireTime j') /\
    (forall T e1 e2 e3,
        Permutation data [e1; e2; e3] ->
        fireTime e1 = T -> fireTime e2 = T -> fireTime e3 = T + seconds 5 ->
        Permutation jobs [e1; e2]).
Proof.
  intros Hne.
  destruct (nextBatch_filter data Hne) as (first & rest & Hsort & Hnext).
  pose proof (sort_sorted data) as Hs.
  pose proof (sort_perm data) as HP.
  exists (filter (earliest data) (sort data)).
  assert (Hin : forall j, In j (filter (earliest data) (sort data)) <->
               In j data /\ forall j', In j' data -> fireTime j <= fireTime j').
  { intros j. rewrite filter_In, earliest_spec. split; intros [H1 H2]; split; auto.
    - eapply Permutation_in; [exact HP | exact H1].
    - eapply Permutation_in; [apply Permutation_sym, HP | exact H1]. }
  assert (Hperm : Permutation (filter (earliest data) (sort data))
                    (filter (earliest data) data))
    by (apply filter_perm, HP).
  split; [exact Hnext |].
  split.
  { intros Hnil.
    assert (Hf : In first (filter (earliest data) (sort data))).
    { apply filter_In. rewrite Hsort. split; [left; reflexivity |].
      rewrite (earliest_perm _ _ first (Permutation_sym HP)), Hsort.
      rewrite Hsort in Hs.
      rewrite (earliest_head first rest first Hs (or_introl eq_refl)).
      apply Z.eqb_refl. }
    rewrite Hnil in Hf. exact Hf. }
  split; [exact Hperm |].
  split; [exact Hin |].
  split.
  { intros j j' Hj Hj'. apply Hin in Hj, Hj'.
    destruct Hj as [Hj Hmin], Hj' as [Hj' Hmin'].
    specialize (Hmin j' Hj'). specialize (Hmin' j Hj). lia. }
  intros T e1 e2 e3 Hd H1 H2 H3.
  eapply perm_trans; [exact Hperm |].
  eapply perm_trans; [apply filter_perm, Hd |].
  assert (Hall : forall j, earliest data j = earliest [e1; e2; e3] j)
    by (intros j; apply earliest_perm, Hd).
  rewrite (filter_ext _ _ Hall).
  unfold earliest, seconds in *; simpl. rewrite H1, H2, H3.
  repeat match goal with
         | |- context [?a <=? ?b] => destruct (Z.leb_spec a b); try lia
         end.
  simpl. apply Permutation_refl.
Qed.

Lemma nextBatch_is_the_minimum_fireTime_batch_witness :
  exists jobs,
    nextBatch [(7, "pump", ["5"]); (7 + seconds 5, "lamp", []); (7, "lamp", ["3"])]
    = Py.Ok jobs /\
    Permutation jobs [(7, "pump", ["5"]); (7, "lamp", ["3"])].
Proof.
  destruct (nextBatch_is_the_minimum_fireTime_batch
              [(7, "pump", ["5"]); (7 + seconds 5, "lamp", []); (7, "lamp", ["3"])])
    as (jobs & Hn & _ & _ & _ & _ & Hex).
  - discriminate.
  - exists jobs. split; [exact Hn |].
    apply (Hex 7 (7, "pump", ["5"]) (7, "lamp", ["3"]) (7 + seconds 5, "lamp", [])).
    + apply perm_skip, perm_swap.
    + reflexivity.
    + reflexivity.
    + reflexivity.
Defined.

(** *** [readCron] *)

Lemma split_entry_fields line :
  split_entry line
  = if (List.length (fields line) <? 6)%nat
    then Py.Raised (Py.Raise Py.Exception "invalid lenght of cron entry")
    else Py.Ok (Py.join " " (firstn 5 (fields line)), skipn 5 (fields line)).
Proof. reflexivity. Qed.

(** The command part of a line that could be split is not empty, so that
    [cmd[0]] exists. *)
Lemma split_entry_cmd line sched cmd :
  split_entry line = Py.Ok (sched, cmd) -> cmd <> [].
Proof.
  rewrite split_entry_fields.
  destruct (Nat.ltb_spec (List.length (fields line)) 6) as [H | H]; [discriminate |].
  intros E. injection E as _ Hcmd. subst cmd.
  destruct (fields line) as [| ? [| ? [| ? [| ? [| ? [| ? ?]]]]]];
    simpl in H; try lia.
  discriminate.
Qed.

(** One line adds to the parse state what it gives on its own. *)
Lemma readCron_line_frame cron base p line :
  exists q,
    readCron_line cron base nothing_parsed line = Py.Ok q /\
    readCron_line cron base p line = Py.Ok (then_parsed p q).
Proof.
  unfold readCron_line.
  destruct (Py.startswith line "#").
  - eexists. split; [reflexivity |].
    unfold then_parsed, print; simpl. rewrite app_nil_r. reflexivity.
  - destruct (split_entry line) as [[sched cmd] | e] eqn:E.
    + destruct (is_valid cron sched).
      * destruct cmd as [| cmd0 rest].
        { exfalso. exact (split_entry_cmd _ _ _ E eq_refl). }
        eexists. split; [reflexivity |].
        unfold then_parsed, append, print; simpl.
        rewrite <- !app_assoc. reflexivity.
      * eexists. split; [reflexivity |].
        unfold then_parsed, print; simpl. rewrite app_nil_r. reflexivity.
    + eexists. split; [reflexivity |].
      unfold then_parsed, print; simpl.
      rewrite app_nil_r, <- !app_assoc. reflexivity.
Qed.

Lemma then_parsed_assoc p q r :
  then_parsed (then_parsed p q) r = then_parsed p (then_parsed q r).
Proof. unfold then_parsed; simpl. rewrite !app_assoc. reflexivity. Qed.

Lemma then_parsed_nothing p : then_parsed p nothing_parsed = p.
Proof. destruct p. unfold then_parsed; simpl. rewrite !app_nil_r. reflexivity. Qed.

Lemma nothing_then_parsed p : then_parsed nothing_parsed p = p.
Proof. destruct p. reflexivity. Qed.

(** [readCron] never raises, and the loop adds to any parse state what the
    file gives on its own. *)
Lemma readCron_loop_frame cron base f :
  exists q,
    readCron cron base f = Py.Ok q /\
    forall p, readCron_loop cron base p f = Py.Ok (then_parsed p q).
Proof.
  unfold readCron.
  induction f as [| line f IH]; simpl.
  - exists nothing_parsed. split; [reflexivity |].
    intros p. rewrite then_parsed_nothing. reflexivity.
  - destruct IH as (q & _ & IH).
    destruct (readCron_line_frame cron base nothing_parsed line) as (q1 & H1 & _).
    exists (then_parsed q1 q). split.
    + fold nothing_parsed. rewrite H1. apply IH.
    + intros p.
      destruct (readCron_line_frame cron base p line) as (q1' & H1' & Hp).
      rewrite H1 in H1'. injection H1' as <-.
      rewrite Hp, IH. rewrite then_parsed_assoc. reflexivity.
Qed.

Lemma readCron_total cron base f : exists q, readCron cron base f = Py.Ok q.
Proof. destruct (readCron_loop_frame cron base f) as (q & H & _). eauto. Qed.

Lemma readCron_loop_app cron base f g p :
  readCron_loop cron base p (f ++ g)
  = match readCron_loop cron base p f with
    | Py.Ok p' => readCron_loop cron base p' g
    | Py.Raised e => Py.Raised e
    end.
Proof.
  revert p. induction f as [| line f IH]; intros p; simpl; [reflexivity |].
  destruct (readCron_line cron base p line); [apply IH | reflexivity].
Qed.

(** The parse of a file is the parse of its parts, one after the other. *)
Lemma readCron_app cron base f g :
  exists qf qg,
    readCron cron base f = Py.Ok qf /\
    readCron cron base g = Py.Ok qg /\
    readCron cron base (f ++ g) = Py.Ok (then_parsed qf qg).
Proof.
  destruct (readCron_loop_frame cron base f) as (qf & Hf & _).
  destruct (readCron_loop_frame cron base g) as (qg & Hg & Hgp).
  exists qf, qg. repeat split; try assumption.
  unfold readCron in *. rewrite readCron_loop_app, Hf. apply Hgp.
Qed.

(** What [readCron] does with a single malformed line. *)
Lemma readCron_too_short cron base line :
  Py.startswith line "#" = false -> too_short line ->
  readCron cron base [line]
  = Py.Ok {| entries := [];
             stdout := ["line content: " ^^ Py.rstrip line;
                        invalid_entry_report line] |}.
Proof.
  intros Hc Hs. unfold readCron; simpl. unfold readCron_line.
  rewrite Hc, split_entry_fields.
  apply Nat.ltb_lt in Hs. rewrite Hs. reflexivity.
Qed.

Lemma readCron_invalid_cron cron base line :
  Py.startswith line "#" = false -> invalid_cron cron line ->
  readCron cron base [line]
  = Py.Ok {| entries := []; stdout := ["line content: " ^^ Py.rstrip line] |}.
Proof.
  intros Hc [Hl Hv]. unfold readCron; simpl. unfold readCron_line.
  rewrite Hc, split_entry_fields.
  apply Nat.ltb_ge in Hl. rewrite Hl, Hv. reflexivity.
Qed.


(** X3.  A malformed line (too few fields, or
    a schedule that croniter does not accept) gives no entry and does not
    stop the parse: the entries of the file are those of the lines before it
    followed by those of the lines after it.  A line with fewer than 6
    fields is reported. *)
Lemma malformed_line_is_skipped cron base before line after :
  malformed cron line ->
  exists qb qa q,
    readCron cron base before = Py.Ok qb /\
    readCron cron base after = Py.Ok qa /\
    readCron cron base (before ++ line :: after) = Py.Ok q /\
    entries q = entries qb ++ entries qa /\
    (too_short line -> In (invalid_entry_report line) (stdout q)).
Proof.
  intros [Hc Hm].
  destruct (readCron_app cron base before (line :: after)) as (qb & ql & Hb & Hl & Hbl).
  destruct (readCron_app cron base [line] after) as (q1 & qa & H1 & Ha & H1a).
  simpl in H1a. rewrite H1a in Hl. injection Hl as <-.
  exists qb, qa, (then_parsed qb (then_parsed q1 qa)).
  repeat split; try assumption.
  - destruct Hm as [Hs | Hi];
      [rewrite (readCron_too_short _ _ _ Hc Hs) in H1
      | rewrite (readCron_invalid_cron _ _ _ Hc Hi) in H1];
      injection H1 as <-; reflexivity.
  - intros Hs. rewrite (readCron_too_short _ _ _ Hc Hs) in H1. injection H1 as <-.
    simpl. apply in_or_app. right. right. left. reflexivity.
Qed.

(** A file of comments and malformed lines gives an empty table. *)
Lemma readCron_without_valid_lines cron base f :
  Forall (fun line => Py.startswith line "#" = true \/ malformed cron line) f ->
  exists p, readCron cron base f = Py.Ok p /\ entries p = [].
Proof.
  induction 1 as [| line f Hline _ IH].
  - exists nothing_parsed. split; reflexivity.
  - destruct IH as (pf & Hf & Hnil).
    destruct (readCron_app cron base [line] f) as (q1 & qf & H1 & Hf' & H).
    rewrite Hf in Hf'. injection Hf' as <-.
    exists (then_parsed q1 pf). split; [exact H |].
    simpl. rewrite Hnil, app_nil_r.
    destruct Hline as [Hc | [Hc [Hs | Hi]]].
    + unfold readCron in H1; simpl in H1. unfold readCron_line in H1.
      rewrite Hc in H1. injection H1 as <-. reflexivity.
    + rewrite (readCron_too_short _ _ _ Hc Hs) in H1. injection H1 as <-. reflexivity.
    + rewrite (readCron_invalid_cron _ _ _ Hc Hi) in H1. injection H1 as <-. reflexivity.
Qed.

(** C6.  The line [61 * * * * pump 5] has 7 fields and its first 5 are no
    cron expression.  [readCron] gives no entry for it and parses the next
    line, but all it prints for it is the echo of the line: no report of an
    invalid entry, which a line that is too short does get. *)
Theorem invalid_cron_line_is_not_reported (base : datetime) :
  readCron every_minute base ["61 * * * * pump 5" ^^ NL; "* * * * * lamp 3" ^^ NL]
  = Py.Ok {| entries := [(get_next every_minute "* * * * *" base, "lamp", ["3"])];
             stdout := ["line content: 61 * * * * pump 5";
                        "line content: * * * * * lamp 3";
                        "have valid cron entry [* * * * *]"] |} /\
  readCron every_minute base ["61 * * *" ^^ NL]
  = Py.Ok {| entries := [];
             stdout := ["line content: 61 * * *";
                        "[61 * * *]: invalid entry: invalid lenght of cron entry"] |}.
Proof. split; reflexivity. Qed.


(** *** The fields of a line *)

Lemma split_not_nil sep s : Py.split sep s <> [].
Proof.
  destruct s as [| c s]; cbn [Py.split]; [discriminate |].
  destruct (Ascii.eqb c sep); [discriminate |].
  destruct (Py.split sep s); discriminate.
Qed.

(** Joining the fields with the separator gives the string back. *)
Lemma join_split s : Py.join " " (Py.split " "%char s) = s.
Proof.
  unfold Py.join. induction s as [| c s IH]; [reflexivity |].
  cbn [Py.split].
  destruct (Py.split " "%char s) as [| f fs] eqn:E;
    [exact (match split_not_nil _ _ E with end) |].
  destruct (Ascii.eqb_spec c " "%char) as [-> | Hc].
  - change (String.concat " " (EmptyString :: f :: fs))
      with (" " ^^ String.concat " " (f :: fs)).
    rewrite IH. reflexivity.
  - rewrite <- IH. destruct fs; reflexivity.
Qed.

(** No field holds the separator: splitting a field again leaves it whole. *)
Lemma split_fields_whole s :
  Forall (fun f => Py.split " "%char f = [f]) (Py.split " "%char s).
Proof.
  induction s as [| c s IH]; cbn [Py.split].
  - constructor; [reflexivity | constructor].
  - destruct (Ascii.eqb c " "%char) eqn:Ec.
    + constructor; [reflexivity | exact IH].
    + destruct (Py.split " "%char s) as [| f fs] eqn:E;
        [exact (match split_not_nil _ _ E with end) |].
      inversion IH as [| ? ? Hf Hfs]; subst.
      constructor; [| exact Hfs].
      cbn [Py.split]. rewrite Ec, Hf. reflexivity.
Qed.

Lemma split_whole_app f rest :
  Py.split " "%char f = [f] ->
  Py.split " "%char (f ^^ " " ^^ rest) = f :: Py.split " "%char rest.
Proof.
  induction f as [| c f IH]; intros H; [reflexivity |].
  cbn [Py.split String.append] in *.
  destruct (Ascii.eqb c " "%char); [discriminate |].
  destruct (Py.split " "%char f) as [| g gs] eqn:E;
    [exact (match split_not_nil _ _ E with end) |].
  injection H as Hg Hgs. subst g gs.
  rewrite (IH eq_refl). reflexivity.
Qed.

(** Splitting the join of whole fields gives the fields back. *)
Lemma split_join l :
  l <> [] -> Forall (fun f => Py.split " "%char f = [f]) l ->
  Py.split " "%char (Py.join " " l) = l.
Proof.
  unfold Py.join. induction l as [| f l IH]; intros Hne Hl; [contradiction |].
  inversion Hl as [| ? ? Hf Hrest]; subst.
  destruct l as [| g l]; [exact Hf |].
  change (String.concat " " (f :: g :: l)) with (f ^^ " " ^^ String.concat " " (g :: l)).
  rewrite (split_whole_app _ _ Hf), IH; [reflexivity | discriminate | exact Hrest].
Qed.

Lemma append_assoc (a b c : string) : (a ^^ b) ^^ c = a ^^ b ^^ c.
Proof. induction a as [| x a IH]; cbn [String.append]; [| rewrite IH]; reflexivity. Qed.

Lemma join_app l1 l2 :
  l1 <> [] -> l2 <> [] ->
  Py.join " " (l1 ++ l2) = Py.join " " l1 ^^ " " ^^ Py.join " " l2.
Proof.
  unfold Py.join. intros H1 H2. induction l1 as [| f l1 IH]; [contradiction |].
  destruct l1 as [| g l1].
  - destruct l2; [contradiction | reflexivity].
  - change (String.concat " " ((f :: g :: l1) ++ l2))
      with (f ^^ " " ^^ String.concat " " ((g :: l1) ++ l2)).
    rewrite IH by discriminate.
    change (String.concat " " (f :: g :: l1)) with (f ^^ " " ^^ String.concat " " (g :: l1)).
    rewrite !append_assoc. reflexivity.
Qed.

(** X1.  When [readCron]
    can split a line, the schedule and the command that it takes from the
    line put the line together again: the schedule, a space and the fields
    of the command joined by spaces are the line without its trailing white
    space.  The schedule has exactly 5 fields, the command has at least
    one, and no field of the command holds a space. *)
Theorem split_entry_cuts_the_line_at_its_fifth_space
    (line sched : string) (cmd : list string) :
  split_entry line = Py.Ok (sched, cmd) ->
  sched ^^ " " ^^ Py.join " " cmd = Py.rstrip line /\
  Py.split " "%char sched = firstn 5 (fields line) /\
  List.length (Py.split " "%char sched) = 5%nat /\
  cmd <> [] /\
  Forall (fun f => Py.split " "%char f = [f]) cmd.
Proof.
  intros H. pose proof (split_entry_cmd _ _ _ H) as Hcmd.
  rewrite split_entry_fields in H.
  destruct (Nat.ltb_spec (List.length (fields line)) 6) as [Hl | Hl]; [discriminate |].
  assert (Es : sched = Py.join " " (firstn 5 (fields line))) by congruence.
  assert (Ec : cmd = skipn 5 (fields line)) by congruence.
  clear H. subst sched cmd.
  pose proof (split_fields_whole (Py.rstrip line)) as Hw. fold (fields line) in Hw.
  assert (H5 : firstn 5 (fields line) <> []).
  { intros E. apply (f_equal (@List.length string)) in E.
    rewrite length_firstn in E. cbn [List.length] in E. lia. }
  assert (Hw5 : Forall (fun f => Py.split " "%char f = [f]) (firstn 5 (fields line))).
  { rewrite Forall_forall in *. intros f Hf. apply Hw.
    rewrite <- (firstn_skipn 5 (fields line)). apply in_or_app. left. exact Hf. }
  split; [| split; [| split; [| split]]].
  - rewrite <- join_app by assumption.
    rewrite firstn_skipn. apply join_split.
  - apply split_join; assumption.
  - rewrite split_join by assumption. rewrite length_firstn. lia.
  - exact Hcmd.
  - rewrite Forall_forall in *. intros f Hf. apply Hw.
    rewrite <- (firstn_skipn 5 (fields line)). apply in_or_app. right. exact Hf.
Qed.

Lemma split_entry_cuts_the_line_at_its_fifth_space_witness :
  "*/5 8-18 * * 1-5" ^^ " " ^^ Py.join " " ["pump"; "15"]
  = Py.rstrip ("*/5 8-18 * * 1-5 pump 15" ^^ NL).
Proof.
  apply (split_entry_cuts_the_line_at_its_fifth_space
           ("*/5 8-18 * * 1-5 pump 15" ^^ NL) "*/5 8-18 * * 1-5" ["pump"; "15"]).
  reflexivity.
Defined.

(** *** The lines of a file *)




(** X5.  A schedule file whose
    lines are all comments or malformed, and so the empty file too, gives an
    empty table, and [getNextJobs] then raises the [IndexError] of
    [data[0]]. *)
Theorem a_file_without_valid_lines_gives_no_batch
    (cron : Croniter) (base : datetime) (f : list string) :
  Forall (fun line => Py.startswith line "#" = true \/ malformed cron line) f ->
  exists p,
    readCron cron base f = Py.Ok p /\ entries p = [] /\
    getNextJobs cron base f = (Py.Raised index_error, stdout p).
Proof.
  intros Hf.
  destruct (readCron_without_valid_lines cron base f Hf) as (p & Hp & Hnil).
  exists p. split; [exact Hp |]. split; [exact Hnil |].
  unfold getNextJobs. rewrite Hp, Hnil. reflexivity.
Qed.

Lemma a_file_without_valid_lines_gives_no_batch_witness :
  fst (getNextJobs every_minute 0 ["# only a comment" ^^ NL; "pump 5" ^^ NL])
  = Py.Raised index_error.
Proof.
  destruct (a_file_without_valid_lines_gives_no_batch every_minute 0
              ["# only a comment" ^^ NL; "pump 5" ^^ NL])
    as (p & _ & _ & H).
  - constructor; [left; reflexivity |].
    constructor; [| constructor].
    right. split; [reflexivity |]. left. unfold too_short. vm_compute. lia.
  - rewrite H. reflexivity.
Defined.

Lemma malformed_line_is_skipped_witness :
  exists q,
    readCron every_minute 0
      (["* * * * * lamp 3" ^^ NL] ++ ("pump" ^^ NL) :: ["* * * * * pump 5" ^^ NL])
    = Py.Ok q /\
    entries q = [(seconds 60, "lamp", ["3"]); (seconds 60, "pump", ["5"])] /\
    In (invalid_entry_report ("pump" ^^ NL)) (stdout q).
Proof.
  destruct (malformed_line_is_skipped every_minute 0 ["* * * * * lamp 3" ^^ NL]
              ("pump" ^^ NL) ["* * * * * pump 5" ^^ NL])
    as (qb & qa & q & Hb & Ha & H & He & Hr).
  - split; [reflexivity |]. left. unfold too_short. vm_compute. lia.
  - exists q. split; [exact H |].
    vm_compute in Hb, Ha. injection Hb as <-. injection Ha as <-.
    split; [exact He |]. apply Hr. unfold too_short. vm_compute. lia.
Defined.

End schedule_facts.

(** ** The control routines of autoplant.py *)

Module autoplant_facts.
Import autoplant fixtures.

Local Open Scope string_scope.
Local Open Scope list_scope.
Local Open Scope Z_scope.

(** *** The schedule loop on an empty table *)

(** Printing the lines of [readCron] changes the output only, and hands on
    the result of [getNextJobs]. *)
Lemma print_lines_result (r : Py.result (list schedule.job)) lines w :
  exists w',
    fold_right (fun line k => print line [] ;; k) (lift r) lines w
    = (match r with Py.Ok a => Returns a | Py.Raised e => Raises e end, w') /\
    now w' = now w /\ tasks w' = tasks w /\ slept w' = slept w /\
    pump_value w' = pump_value w /\ lamp_value w' = lamp_value w /\
    stdout w' = stdout w ++ map (fun line => (line, [])) lines.
Proof.
  revert w. induction lines as [| line lines IH]; intros w; simpl.
  - exists w. rewrite app_nil_r. destruct r; repeat split; reflexivity.
  - unfold bind at 1. simpl.
    match goal with |- context [fold_right _ _ _ ?w1] =>
      destruct (IH w1) as (w' & H & Hn & Ht & Hs & Hp & Hl & Ho)
    end.
    exists w'. rewrite H. simpl in *.
    repeat split; try assumption.
    rewrite Ho, <- app_assoc. reflexivity.
Qed.

(** On a table without entries [nextBatch] raises the [IndexError] of
    [data[0]]. *)
Lemma nextBatch_empty : schedule.nextBatch [] = Py.Raised index_error.
Proof. reflexivity. Qed.

(** C3, as the code has it.  When the schedule file gives no valid entry,
    [getNextJobs] fails with the [IndexError] of [data[0]], and
    [updateSchedule] does not catch it: the loop ends with that exception at
    this tick, before its [sleep], without a task created, whatever the
    number of ticks it was given. *)
Theorem updateSchedule_ends_on_an_empty_table
    (cron : schedule.Croniter) (env : Env) (cronFile : list string)
    (fuel : nat) (w : World) (p : schedule.parsed) :
  schedule.readCron cron (now w) cronFile = Py.Ok p ->
  schedule.entries p = [] ->
  fst (schedule.getNextJobs cron (now w) cronFile) = Py.Raised index_error /\
  exists w',
    updateSchedule (S fuel) env cron cronFile w = (Raises index_error, w') /\
    tasks w' = tasks w /\ slept w' = slept w /\ now w' = now w.
Proof.
  intros Hread Hnil.
  assert (Hnext : schedule.getNextJobs cron (now w) cronFile
                  = (Py.Raised index_error, schedule.stdout p)).
  { unfold schedule.getNextJobs. rewrite Hread, Hnil. reflexivity. }
  split; [rewrite Hnext; reflexivity |].
  simpl. unfold getNextJobs, bind at 1, bind at 1, datetime_now.
  rewrite Hnext. simpl.
  destruct (print_lines_result (Py.Raised index_error) (schedule.stdout p) w)
    as (w' & H & Hn & Ht & Hs & _).
  exists w'. cbn [lift] in H. rewrite H. repeat split; assumption.
Qed.

Lemma updateSchedule_ends_on_an_empty_table_witness :
  exists w',
    updateSchedule 3 (calm (Py.Ok 20%Q) no_json) every_minute
      ["# m h dom mon dow command" ^^ NL; "61 * * * * pump 5" ^^ NL; "pump" ^^ NL]
      (boot 0)
    = (Raises index_error, w') /\ tasks w' = [].
Proof.
  destruct (updateSchedule_ends_on_an_empty_table every_minute
              (calm (Py.Ok 20%Q) no_json)
              ["# m h dom mon dow command" ^^ NL; "61 * * * * pump 5" ^^ NL; "pump" ^^ NL]
              2 (boot 0)
              {| schedule.entries := [];
                 schedule.stdout :=
                   ["line content: # m h dom mon dow command";
                    "line content: 61 * * * * pump 5";
                    "line content: pump";
                    "[pump]: invalid entry: invalid lenght of cron entry"] |})
    as (_ & w' & H & Ht & _).
  - reflexivity.
  - reflexivity.
  - exists w'. split; [exact H | exact Ht].
Defined.

(** The schedule loop does not skip the tick of an empty table: it has
    raised, it is not running any more. *)
Lemma updateSchedule_does_not_skip_the_tick :
  fst (updateSchedule 3 (calm (Py.Ok 20%Q) no_json) every_minute [] (boot 0))
  = Raises index_error /\
  fst (updateSchedule 3 (calm (Py.Ok 20%Q) no_json) every_minute [] (boot 0))
  <> Running.
Proof. split; [reflexivity | discriminate]. Qed.

(** *** The actuator tasks *)








(** The three ways out of [startPump], on a period of 3 seconds: the deadline
    after three turns, the tank found empty at the third read, a cancellation
    at the second await. *)
Example startPump_reaches_its_deadline :
  exists w',
    startPump 4 (calm (Py.Ok 20%Q) no_json) 3 (boot 0) = (Returns tt, w') /\
    pump_value w' = true /\ slept w' = [1; 1; 1] /\ now w' = seconds 3.
Proof. eexists. split; [vm_compute; reflexivity |]. repeat split. Qed.

Example startPump_leaves_when_the_tank_is_empty :
  exists w',
    startPump 4 (level_high_at [2%nat]) 3 (boot 0) = (Returns tt, w') /\
    pump_value w' = true /\ slept w' = [1; 1] /\ now w' = seconds 2.
Proof. eexists. split; [vm_compute; reflexivity |]. repeat split. Qed.

Example startPump_is_cancelled :
  exists w',
    startPump 4 (cancelled_at 1) 3 (boot 0)
    = (Raises (Py.Raise Py.CancelledError EmptyString), w') /\
    pump_value w' = true /\ slept w' = [1; 1].
Proof. eexists. split; [vm_compute; reflexivity |]. repeat split. Qed.

(** *** The sampling loop *)

(** A round in which all five reads succeed gives the mean of the three
    readings that are left. *)
Example getTempAndHumid_steady :
  exists temp humid w',
    getTempAndHumid (calm (Py.Ok 20%Q) no_json) (boot 0)
    = (Returns (temp, humid), w') /\
    (temp == 20)%Q /\ (humid == 20)%Q /\ slept w' = [1; 1; 1; 1; 1].
Proof.
  do 3 eexists. split; [vm_compute; reflexivity |].
  repeat split; reflexivity.
Qed.

(** C9.  When all five reads of a round fail, each failure is printed and
    skipped, and then [max] of the empty list raises [ValueError]:
    [getTempAndHumid] raises, nothing in the loop catches it, and
    [getAndPublishMeasurements] ends with it in its first round.  When two
    reads of each kind succeed, nothing is left after the greatest and the
    least are removed, and the mean raises [ZeroDivisionError]. *)
Theorem sampling_loop_ends_when_too_few_reads_succeed
    (fuel : nat) (mqttClient : bool) (w : World) (t : datetime) :
  fst (getTempAndHumid (calm dht_failure no_json) w)
  = Raises (Py.Raise Py.ValueError "max() arg is an empty sequence") /\
  fst (getAndPublishMeasurements (S fuel) (calm dht_failure no_json) mqttClient w)
  = Raises (Py.Raise Py.ValueError "max() arg is an empty sequence") /\
  fst (getAndPublishMeasurements (S fuel) (dht_fails_after 4) mqttClient (boot t))
  = Raises (Py.Raise Py.ZeroDivisionError "division by zero").
Proof. repeat split; lazy; reflexivity. Qed.

(** *** The level sensor *)

Lemma level_range_spec env n :
  undisturbed env ->
  forall samples data w,
    List.length samples = n ->
    level_reads_are env w samples ->
    exists w',
      level_range n env data w = (Returns (data ++ samples), w') /\
      level_reads w' = (level_reads w + n)%nat /\
      slept w' = slept w ++ repeat 1 n.
Proof.
  intros Hwake.
  induction n as [| n IH]; intros samples data w Hlen Hreads.
  - destruct samples; [| discriminate].
    exists w. simpl. rewrite !app_nil_r, Nat.add_0_r. repeat split; reflexivity.
  - destruct samples as [| b samples]; [discriminate |].
    injection Hlen as Hlen.
    pose proof (Hreads 0%nat b eq_refl) as H0. rewrite Nat.add_0_r in H0.
    destruct (Hwake (awaits w)) as [late Hlate].
    cbn [level_range]. cbv [bind read_level sleep]. rewrite H0. cbn.
    rewrite Hlate.
    match goal with |- context [level_range n env ?d ?w1] =>
      destruct (IH samples d w1 Hlen) as (w' & H & Hr & Hs)
    end.
    { intros k c Hk. cbn. rewrite <- (Hreads (S k) c Hk). f_equal. lia. }
    exists w'. rewrite H. cbn in Hr, Hs.
    repeat split.
    + rewrite <- app_assoc. reflexivity.
    + lia.
    + rewrite Hs, <- app_assoc. reflexivity.
Qed.

Lemma sum_bool_count samples : sum_bool samples = Z.of_nat (count_true samples).
Proof.
  unfold sum_bool, count_true.
  assert (H : forall acc, fold_left (fun s (b : bool) => s + (if b then 1 else 0)) samples acc
                        = acc + Z.of_nat (List.length (filter (fun b : bool => b) samples))).
  { induction samples as [| b samples IH]; intros acc; simpl; [lia |].
    rewrite IH. destruct b; simpl; lia. }
  rewrite H. lia.
Qed.

Lemma third_at_least_one z : Qle_bool 1 (inject_Z z / 3) = (3 <=? z).
Proof.
  apply eq_true_iff_eq. rewrite Qle_bool_iff, Z.leb_le.
  unfold Qle, Qdiv, Qmult, Qinv, inject_Z. simpl. lia.
Qed.

(** C10.  [getLevel] reads the level pin exactly 5 times and sleeps one
    second after each read; it returns [True], the tank is empty, exactly when
    at least 3 of the 5 samples are [True], so at most 2 [True] samples give
    [False]. *)
Theorem getLevel_is_a_majority_of_five
    (env : Env) (w : World) (samples : list bool) :
  List.length samples = 5%nat ->
  undisturbed env ->
  level_reads_are env w samples ->
  exists level w',
    getLevel env w = (Returns level, w') /\
    level_reads w' = (level_reads w + 5)%nat /\
    slept w' = slept w ++ [1; 1; 1; 1; 1] /\
    (level = true <-> (3 <= count_true samples)%nat) /\
    ((count_true samples <= 2)%nat -> level = false).
Proof.
  intros Hlen Hwake Hreads.
  destruct (level_range_spec env 5 Hwake samples [] w Hlen Hreads)
    as (w' & H & Hr & Hs).
  exists (3 <=? sum_bool samples), w'.
  unfold getLevel, bind. rewrite H. cbn [app ret].
  rewrite third_at_least_one, sum_bool_count.
  repeat split; try assumption.
  - intros E. apply Z.leb_le in E. lia.
  - intros E. apply Z.leb_le. lia.
  - intros E. apply Z.leb_gt. lia.
Qed.

Lemma getLevel_is_a_majority_of_five_witness :
  exists w',
    getLevel (level_high_at [0; 2; 3]%nat) (boot 0) = (Returns true, w') /\
    level_reads w' = 5%nat /\ slept w' = [1; 1; 1; 1; 1].
Proof.
  destruct (getLevel_is_a_majority_of_five (level_high_at [0; 2; 3]%nat) (boot 0)
              [true; false; true; true; false])
    as (level & w' & H & Hr & Hs & Hl & _).
  - reflexivity.
  - intros k. exists 0%N. reflexivity.
  - intros k b Hk.
    do 5 (destruct k as [| k]; [injection Hk as <-; reflexivity |]).
    destruct k; discriminate.
  - exists w'. assert (E : level = true) by (apply Hl; vm_compute; lia).
    rewrite E in H. repeat split; assumption.
Defined.

(** *** The command handler *)







(** *** The end of the program *)

(** C8.  [run] ends, by an interrupt or by any other exception of
    [loop.run_forever()], in its [finally] block.  After [loop.close()] the
    block evaluates [mqtt.deinit], a name that the module [mqtt] does not
    bind: [deinit] is a method of the class [Mqtt].  So [run] raises
    [AttributeError], and the [deinit] of the client, which would disconnect
    and stop the network loop, is never called. *)
Theorem run_does_not_shut_the_link_down (do_mqtt : bool) (stop : Py.exc) :
  fst (run do_mqtt stop)
  = Py.Raised (Py.Raise Py.AttributeError "module 'mqtt' has no attribute 'deinit'") /\
  ~ In call_Mqtt_deinit (snd (run do_mqtt stop)) /\
  last (snd (run do_mqtt stop)) call_initDevices = call_loop_close.
Proof.
  destruct do_mqtt; (split; [reflexivity | split; [| reflexivity]]);
    cbn; intros H;
    repeat (destruct H as [H | H]; [discriminate |]); exact H.
Qed.

(** *** The run of the pump *)

(** While the tank is full the loop sleeps one second per turn, with the
    pump switched on, until [n] seconds are over; what happens then is what
    the loop does from the state it has reached. *)
Lemma startPump_while_turns env endTime n :
  on_time env ->
  forall fuel w,
    tank_full_for env w n ->
    seconds (Z.of_nat n) <= endTime - now w ->
    exists w',
      startPump_while (n + fuel) env endTime w = startPump_while fuel env endTime w' /\
      now w' = now w + seconds (Z.of_nat n) /\
      slept w' = slept w ++ repeat 1 n /\
      level_reads w' = (level_reads w + n)%nat /\
      stdout w' = stdout w /\
      pump_value w' = match n with O => pump_value w | S _ => false end.
Proof.
  intros Hwake. induction n as [| n IH]; intros fuel w Hfull Hleft.
  - exists w. cbn [Nat.add repeat]. rewrite app_nil_r, Nat.add_0_r.
    unfold seconds. repeat split; lia.
  - cbn [Nat.add startPump_while].
    cbv [bind datetime_now read_level set_pump sleep print ret].
    destruct (Z.ltb_spec (now w) endTime) as [_ | Hge];
      [| unfold seconds in *; lia].
    pose proof (Hfull O ltac:(lia)) as H0. rewrite Nat.add_0_r in H0.
    rewrite H0. cbn [Bool.eqb]. rewrite Hwake. cbn [Z.of_N].
    match goal with |- context [startPump_while (n + fuel) env endTime ?w1] =>
      destruct (IH fuel w1) as (w' & H & Hn & Hs & Hr & Ho & Hp)
    end.
    + intros i Hi. cbn [level_reads].
      rewrite <- (Hfull (S i) ltac:(lia)). f_equal. lia.
    + cbn [now]. unfold seconds in *. lia.
    + exists w'. rewrite H. cbn [now slept level_reads stdout pump_value] in *.
      repeat split.
      * rewrite Hn. unfold seconds. lia.
      * rewrite Hs, <- app_assoc. reflexivity.
      * lia.
      * exact Ho.
      * rewrite Hp. destruct n; reflexivity.
Qed.

Lemma startPump_full_period
    (fuel : nat) (env : Env) (period : Z) (w : World) :
  on_time env ->
  0 < period ->
  tank_full_for env w (Z.to_nat period) ->
  (Z.to_nat period < fuel)%nat ->
  exists w2 w',
    startPump_while fuel env (now w + seconds period)
      (snd (print "will try to start pump for {} seconds" [Py.VInt period] w))
    = (Returns tt, w2) /\
    pump_value w2 = false /\
    level_reads w2 = (level_reads w + Z.to_nat period)%nat /\
    startPump fuel env period w = (Returns tt, w') /\
    pump_value w' = true /\
    slept w' = slept w ++ repeat 1 (Z.to_nat period) /\
    level_reads w' = level_reads w2 /\
    now w' = now w + seconds period.
Proof.
  intros Hwake Hp Hfull Hfuel.
  unfold startPump, bind at 1, datetime_now. unfold bind at 1. cbn [print snd].
  set (endTime := now w + seconds period).
  match goal with |- context [try_finally _ _ ?x] => set (w1 := x) end.
  assert (Efuel : fuel = (Z.to_nat period + (fuel - Z.to_nat period))%nat) by lia.
  destruct (startPump_while_turns env endTime (Z.to_nat period) Hwake
              (fuel - Z.to_nat period) w1) as (w2 & H & Hn & Hs & Hr & _ & Hv).
  - exact Hfull.
  - subst endTime w1. cbn [now]. rewrite Z2Nat.id by lia. lia.
  - rewrite <- Efuel in H.
    assert (Hend : startPump_while (fuel - Z.to_nat period) env endTime w2
                   = (Returns tt, w2)).
    { destruct (fuel - Z.to_nat period)%nat as [| f] eqn:Ef; [lia |].
      cbn [startPump_while]. cbv [bind datetime_now ret].
      destruct (Z.ltb_spec (now w2) endTime) as [Hlt | _]; [| reflexivity].
      subst endTime w1. cbn [now] in Hn. rewrite Z2Nat.id in Hn by lia. lia. }
    exists w2. eexists.
    split; [rewrite H; exact Hend |].
    split; [destruct (Z.to_nat period) eqn:E; [lia | exact Hv] |].
    split; [exact Hr |].
    unfold try_finally, try_except. rewrite H, Hend.
    split; [reflexivity |].
    cbn [pump_value slept now level_reads]. subst w1. cbn [slept now] in Hs, Hn.
    rewrite Z2Nat.id in Hn by lia.
    repeat split; assumption.
Qed.

(** X6.  With a tank that stays
    full and sleeps that end on time, [startPump] with a period of [period]
    whole seconds, [period] positive, keeps the relay of the pump closed
    for [period] sleeps of one second: its loop reads the level once before
    each sleep, ends at the deadline with the pump value [False] (the pump
    runs), and then the [finally] block sets the value to [True] (the pump
    is off).  [period] seconds have passed. *)
Theorem startPump_runs_the_pump_for_its_period
    (fuel : nat) (env : Env) (period : Z) (w : World) :
  on_time env ->
  0 < period ->
  tank_full_for env w (Z.to_nat period) ->
  (Z.to_nat period < fuel)%nat ->
  exists w2 w',
    startPump_while fuel env (now w + seconds period)
      (snd (print "will try to start pump for {} seconds" [Py.VInt period] w))
    = (Returns tt, w2) /\
    pump_value w2 = false /\
    level_reads w2 = (level_reads w + Z.to_nat period)%nat /\
    startPump fuel env period w = (Returns tt, w') /\
    pump_value w' = true /\
    slept w' = slept w ++ repeat 1 (Z.to_nat period) /\
    level_reads w' = level_reads w2 /\
    now w' = now w + seconds period.
Proof. exact (startPump_full_period fuel env period w). Qed.

Lemma startPump_runs_the_pump_for_its_period_witness :
  exists w',
    startPump 4 (calm (Py.Ok 21%Q) no_json) 3 (boot 0) = (Returns tt, w') /\
    slept w' = [1; 1; 1] /\ now w' = seconds 3.
Proof.
  destruct (startPump_runs_the_pump_for_its_period
              4 (calm (Py.Ok 21%Q) no_json) 3 (boot 0))
    as (w2 & w' & _ & _ & _ & H & _ & Hs & _ & Hn).
  - intros k. reflexivity.
  - lia.
  - intros i _. reflexivity.
  - cbn. lia.
  - exists w'. split; [exact H |]. split; [exact Hs | exact Hn].
Defined.

(** X7.  When the level pin
    reads [True] (the tank is empty) at the turn [k] of the loop, before the
    deadline, [startPump] stops there: it has slept [k] seconds, it prints
    that the water level is too low, it does not sleep again, and it returns
    with the pump value [True] (the pump is off). *)
Theorem startPump_stops_at_the_first_empty_reading
    (fuel : nat) (env : Env) (period : Z) (w : World) (k : nat) :
  on_time env ->
  tank_full_for env w k ->
  level_value env (level_reads w + k) = Py.Ok true ->
  Z.of_nat k < period ->
  (k < fuel)%nat ->
  exists w',
    startPump fuel env period w = (Returns tt, w') /\
    pump_value w' = true /\
    slept w' = slept w ++ repeat 1 k /\
    level_reads w' = (level_reads w + k + 1)%nat /\
    now w' = now w + seconds (Z.of_nat k) /\
    stdout w'
    = stdout w ++ [("will try to start pump for {} seconds", [Py.VInt period]);
                   ("water level is too low; can not start pump", []);
                   ("stopping pump...", [])].
Proof.
  intros Hwake Hfull Hempty Hk Hfuel.
  unfold startPump, bind at 1, datetime_now. unfold bind at 1. cbn [print].
  match goal with |- context [try_except (startPump_while fuel env ?t) _ _] =>
    set (endTime := t)
  end.
  match goal with |- context [try_finally _ _ ?x] => set (w1 := x) end.
  assert (Efuel : fuel = (k + (fuel - k))%nat) by lia.
  destruct (startPump_while_turns env endTime k Hwake (fuel - k) w1)
    as (w2 & H & Hn & Hs & Hr & Ho & _).
  - exact Hfull.
  - subst endTime w1. cbn [now]. unfold seconds. lia.
  - rewrite <- Efuel in H.
    destruct (fuel - k)%nat as [| f] eqn:Ef; [lia |].
    unfold try_finally, try_except. rewrite H.
    cbn [startPump_while]. cbv [bind datetime_now read_level set_pump print ret].
    destruct (Z.ltb_spec (now w2) endTime) as [_ | Hge];
      [| subst endTime w1; cbn [now] in Hn; unfold seconds in *; lia].
    rewrite Hr. subst w1. cbn [level_reads] in *. rewrite Hempty. cbn [Bool.eqb].
    eexists. split; [reflexivity |].
    cbn [pump_value slept now stdout level_reads] in *.
    repeat split; try assumption; try lia.
    rewrite Ho, <- !app_assoc. reflexivity.
Qed.

Lemma startPump_stops_at_the_first_empty_reading_witness :
  exists w',
    startPump 9 (level_high_at [2%nat]) 5 (boot 0) = (Returns tt, w') /\
    slept w' = [1; 1] /\ pump_value w' = true.
Proof.
  destruct (startPump_stops_at_the_first_empty_reading
              9 (level_high_at [2%nat]) 5 (boot 0) 2)
    as (w' & H & Hp & Hs & _).
  - intros k. reflexivity.
  - intros i Hi. destruct i as [| [| i]]; [reflexivity | reflexivity | lia].
  - reflexivity.
  - lia.
  - lia.
  - exists w'. split; [exact H |]. split; [exact Hs | exact Hp].
Defined.

(** X8.  With a period of zero
    or less the deadline of [startPump] has passed when its loop starts:
    the level is not read, the pump value is never set to [False], nothing
    sleeps, and the routine returns with the pump value [True], for any
    state of the tank and of the sleeps. *)
Theorem startPump_with_no_time_left_does_nothing
    (fuel : nat) (env : Env) (period : Z) (w : World) :
  period <= 0 ->
  exists w',
    startPump (S fuel) env period w = (Returns tt, w') /\
    pump_value w' = true /\
    slept w' = slept w /\ level_reads w' = level_reads w /\ now w' = now w /\
    stdout w'
    = stdout w ++ [("will try to start pump for {} seconds", [Py.VInt period]);
                   ("stopping pump...", [])].
Proof.
  intros Hp.
  unfold startPump, bind at 1, datetime_now. unfold bind at 1. cbn [print].
  unfold try_finally, try_except. cbn [startPump_while].
  cbv [bind datetime_now ret]. cbn [now].
  destruct (Z.ltb_spec (now w) (now w + seconds period)) as [Hlt | _];
    [unfold seconds in Hlt; lia |].
  eexists. split; [reflexivity |]. cbn [pump_value slept level_reads now stdout].
  rewrite <- app_assoc. repeat split.
Qed.

Lemma startPump_with_no_time_left_does_nothing_witness :
  exists w',
    startPump 1 (level_high_at []) (-5) (boot 0) = (Returns tt, w') /\
    slept w' = [] /\ level_reads w' = 0%nat.
Proof.
  destruct (startPump_with_no_time_left_does_nothing
              0 (level_high_at []) (-5) (boot 0))
    as (w' & H & _ & Hs & Hr & _).
  - lia.
  - exists w'. split; [exact H |]. split; [exact Hs | exact Hr].
Defined.

(** *** The argument of a job *)

(** X9.  When [int(attr[0])]
    raises, as it does for an argument that is no number, [doWatering] and
    [doLight] raise that exception before [startPump] or [startLamp] is
    entered: the relay is not touched, the level is not read and nothing
    sleeps. *)
Theorem a_job_without_a_number_touches_no_actuator
    (fuel : nat) (env : Env) (a : Py.value) (rest : list Py.value)
    (e : Py.exc) (w : World) :
  Py.int a = Py.Raised e ->
  (exists w',
      doWatering fuel env (a :: rest) w = (Raises e, w') /\
      pump_value w' = pump_value w /\ slept w' = slept w /\
      level_reads w' = level_reads w) /\
  (exists w',
      doLight env (a :: rest) w = (Raises e, w') /\
      lamp_value w' = lamp_value w /\ slept w' = slept w).
Proof.
  intros Hint. unfold doWatering, doLight, period_of, bind, print, lift.
  rewrite Hint. split; (eexists; split; [reflexivity |]; repeat split).
Qed.

Lemma a_job_without_a_number_touches_no_actuator_witness :
  exists e w',
    doWatering 9 (level_high_at []) [Py.VStr "5s"] (boot 0) = (Raises e, w') /\
    Py.cls e = Py.ValueError /\ slept w' = [].
Proof.
  destruct (Py.int (Py.VStr "5s")) as [z | e] eqn:E; [discriminate |].
  destruct (a_job_without_a_number_touches_no_actuator
              9 (level_high_at []) (Py.VStr "5s") [] e (boot 0) E)
    as [(w' & H & _ & Hs & _) _].
  exists e, w'. split; [exact H |]. split; [| exact Hs].
  vm_compute in E. injection E as <-. reflexivity.
Defined.

(** *** A tick of the schedule loop *)

Lemma spawn_spec jobs :
  forall w,
    exists w',
      spawn jobs w = (Returns tt, w') /\
      tasks w' = tasks w ++ launched jobs /\
      now w' = now w /\ slept w' = slept w /\ awaits w' = awaits w /\
      pump_value w' = pump_value w /\ lamp_value w' = lamp_value w.
Proof.
  induction jobs as [| job jobs IH]; intros w.
  - exists w. cbn. rewrite app_nil_r. repeat split.
  - cbn [spawn launched flat_map]. unfold getAction.
    destruct (String.eqb (schedule.command job) "lamp");
      [| destruct (String.eqb (schedule.command job) "pump")];
      cbv [bind print ret create_task];
      match goal with |- context [spawn jobs ?w1] =>
        destruct (IH w1) as (w' & H & Ht & Hn & Hs & Ha & Hp & Hl)
      end;
      exists w'; rewrite H; cbn [tasks now slept awaits pump_value lamp_value] in *;
      rewrite Ht, <- ?app_assoc; repeat split; assumption.
Qed.

Lemma print_lines_frame (r : Py.result (list schedule.job)) lines w :
  exists w',
    fold_right (fun line k => print line [] ;; k) (lift r) lines w
    = (match r with Py.Ok a => Returns a | Py.Raised e => Raises e end, w') /\
    now w' = now w /\ tasks w' = tasks w /\ slept w' = slept w /\
    awaits w' = awaits w /\
    pump_value w' = pump_value w /\ lamp_value w' = lamp_value w.
Proof.
  revert w. induction lines as [| line lines IH]; intros w; simpl.
  - exists w. destruct r; repeat split; reflexivity.
  - unfold bind at 1. simpl.
    match goal with |- context [fold_right _ _ _ ?w1] =>
      destruct (IH w1) as (w' & H & Hn & Ht & Hs & Ha & Hp & Hl)
    end.
    exists w'. rewrite H. simpl in *. repeat split; assumption.
Qed.

(** [getNextJobs] never returns an empty batch. *)
Lemma getNextJobs_not_empty cron base cronFile out :
  schedule.getNextJobs cron base cronFile <> (Py.Ok [], out).
Proof.
  unfold schedule.getNextJobs, schedule.nextBatch.
  destruct (schedule.readCron cron base cronFile) as [p | e]; [| discriminate].
  destruct (schedule.sort (schedule.entries p)); discriminate.
Qed.

(** X10.  One tick of
    [updateSchedule] on a schedule file whose next batch is [jobs]: when the
    batch fires less than 60 seconds from now, the tick creates one task for
    each job of the batch whose command is [lamp] or [pump], in the order of
    the batch, with the arguments of the job, and none for another command;
    when the batch fires later, it creates no task.  Either way the tick
    itself switches no relay, sleeps 60 seconds once and goes on with the
    next tick. *)
Theorem updateSchedule_fires_a_batch_that_is_due
    (fuel : nat) (env : Env) (cron : schedule.Croniter) (cronFile : list string)
    (w : World) (jobs : list schedule.job) (out : list string) (late : N) :
  schedule.getNextJobs cron (now w) cronFile = (Py.Ok jobs, out) ->
  wake env (awaits w) = Py.Ok late ->
  exists w1,
    updateSchedule (S fuel) env cron cronFile w
    = updateSchedule fuel env cron cronFile w1 /\
    tasks w1 = tasks w ++ (if due jobs (now w) then launched jobs else []) /\
    slept w1 = slept w ++ [60] /\
    now w1 = now w + seconds 60 + Z.of_N late /\
    pump_value w1 = pump_value w /\ lamp_value w1 = lamp_value w.
Proof.
  intros Hnext Hwake.
  destruct jobs as [| first jobs];
    [exfalso; exact (getNextJobs_not_empty _ _ _ _ Hnext) |].
  cbn [updateSchedule]. unfold getNextJobs, bind at 1, bind at 1, datetime_now.
  rewrite Hnext. cbn [fst snd].
  destruct (print_lines_frame (Py.Ok (first :: jobs)) out w)
    as (w0 & H & Hn & Ht & Hs & Ha & Hp & Hl).
  rewrite H. cbv [bind print lift ret datetime_now]. cbn [now].
  rewrite Hn. unfold due.
  destruct (schedule.fireTime first - now w <? seconds 60).
  - match goal with |- context [spawn (first :: jobs) ?x] =>
      destruct (spawn_spec (first :: jobs) x)
        as (w2 & H2 & Ht2 & Hn2 & Hs2 & Ha2 & Hp2 & Hl2)
    end.
    rewrite H2. cbn [tasks now slept awaits pump_value lamp_value] in *.
    unfold sleep. rewrite Ha2, Ha, Hwake.
    eexists. split; [reflexivity |]. cbn [tasks slept now pump_value lamp_value].
    rewrite Ht2, Ht, Hs2, Hs, Hn2, Hp2, Hl2, Hp, Hl. repeat split.
  - unfold sleep. cbn [awaits]. rewrite Ha, Hwake.
    eexists. split; [reflexivity |]. cbn [tasks slept now pump_value lamp_value].
    rewrite Ht, Hs, Hp, Hl, app_nil_r. repeat split.
Qed.

Lemma updateSchedule_fires_a_batch_that_is_due_witness :
  exists w1,
    updateSchedule 1 (calm (Py.Ok 21%Q) no_json) every_minute
      ["* * * * * pump 5" ^^ NL; "* * * * * fan 2" ^^ NL; "* * * * * lamp" ^^ NL]
      (boot 1)
    = updateSchedule 0 (calm (Py.Ok 21%Q) no_json) every_minute
        ["* * * * * pump 5" ^^ NL; "* * * * * fan 2" ^^ NL; "* * * * * lamp" ^^ NL]
        w1 /\
    tasks w1 = [doLight_co []; doWatering_co [Py.VStr "5"]].
Proof.
  eassert (H1 : schedule.getNextJobs every_minute (now (boot 1))
                  ["* * * * * pump 5" ^^ NL; "* * * * * fan 2" ^^ NL;
                   "* * * * * lamp" ^^ NL]
                = (Py.Ok _, _)) by (vm_compute; reflexivity).
  destruct (updateSchedule_fires_a_batch_that_is_due
              0 (calm (Py.Ok 21%Q) no_json) every_minute _ (boot 1) _ _ 0%N
              H1 eq_refl) as (w1 & H & Ht & _).
  exists w1. split; [exact H | exact Ht].
Defined.

(** *** A round of readings that all succeed *)

Lemma only_sensed_refl w : only_sensed w w.
Proof. repeat split. Qed.

Lemma sample_range_spec env n :
  undisturbed env ->
  forall ts hs t0 h0 w,
    List.length ts = n -> List.length hs = n ->
    dht_reads_are env w ts hs ->
    exists w',
      sample_range n env (t0, h0) w = (Returns (t0 ++ ts, h0 ++ hs), w') /\
      slept w' = slept w ++ repeat 1 n /\
      dht_reads w' = (dht_reads w + 2 * n)%nat /\
      level_reads w' = level_reads w /\
      stdout w' = stdout w /\
      only_sensed w w'.
Proof.
  intros Hwake. induction n as [| n IH]; intros ts hs t0 h0 w Hts Hhs Hreads.
  - destruct ts, hs; try discriminate.
    exists w. cbn. rewrite !app_nil_r, Nat.add_0_r. repeat split.
  - destruct ts as [| t ts], hs as [| h hs]; try discriminate.
    injection Hts as Hts. injection Hhs as Hhs.
    destruct (Hreads O t h eq_refl eq_refl) as [Ht Hh].
    rewrite Nat.mul_0_r, Nat.add_0_r in Ht, Hh.
    destruct (Hwake (awaits w)) as [late Hlate].
    cbn [sample_range]. unfold sample.
    cbv [bind try_except read_dht ret sleep print fst snd].
    rewrite Ht. cbn [dht_reads]. rewrite <- Nat.add_1_r, Hh. cbn [awaits].
    rewrite Hlate.
    match goal with |- context [sample_range n env ?th ?w1] =>
      destruct (IH ts hs (t0 ++ [t]) (h0 ++ [h]) w1 Hts Hhs)
        as (w' & H & Hs & Hr & Hv & Ho & Hq)
    end.
    { intros i t' h' Hi Hi'. cbn [dht_reads].
      destruct (Hreads (S i) t' h' Hi Hi') as [H1 H2].
      split; [rewrite <- H1 | rewrite <- H2]; f_equal; lia. }
    exists w'. rewrite H, <- !app_assoc. unfold only_sensed in *.
    cbn [slept dht_reads level_reads stdout lcd call_soon tasks pump_value
         lamp_value] in *.
    repeat split; try tauto.
    + rewrite Hs, <- app_assoc. reflexivity.
    + lia.
Qed.

Lemma fold_max_spec (l : list Q) x :
  let m := fold_left (fun m y => if Qle_bool y m then m else y) l x in
  In m (x :: l) /\ Forall (fun z => (z <= m)%Q) (x :: l).
Proof.
  revert x. induction l as [| y l IH]; intros x; cbn [fold_left].
  - split; [left; reflexivity |]. repeat constructor. apply Qle_refl.
  - destruct (Qle_bool y x) eqn:E.
    + destruct (IH x) as [Hin Hall]. split.
      * destruct Hin as [H | H]; [left; exact H | right; right; exact H].
      * inversion Hall as [| ? ? Hx Hl]; subst.
        constructor; [exact Hx |]. constructor; [| exact Hl].
        apply Qle_bool_iff in E. eapply Qle_trans; [exact E | exact Hx].
    + destruct (IH y) as [Hin Hall]. split; [right; exact Hin |].
      inversion Hall as [| ? ? Hy Hl]; subst.
      constructor; [| exact Hall].
      eapply Qle_trans; [| exact Hy].
      apply Qlt_le_weak, Qnot_le_lt. intros H. apply Qle_bool_iff in H.
      rewrite H in E. discriminate.
Qed.

Lemma fold_min_spec (l : list Q) x :
  let m := fold_left (fun m y => if Qle_bool m y then m else y) l x in
  In m (x :: l) /\ Forall (fun z => (m <= z)%Q) (x :: l).
Proof.
  revert x. induction l as [| y l IH]; intros x; cbn [fold_left].
  - split; [left; reflexivity |]. repeat constructor. apply Qle_refl.
  - destruct (Qle_bool x y) eqn:E.
    + destruct (IH x) as [Hin Hall]. split.
      * destruct Hin as [H | H]; [left; exact H | right; right; exact H].
      * inversion Hall as [| ? ? Hx Hl]; subst.
        constructor; [exact Hx |]. constructor; [| exact Hl].
        apply Qle_bool_iff in E. eapply Qle_trans; [exact Hx | exact E].
    + destruct (IH y) as [Hin Hall]. split; [right; exact Hin |].
      inversion Hall as [| ? ? Hy Hl]; subst.
      constructor; [| exact Hall].
      eapply Qle_trans; [exact Hy |].
      apply Qlt_le_weak, Qnot_le_lt. intros H. apply Qle_bool_iff in H.
      rewrite H in E. discriminate.
Qed.

(** Removing a value that is in the list takes out one element equal to
    it. *)
Lemma remove_in x l :
  In x l ->
  exists y l', Py.remove x l = Py.Ok l' /\ (y == x)%Q /\
               Permutation l (y :: l').
Proof.
  induction l as [| y l IH]; intros Hin; [contradiction |].
  cbn [Py.remove].
  destruct (Qeq_bool y x) eqn:E.
  - exists y, l. split; [reflexivity |]. split; [apply Qeq_bool_iff, E |].
    apply Permutation_refl.
  - destruct Hin as [-> | Hin].
    + rewrite (proj2 (Qeq_bool_iff x x) (Qeq_refl x)) in E. discriminate.
    + destruct (IH Hin) as (z & l' & H & Hz & Hp).
      exists z, (y :: l'). rewrite H. split; [reflexivity |].
      split; [exact Hz |]. rewrite Hp. apply perm_swap.
Qed.

Lemma remove_max_min_spec l w :
  (2 <= List.length l)%nat ->
  exists l', remove_max_min l w = (Returns l', w) /\ trimmed l l'.
Proof.
  intros Hl. unfold remove_max_min.
  destruct l as [| x l]; [simpl in Hl; lia |].
  cbn [Py.max lift]. cbv [bind ret].
  destruct (fold_max_spec l x) as [Imax Amax].
  destruct (remove_in _ (x :: l) Imax) as (a & l1 & H1 & E1 & P1).
  rewrite H1. cbn [lift]. cbv [ret].
  destruct l1 as [| y l1].
  { apply Permutation_length in P1. simpl in *. lia. }
  cbn [Py.min lift]. cbv [ret].
  destruct (fold_min_spec l1 y) as [Imin Amin].
  destruct (remove_in _ (y :: l1) Imin) as (b & l2 & H2 & E2 & P2).
  rewrite H2. cbn [lift]. cbv [ret].
  exists l2. split; [reflexivity |]. exists a, b. split; [| split].
  - rewrite P1, P2. reflexivity.
  - eapply Forall_impl; [| exact Amax]. intros z Hz. cbv beta in Hz.
    rewrite E1. exact Hz.
  - assert (Hb : Forall (fun z => (b <= z)%Q) (y :: l1)).
    { eapply Forall_impl; [| exact Amin]. intros z Hz. cbv beta in Hz.
      rewrite E2. exact Hz. }
    rewrite Forall_forall. intros z Hz.
    apply (Permutation_in _ P1) in Hz. destruct Hz as [<- | Hz].
    + rewrite Forall_forall in Hb, Amax.
      apply Qle_trans with y; [apply Hb; left; reflexivity |].
      rewrite E1. apply Amax.
      apply (Permutation_in _ (Permutation_sym P1)). right. left. reflexivity.
    + rewrite Forall_forall in Hb. apply Hb, Hz.
Qed.

Lemma fold_sum_within lo hi l :
  within lo hi l ->
  forall a,
    (a + inject_Z (Z.of_nat (List.length l)) * lo <= fold_left Qplus l a)%Q /\
    (fold_left Qplus l a <= a + inject_Z (Z.of_nat (List.length l)) * hi)%Q.
Proof.
  induction 1 as [| x l [Hlo Hhi] _ IH]; intros a.
  - simpl. split; ring_simplify; apply Qle_refl.
  - cbn [fold_left List.length]. destruct (IH (a + x)%Q) as [H1 H2].
    rewrite Nat2Z.inj_succ, <- Z.add_1_r, inject_Z_plus.
    split.
    + eapply Qle_trans; [| exact H1].
      setoid_replace (a + (inject_Z (Z.of_nat (List.length l)) + inject_Z 1) * lo)%Q
        with ((a + lo) + inject_Z (Z.of_nat (List.length l)) * lo)%Q by ring.
      apply Qplus_le_compat; [| apply Qle_refl].
      apply Qplus_le_compat; [apply Qle_refl | exact Hlo].
    + eapply Qle_trans; [exact H2 |].
      setoid_replace (a + (inject_Z (Z.of_nat (List.length l)) + inject_Z 1) * hi)%Q
        with ((a + hi) + inject_Z (Z.of_nat (List.length l)) * hi)%Q by ring.
      apply Qplus_le_compat; [| apply Qle_refl].
      apply Qplus_le_compat; [apply Qle_refl | exact Hhi].
Qed.

(** The mean of a list that is not empty lies within the bounds of its
    values. *)
Lemma average_within lo hi l :
  l <> [] -> within lo hi l ->
  exists m, Py.average l = Py.Ok m /\ (lo <= m <= hi)%Q.
Proof.
  intros Hne Hw. destruct l as [| x l]; [contradiction |].
  eexists. split; [reflexivity |].
  destruct (fold_sum_within lo hi (x :: l) Hw 0%Q) as [H1 H2].
  unfold Py.sum.
  set (n := inject_Z (Z.of_nat (List.length (x :: l)))) in *.
  assert (Hn : (0 < n)%Q).
  { unfold n. change 0%Q with (inject_Z 0). rewrite <- Zlt_Qlt. simpl. lia. }
  split.
  - apply Qle_shift_div_l; [exact Hn |].
    eapply Qle_trans; [| exact H1]. ring_simplify. rewrite Qmult_comm. apply Qle_refl.
  - apply Qle_shift_div_r; [exact Hn |].
    eapply Qle_trans; [exact H2 |]. ring_simplify. rewrite Qmult_comm. apply Qle_refl.
Qed.

Lemma average_within_any l :
  l <> [] ->
  exists m, Py.average l = Py.Ok m /\
            forall lo hi, within lo hi l -> (lo <= m <= hi)%Q.
Proof.
  intros Hne. destruct l as [| x l]; [contradiction |].
  eexists. split; [reflexivity |]. intros lo hi Hw.
  destruct (average_within lo hi (x :: l) Hne Hw) as (m & Hm & Hb).
  cbn [Py.average] in Hm. injection Hm as <-. exact Hb.
Qed.

Lemma trimmed_incl l rest : trimmed l rest -> incl rest l.
Proof.
  intros (a & b & P & _) z Hz.
  apply (Permutation_in _ (Permutation_sym P)). right. right. exact Hz.
Qed.

Lemma trimmed_length l rest :
  trimmed l rest -> List.length l = S (S (List.length rest)).
Proof. intros (a & b & P & _). apply Permutation_length in P. exact P. Qed.

Lemma within_incl lo hi l l' : incl l' l -> within lo hi l -> within lo hi l'.
Proof.
  intros Hi Hw. unfold within in *. rewrite Forall_forall in *.
  intros x Hx. apply Hw, Hi, Hx.
Qed.


Lemma getTempAndHumid_round env w ts hs :
  List.length ts = 5%nat -> List.length hs = 5%nat ->
  undisturbed env ->
  dht_reads_are env w ts hs ->
  exists temp humid ts' hs' w',
    getTempAndHumid env w = (Returns (temp, humid), w') /\
    (trimmed ts ts' /\ Py.average ts' = Py.Ok temp) /\
    (trimmed hs hs' /\ Py.average hs' = Py.Ok humid) /\
    (forall lo hi, within lo hi ts -> (lo <= temp <= hi)%Q) /\
    (forall lo hi, within lo hi hs -> (lo <= humid <= hi)%Q) /\
    slept w' = slept w ++ [1; 1; 1; 1; 1] /\
    dht_reads w' = (dht_reads w + 10)%nat /\
    level_reads w' = level_reads w /\
    stdout w' = stdout w /\
    only_sensed w w'.
Proof.
  intros Hts Hhs Hwake Hreads. unfold getTempAndHumid.
  destruct (sample_range_spec env 5 Hwake ts hs [] [] w Hts Hhs Hreads)
    as (w' & H & Hs & Hr & Hv & Ho & Hq).
  unfold bind at 1. rewrite H. cbn [app fst snd].
  destruct (remove_max_min_spec ts w') as (ts' & Ht' & Tt); [lia |].
  destruct (remove_max_min_spec hs w') as (hs' & Hh' & Th); [lia |].
  unfold bind at 1. rewrite Ht'. unfold bind at 1. rewrite Hh'.
  pose proof (trimmed_length _ _ Tt) as Lt.
  pose proof (trimmed_length _ _ Th) as Lh.
  assert (Nt : ts' <> []) by (intros ->; simpl in Lt; lia).
  assert (Nh : hs' <> []) by (intros ->; simpl in Lh; lia).
  destruct (average_within_any ts' Nt) as (temp & At & Bt).
  destruct (average_within_any hs' Nh) as (humid & Ah & Bh).
  rewrite At, Ah. cbn [lift]. cbv [bind ret].
  exists temp, humid, ts', hs', w'.
  split; [reflexivity |].
  split; [split; assumption |]. split; [split; assumption |].
  split; [| split; [| repeat split; try assumption; apply Hq]].
  - intros lo hi Hw. apply Bt, (within_incl _ _ ts); [apply trimmed_incl, Tt | exact Hw].
  - intros lo hi Hw. apply Bh, (within_incl _ _ hs); [apply trimmed_incl, Th | exact Hw].
Qed.



(** *** A round of measurements *)

Lemma level_range_round env n :
  undisturbed env ->
  forall samples data w,
    List.length samples = n ->
    level_reads_are env w samples ->
    exists w',
      level_range n env data w = (Returns (data ++ samples), w') /\
      slept w' = slept w ++ repeat 1 n /\
      stdout w' = stdout w /\
      only_sensed w w'.
Proof.
  intros Hwake.
  induction n as [| n IH]; intros samples data w Hlen Hreads.
  - destruct samples; [| discriminate].
    exists w. simpl. rewrite !app_nil_r. repeat split; reflexivity.
  - destruct samples as [| b samples]; [discriminate |].
    injection Hlen as Hlen.
    pose proof (Hreads 0%nat b eq_refl) as H0. rewrite Nat.add_0_r in H0.
    destruct (Hwake (awaits w)) as [late Hlate].
    cbn [level_range]. cbv [bind read_level sleep]. rewrite H0. cbn [awaits].
    rewrite Hlate.
    match goal with |- context [level_range n env ?d ?w1] =>
      destruct (IH samples d w1 Hlen) as (w' & H & Hs & Ho & Hq)
    end.
    { intros k c Hk. cbn [level_reads].
      rewrite <- (Hreads (S k) c Hk). f_equal. lia. }
    exists w'. rewrite H. unfold only_sensed in *.
    cbn [slept stdout lcd call_soon tasks pump_value lamp_value] in *.
    repeat split; try tauto.
    + rewrite <- app_assoc. reflexivity.
    + rewrite Hs, <- app_assoc. reflexivity.
Qed.

Lemma getLevel_round env w samples :
  List.length samples = 5%nat ->
  undisturbed env ->
  level_reads_are env w samples ->
  exists w',
    getLevel env w = (Returns (3 <=? count_true samples)%nat, w') /\
    slept w' = slept w ++ [1; 1; 1; 1; 1] /\
    stdout w' = stdout w /\
    only_sensed w w'.
Proof.
  intros Hlen Hwake Hreads.
  destruct (level_range_round env 5 Hwake samples [] w Hlen Hreads)
    as (w' & H & Hs & Ho & Hq).
  exists w'. unfold getLevel, bind. rewrite H. cbn [app ret].
  rewrite third_at_least_one, sum_bool_count.
  split; [| split; [exact Hs | split; [exact Ho | exact Hq]]].
  replace (3 <=? Z.of_nat (count_true samples))
    with (3 <=? count_true samples)%nat; [reflexivity |].
  destruct (Nat.leb_spec 3 (count_true samples)); symmetry;
    [apply Z.leb_le | apply Z.leb_gt]; lia.
Qed.

(** X12.  One round of
    [getAndPublishMeasurements] in which all reads succeed: it measures the
    temperature and the humidity, then the level from 5 samples; it clears
    the display and shows [tank empty] when at least 3 samples read [True],
    and the two means otherwise; with a client it queues three publishes,
    [temp], [humid] and [level], in this order, and without one it queues
    none; it sleeps 10 times one second and then 60 seconds, touches no
    relay and creates no task, and goes on with the next round. *)
Theorem getAndPublishMeasurements_shows_and_queues_a_round
    (fuel : nat) (env : Env) (mqttClient : bool) (w : World)
    (ts hs : list Q) (samples : list bool) :
  List.length ts = 5%nat -> List.length hs = 5%nat ->
  List.length samples = 5%nat ->
  undisturbed env ->
  dht_reads_are env w ts hs ->
  level_reads_are env w samples ->
  exists temp humid w1,
    fst (getTempAndHumid env w) = Returns (temp, humid) /\
    getAndPublishMeasurements (S fuel) env mqttClient w
    = getAndPublishMeasurements fuel env mqttClient w1 /\
    lcd w1 = lcd w ++ shown temp humid (3 <=? count_true samples)%nat /\
    call_soon w1
    = call_soon w ++ (if mqttClient
                      then queued temp humid (3 <=? count_true samples)%nat
                      else []) /\
    slept w1 = slept w ++ repeat 1 10 ++ [60] /\
    stdout w1
    = stdout w ++ [("Temp: {:.1f} C\nHumidity: {:.1f} %\nLevel: {}",
                    [Py.VFloat temp; Py.VFloat humid;
                     level_text (3 <=? count_true samples)%nat])] /\
    pump_value w1 = pump_value w /\ lamp_value w1 = lamp_value w /\
    tasks w1 = tasks w.
Proof.
  intros Hts Hhs Hlen Hwake Hdht Hlevel.
  destruct (getTempAndHumid_round env w ts hs Hts Hhs Hwake Hdht)
    as (temp & humid & _ & _ & w' & H & _ & _ & _ & _ & Hs & _ & Hr & Ho & Hq).
  destruct (getLevel_round env w' samples Hlen Hwake) as (w'' & H' & Hs' & Ho' & Hq').
  { intros k b Hk. rewrite Hr. apply Hlevel, Hk. }
  destruct (Hwake (awaits w'')) as [late Hlate].
  exists temp, humid.
  cbn [getAndPublishMeasurements]. unfold bind at 1. rewrite H.
  unfold bind at 1. rewrite H'. cbn [fst snd].
  destruct Hq as (Q1 & Q2 & Q3 & Q4 & Q5).
  destruct Hq' as (Q1' & Q2' & Q3' & Q4' & Q5').
  unfold shown, queued.
  destruct (3 <=? count_true samples)%nat, mqttClient;
    cbn [bind display print call_soon_publish ret
         now pump_value lamp_value lcd level_reads dht_reads awaits slept
         stdout tasks call_soon];
    unfold bind, sleep; cbn [awaits]; rewrite Hlate;
    (eexists; split; [reflexivity |]; split; [reflexivity |]);
    cbn [lcd call_soon slept stdout pump_value lamp_value tasks];
    rewrite ?Q1', ?Q1, ?Q2', ?Q2, ?Q3', ?Q3, ?Q4', ?Q4, ?Q5', ?Q5, ?Hs', ?Hs,
      ?Ho', ?Ho, <- ?app_assoc, ?app_nil_r;
    repeat split.
Qed.

Lemma getAndPublishMeasurements_shows_and_queues_a_round_witness :
  exists temp humid w1,
    getAndPublishMeasurements 1
      (dht_answers [20; 50; 21; 51; 35; 52; 22; 53; 23; 54]%Q) true (boot 0)
    = getAndPublishMeasurements 0
        (dht_answers [20; 50; 21; 51; 35; 52; 22; 53; 23; 54]%Q) true w1 /\
    call_soon w1 = [("temp", Py.VFloat temp); ("humid", Py.VFloat humid);
                    ("level", Py.VStr "full")] /\
    slept w1 = [1; 1; 1; 1; 1; 1; 1; 1; 1; 1; 60].
Proof.
  destruct (getAndPublishMeasurements_shows_and_queues_a_round
              0 (dht_answers [20; 50; 21; 51; 35; 52; 22; 53; 23; 54]%Q) true
              (boot 0) [20; 21; 35; 22; 23]%Q [50; 51; 52; 53; 54]%Q
              [false; false; false; false; false])
    as (temp & humid & w1 & _ & H & _ & Hq & Hs & _).
  - reflexivity.
  - reflexivity.
  - reflexivity.
  - intros k. exists 0%N. reflexivity.
  - intros i t h Hi Hi'.
    do 5 (destruct i as [| i];
          [injection Hi as <-; injection Hi' as <-; split; reflexivity |]).
    destruct i; discriminate.
  - intros k b Hk.
    do 5 (destruct k as [| k]; [injection Hk as <-; reflexivity |]).
    destruct k; discriminate.
  - exists temp, humid, w1. split; [exact H |]. split; [exact Hq | exact Hs].
Defined.


(** *** A task without an argument *)

(** X13.  A task that is
    created without an argument, as for a schedule line that ends with the
    command, runs for 10 seconds, not for the 30 seconds that are the
    default of [startPump] and [startLamp]: with a full tank and sleeps that
    end on time [doWatering] sleeps 10 times one second and [doLight] sleeps
    once 10 seconds, and both leave their relay off. *)
Theorem a_task_without_an_argument_runs_for_ten_seconds
    (fuel : nat) (env : Env) (w : World) :
  on_time env ->
  tank_full_for env w 10 ->
  (10 < fuel)%nat ->
  (exists w',
      run_task fuel env (doWatering_co []) w = (Returns tt, w') /\
      slept w' = slept w ++ repeat 1 10 /\
      now w' = now w + seconds 10 /\
      pump_value w' = true) /\
  (exists w',
      run_task fuel env (doLight_co []) w = (Returns tt, w') /\
      slept w' = slept w ++ [10] /\
      now w' = now w + seconds 10 /\
      lamp_value w' = true).
Proof.
  intros Hwake Hfull Hfuel. split.
  - cbn [run_task]. unfold doWatering, period_of, bind at 1. cbn [print].
    unfold bind at 1. cbn [ret].
    match goal with |- context [startPump fuel env 10 ?x] => set (w0 := x) end.
    destruct (startPump_full_period fuel env 10 w0 Hwake)
      as (w2 & w' & _ & _ & _ & H & Hp & Hs & _ & Hn).
    + lia.
    + exact Hfull.
    + cbn. lia.
    + exists w'. split; [exact H |]. split; [exact Hs |]. split; [exact Hn | exact Hp].
  - cbn [run_task]. unfold doLight, period_of, startLamp.
    unfold try_finally, try_except.
    cbn [bind print ret set_lamp now pump_value lamp_value lcd level_reads
         dht_reads awaits slept stdout tasks call_soon].
    unfold bind, sleep. cbn [awaits]. rewrite Hwake.
    cbn [print ret set_lamp now pump_value lamp_value lcd level_reads
         dht_reads awaits slept stdout tasks call_soon Py.cls Py.is_Exception].
    eexists. split; [reflexivity |]. cbn [slept now lamp_value].
    split; [reflexivity |]. split; [unfold seconds; lia | reflexivity].
Qed.

Lemma a_task_without_an_argument_runs_for_ten_seconds_witness :
  exists w',
    run_task 11 (calm (Py.Ok 21%Q) no_json) (doWatering_co []) (boot 0)
    = (Returns tt, w') /\
    slept w' = [1; 1; 1; 1; 1; 1; 1; 1; 1; 1].
Proof.
  destruct (a_task_without_an_argument_runs_for_ten_seconds
              11 (calm (Py.Ok 21%Q) no_json) (boot 0))
    as [(w' & H & Hs & _) _].
  - intros k. reflexivity.
  - intros i _. reflexivity.
  - lia.
  - exists w'. split; [exact H | exact Hs].
Defined.

End autoplant_facts.

(** ** The telemetry link *)

Module mqtt_facts.
Import mqtt fixtures.

Local Open Scope string_scope.
Local Open Scope list_scope.
Local Open Scope Z_scope.

(** *** The backoff of the reconnect loop *)

Lemma delays_app tr tr' : delays (tr ++ tr') = delays tr ++ delays tr'.
Proof. apply flat_map_app. Qed.

Lemma trace_emit e w : trace (emit e w) = trace w ++ [e].
Proof. reflexivity. Qed.

Lemma connect_and_subscribe_trace self w :
  trace (connect_and_subscribe self w)
  = trace w
    ++ [Connect (mqtt_bridge_hostname (config self)) (mqtt_bridge_port (config self));
        LoopStart;
        Print "Subscribing to {} and {}"
          [Py.VStr (mqtt_config_topic (config self));
           Py.VStr (mqtt_command_topic (config self))];
        Subscribe (mqtt_config_topic (config self)) 1;
        Subscribe (mqtt_command_topic (config self)) 0].
Proof.
  unfold connect_and_subscribe. rewrite !trace_emit, <- !app_assoc. reflexivity.
Qed.




Lemma connect_and_subscribe_delays self w :
  delays (trace (connect_and_subscribe self w)) = delays (trace w) /\
  draws (connect_and_subscribe self w) = draws w.
Proof.
  unfold connect_and_subscribe, emit; simpl.
  rewrite !delays_app. simpl. rewrite !app_nil_r. split; reflexivity.
Qed.









(** *** The age of the token *)

Lemma timedelta_seconds_of_a_day_and_a_second :
  timedelta_seconds (seconds 86401) = 1.
Proof. reflexivity. Qed.

(** C2.  [__check_and_refresh_jwt] compares [.seconds] of the age of the
    token, which leaves the whole days out.  A publish one day and one second
    after the token was issued finds an age of 1 second: it does not
    disconnect, it makes no new token, and it sends the payload with the token
    that expired 23 hours before. *)
Theorem publish_under_a_token_older_than_a_day
    (fuel : nat) (env : Env) (t0 : datetime) (key : string) (value : Py.value)
    (n m : nat) (tr : list event) :
  let w := {| utcnow := t0 + seconds 86401; draws := n; turns := m; trace := tr |} in
  exp (token_of t0) < utcnow w /\
  publish fuel env (linked t0) key value EmptyString w
  = Some (linked t0,
          {| utcnow := t0 + seconds 86401; draws := n; turns := m;
             trace := tr ++ [Print "Publishing payload" [Py.VDict [(key, value)]];
                             Publish "/devices/rpi/events" key value 1
                               (Some (token_of t0))] |}).
Proof.
  intros w. split; [unfold token_of, seconds; simpl; lia |].
  unfold publish, __check_and_refresh_jwt. subst w. cbn [utcnow jwt_iat linked].
  replace (t0 + seconds 86401 - t0) with (seconds 86401) by lia.
  rewrite timedelta_seconds_of_a_day_and_a_second. cbn.
  unfold emit; simpl. rewrite <- app_assoc. reflexivity.
Qed.

(** *** A stale token within a day *)

Lemma grows_refl w : grows w w.
Proof. exists []. symmetry. apply app_nil_r. Qed.

Lemma grows_trans w1 w2 w3 : grows w1 w2 -> grows w2 w3 -> grows w1 w3.
Proof.
  intros [t1 H1] [t2 H2]. exists (t1 ++ t2). rewrite H2, H1. symmetry. apply app_assoc.
Qed.

Lemma grows_emit e w : grows w (emit e w).
Proof. exists [e]. reflexivity. Qed.

Lemma run_callbacks_keep_client cbs :
  forall self w,
    client (fst (fold_left run_callback cbs (self, w))) = client self /\
    utcnow (snd (fold_left run_callback cbs (self, w))) = utcnow w /\
    grows w (snd (fold_left run_callback cbs (self, w))).
Proof.
  induction cbs as [| cb cbs IH]; intros self w; cbn [fold_left].
  - repeat split; apply grows_refl.
  - destruct cb as [rc | rc];
      [change (run_callback (self, w) (connack rc))
         with (on_connect self rc w)
      | change (run_callback (self, w) (disconnected rc))
         with (on_disconnect self rc w)];
      unfold on_connect, on_disconnect;
      match goal with |- context [fold_left run_callback cbs (?s, ?w1)] =>
        destruct (IH s w1) as (H1 & H2 & H3)
      end;
      (split; [rewrite H1; reflexivity
              | split; [rewrite H2; reflexivity
                       | eapply grows_trans; [apply grows_emit | exact H3]]]).
Qed.

Lemma deliver_keeps_client env self w :
  client (fst (deliver env self w)) = client self /\
  utcnow (snd (deliver env self w)) = utcnow w /\
  grows w (snd (deliver env self w)).
Proof.
  unfold deliver.
  match goal with |- context [fold_left run_callback ?cbs (?s, ?w1)] =>
    destruct (run_callbacks_keep_client cbs s w1) as (H1 & H2 & [tr H3])
  end.
  split; [exact H1 | split; [exact H2 | exists tr; exact H3]].
Qed.

Lemma connect_and_subscribe_grows self w : grows w (connect_and_subscribe self w).
Proof.
  unfold connect_and_subscribe.
  repeat (eapply grows_trans; [| apply grows_emit]). apply grows_refl.
Qed.

(** The loop keeps the client, and with it the token. *)
Lemma backoff_keeps_client env fuel :
  forall self w self' w',
    backoff fuel env self w = Some (self', w') ->
    client self' = client self /\ grows w w'.
Proof.
  induction fuel as [| fuel IH]; intros self w self' w' H; [discriminate |].
  cbn [backoff] in H.
  destruct (should_backoff self).
  2: { injection H as <- <-. split; [reflexivity | apply grows_refl]. }
  destruct (minimum_backoff_time self >? MAXIMUM_BACKOFF_TIME).
  { injection H as <- <-. split; [reflexivity |].
    eapply grows_trans; apply grows_emit. }
  destruct (randint env 0 1000 (emit (Print "will do the backoff" []) w))
    as [r w1] eqn:Er.
  assert (G1 : grows w w1).
  { unfold randint in Er. injection Er as _ <-. exists [Print "will do the backoff" []].
    reflexivity. }
  match type of H with context [deliver env self ?w2] =>
    destruct (deliver_keeps_client env self w2) as (C2 & _ & G2);
    assert (G2' : grows w1 w2)
      by (eapply grows_trans; [apply grows_emit | exists [Sleep (inject_Z (minimum_backoff_time self) + inject_Z r / 1000)%Q]; reflexivity]);
    destruct (deliver env self w2) as [self3 w3]
  end.
  simpl in C2, G2.
  destruct (should_backoff self3).
  2: { simpl in H. injection H as <- <-. split; [exact C2 |].
       exact (grows_trans _ _ _ G1 (grows_trans _ _ _ G2' G2)). }
  simpl in H.
  match type of H with context [deliver env ?s4 ?w4] =>
    destruct (deliver_keeps_client env s4 w4) as (C5 & _ & G5);
    assert (G4 : grows w3 w4) by apply connect_and_subscribe_grows;
    destruct (deliver env s4 w4) as [self5 w5]
  end.
  simpl in C5, G5.
  destruct (IH _ _ _ _ H) as [C G].
  split; [rewrite C, C5; exact C2 |].
  exact (grows_trans _ _ _ G1
           (grows_trans _ _ _ G2'
              (grows_trans _ _ _ G2
                 (grows_trans _ _ _ G4 (grows_trans _ _ _ G5 G))))).
Qed.

(** [__init_and_connect] makes a client whose token is issued now. *)
Lemma init_and_connect_token env self w :
  exists token tr,
    password (client (fst (__init_and_connect env self w))) = Some token /\
    iat token = utcnow w /\
    exp token = utcnow w + seconds 3600 /\
    trace (snd (__init_and_connect env self w)) = trace w ++ tr /\
    In (UsernamePwSet token) tr.
Proof.
  unfold __init_and_connect, create_jwt.
  match goal with |- context [deliver env ?s ?w1] =>
    destruct (deliver_keeps_client env s w1) as (C & _ & [tr G])
  end.
  rewrite C, G. clear C G.
  exists {| iat := utcnow w; exp := utcnow w + seconds (60 * 60);
            aud := project_id (config self) |}.
  eexists.
  split; [reflexivity |].
  split; [reflexivity |].
  split; [cbn [exp]; unfold seconds; lia |].
  rewrite connect_and_subscribe_trace, !trace_emit, <- !app_assoc.
  split; [reflexivity |].
  right. right. right. left. reflexivity.
Qed.

(** When [.seconds] of the age of the token is above the window, [publish]
    disconnects, connects again with a token issued now, and sends the
    payload with this token. *)
Lemma publish_refreshes_a_stale_token fuel env self key value topic w self' w' :
  60 * jwt_exp_mins self < timedelta_seconds (utcnow w - jwt_iat self) ->
  publish fuel env self key value topic w = Some (self', w') ->
  exists token tr topic',
    iat token = utcnow w /\
    exp token = utcnow w + seconds 3600 /\
    trace w'
    = trace w
      ++ [Print "Refreshing token after {}s"
            [Py.VInt (timedelta_seconds (utcnow w - jwt_iat self))];
          Disconnect]
      ++ tr ++ [Publish topic' key value 1 (Some token)] /\
    In (UsernamePwSet token) tr.
Proof.
  intros Hold H. unfold publish, __check_and_refresh_jwt in H.
  apply Z.gtb_lt in Hold. rewrite Hold in H.
  match type of H with context [deliver env ?s ?w0] =>
    destruct (deliver_keeps_client env s w0) as (_ & U1 & [tr1 G1]);
    destruct (deliver env s w0) as [self1 w1]
  end.
  simpl in U1, G1. unfold __connect_with_retry in H.
  destruct (init_and_connect_token env self1 w1) as (token & tr2 & P & I & E & G2 & Hin).
  destruct (__init_and_connect env self1 w1) as [self2 w2]. simpl in P, G2.
  destruct (backoff fuel env self2 w2) as [[self3 w3] |] eqn:B; [| discriminate].
  destruct (backoff_keeps_client env fuel _ _ _ _ B) as [C3 [tr3 G3]].
  injection H as <- <-.
  exists token, (tr1 ++ tr2 ++ tr3 ++ [Print "Publishing payload" [Py.VDict [(key, value)]]]).
  eexists.
  rewrite I, E, U1. split; [reflexivity |]. split; [reflexivity |].
  split.
  - unfold emit; simpl. rewrite C3, P, G3, G2, G1.
    rewrite <- !app_assoc. reflexivity.
  - apply in_or_app. right. apply in_or_app. left. exact Hin.
Qed.


(** *** Callbacks and the flags *)

Lemma no_wait_refl w : no_wait w w.
Proof. repeat split. apply grows_refl. Qed.

Lemma no_wait_trans w1 w2 w3 : no_wait w1 w2 -> no_wait w2 w3 -> no_wait w1 w3.
Proof.
  intros (U1 & D1 & S1 & G1) (U2 & D2 & S2 & G2).
  repeat split; try congruence. exact (grows_trans _ _ _ G1 G2).
Qed.

Lemma no_wait_emit_Print fmt args w : no_wait w (emit (Print fmt args) w).
Proof.
  repeat split; [| apply grows_emit].
  rewrite trace_emit, delays_app. apply app_nil_r.
Qed.

Lemma same_settings_refl self : same_settings self self.
Proof. repeat split. Qed.

Lemma same_settings_trans s1 s2 s3 :
  same_settings s1 s2 -> same_settings s2 s3 -> same_settings s1 s3.
Proof.
  intros (A1 & A2 & A3 & A4 & A5) (B1 & B2 & B3 & B4 & B5).
  repeat split; congruence.
Qed.

(** A callback changes the three flags only, prints one line and does not
    wait. *)
Lemma run_callbacks_frame cbs :
  forall self w,
    same_settings self (fst (fold_left run_callback cbs (self, w))) /\
    no_wait w (snd (fold_left run_callback cbs (self, w))) /\
    turns (snd (fold_left run_callback cbs (self, w))) = turns w.
Proof.
  induction cbs as [| cb cbs IH]; intros self w; cbn [fold_left].
  - split; [apply same_settings_refl | split; [apply no_wait_refl | reflexivity]].
  - destruct cb as [rc | rc];
      [change (run_callback (self, w) (connack rc))
         with (on_connect self rc w)
      | change (run_callback (self, w) (disconnected rc))
         with (on_disconnect self rc w)];
      unfold on_connect, on_disconnect;
      match goal with |- context [fold_left run_callback cbs (?s, ?w1)] =>
        destruct (IH s w1) as (H1 & H2 & H3)
      end;
      (split; [exact (same_settings_trans _ _ _ ltac:(repeat split) H1)
              | split; [exact (no_wait_trans _ _ _ (no_wait_emit_Print _ _ _) H2)
                       | rewrite H3; reflexivity]]).
Qed.

(** Without [on_connect] a link that is down stays down. *)
Lemma run_callbacks_quiet cbs :
  (forall rc, ~ In (connack rc) cbs) ->
  forall self w,
    should_backoff self = true ->
    should_backoff (fst (fold_left run_callback cbs (self, w))) = true /\
    minimum_backoff_time (fst (fold_left run_callback cbs (self, w)))
    = minimum_backoff_time self /\
    (connected self = false ->
     connected (fst (fold_left run_callback cbs (self, w))) = false).
Proof.
  induction cbs as [| cb cbs IH]; intros Hno self w Hb; cbn [fold_left].
  - cbn [fst]. split; [exact Hb | split; [reflexivity | intros H; exact H]].
  - destruct cb as [rc | rc].
    + exfalso. apply (Hno rc). left. reflexivity.
    + change (run_callback (self, w) (disconnected rc))
        with (with_flags self false true (minimum_backoff_time self),
              emit (Print "Disconnected:" [Py.VInt rc]) w).
      destruct (IH (fun rc' H => Hno rc' (or_intror H))
                  (with_flags self false true (minimum_backoff_time self))
                  (emit (Print "Disconnected:" [Py.VInt rc]) w) eq_refl)
        as (H1 & H2 & H3).
      split; [exact H1 | split; [exact H2 | intros _; exact (H3 eq_refl)]].
Qed.

(** After [on_connect] the link is up and the backoff time is 1 again. *)
Lemma run_callbacks_acked cbs rc self w :
  let r := fold_left run_callback (cbs ++ [connack rc]) (self, w) in
  connected (fst r) = true /\ should_backoff (fst r) = false /\
  minimum_backoff_time (fst r) = 1.
Proof.
  cbv zeta. rewrite fold_left_app. cbn [fold_left].
  destruct (fold_left run_callback cbs (self, w)) as [s1 w1].
  repeat split.
Qed.

Lemma deliver_spec env self w :
  same_settings self (fst (deliver env self w)) /\
  no_wait w (snd (deliver env self w)) /\
  turns (snd (deliver env self w)) = S (turns w) /\
  (quiet env (turns w) -> should_backoff self = true ->
   should_backoff (fst (deliver env self w)) = true /\
   minimum_backoff_time (fst (deliver env self w)) = minimum_backoff_time self /\
   (connected self = false -> connected (fst (deliver env self w)) = false)) /\
  (acknowledged env (turns w) ->
   connected (fst (deliver env self w)) = true /\
   should_backoff (fst (deliver env self w)) = false /\
   minimum_backoff_time (fst (deliver env self w)) = 1).
Proof.
  unfold deliver.
  set (w0 := {| utcnow := utcnow w; draws := draws w; turns := S (turns w);
                trace := trace w |}).
  destruct (run_callbacks_frame (network env (turns w)) self w0)
    as (F1 & (U & D & S & [tr G]) & F3).
  split; [exact F1 |].
  split; [repeat split; try assumption; exists tr; exact G |].
  split; [exact F3 |].
  split.
  - intros Hq Hb. exact (run_callbacks_quiet _ Hq self w0 Hb).
  - intros (cbs & rc & E). rewrite E. apply run_callbacks_acked.
Qed.


(** [__init_and_connect] up to the point at which the callbacks take
    effect: a new client with a token issued now, and the two
    subscriptions. *)
Lemma init_and_connect_unfold env self w :
  exists self1 w1,
    __init_and_connect env self w = deliver env self1 w1 /\
    config self1 = config self /\
    publishing_default_topic self1 = publishing_default_topic self /\
    jwt_exp_mins self1 = jwt_exp_mins self /\
    connected self1 = connected self /\
    should_backoff self1 = should_backoff self /\
    minimum_backoff_time self1 = minimum_backoff_time self /\
    jwt_iat self1 = utcnow w /\
    password (client self1) = Some (token_at (config self) (utcnow w)) /\
    no_wait w w1 /\ turns w1 = turns w /\
    (exists tr tr',
        trace w1
        = trace w ++ tr ++ [UsernamePwSet (token_at (config self) (utcnow w))]
          ++ tr' ++ [Subscribe (mqtt_config_topic (config self)) 1;
                     Subscribe (mqtt_command_topic (config self)) 0]).
Proof.
  unfold __init_and_connect, create_jwt.
  eexists. eexists. split; [reflexivity |].
  do 8 (split; [reflexivity |]).
  split; [| split; [reflexivity |]].
  - split; [reflexivity |]. split; [reflexivity |]. split.
    + rewrite (proj1 (connect_and_subscribe_delays _ _)), !trace_emit, !delays_app.
      cbn [delays flat_map app]. rewrite !app_nil_r. reflexivity.
    + eapply grows_trans; [| apply connect_and_subscribe_grows].
      repeat (eapply grows_trans; [| apply grows_emit]). apply grows_refl.
  - rewrite connect_and_subscribe_trace, !trace_emit, <- !app_assoc.
    eexists [_; _; _]. eexists [_; _; _; _; _]. reflexivity.
Qed.

(** *** The turns of the retry loop *)


(** The loop is left at its head when the flag is down. *)
Lemma backoff_done env fuel self w :
  should_backoff self = false -> backoff (S fuel) env self w = Some (self, w).
Proof. intros H. cbn [backoff]. rewrite H. reflexivity. Qed.





(** *** The first connection *)

Lemma init_is_connect_with_retry fuel env c w :
  __init__ fuel env c w = __connect_with_retry fuel env (unconnected c) w.
Proof. reflexivity. Qed.

(** X14.  When the broker acknowledges
    the first connection before the constructor looks at the flags, the
    constructor returns without a sleep: the link is connected, the backoff
    flag is down and the backoff time is 1 second; the client carries a
    token issued at the time of the call, for 60 minutes and for the
    project of the configuration, and it has subscribed to the config
    topic of the device with qos 1 and to its commands with qos 0. *)
Theorem the_first_connection_needs_no_retry
    (fuel : nat) (env : Env) (c : Config) (w : World) :
  acknowledged env (turns w) ->
  exists self' w',
    __init__ (S fuel) env c w = Some (self', w') /\
    connected self' = true /\ should_backoff self' = false /\
    minimum_backoff_time self' = 1 /\
    config self' = c /\
    publishing_default_topic self' = "/devices/" ^^ device_id c ^^ "/events" /\
    jwt_iat self' = utcnow w /\
    password (client self') = Some (token_at c (utcnow w)) /\
    utcnow w' = utcnow w /\
    delays (trace w') = delays (trace w) /\
    In (Subscribe ("/devices/" ^^ device_id c ^^ "/config") 1) (trace w') /\
    In (Subscribe ("/devices/" ^^ device_id c ^^ "/commands/#") 0) (trace w').
Proof.
  intros Ha. rewrite init_is_connect_with_retry. unfold __connect_with_retry.
  destruct (init_and_connect_unfold env (unconnected c) w)
    as (self1 & w1 & E & I1 & I2 & I3 & I4 & I5 & I6 & I7 & I8
        & (U1 & D1 & S1 & G1) & T1 & (tr & tr' & Htr)).
  rewrite E. clear E.
  destruct (deliver_spec env self1 w1)
    as ((F1 & F2 & F3 & F4 & F5) & (U2 & D2 & S2 & [tr2 G2]) & T2 & _ & A2).
  rewrite T1 in A2. destruct (A2 Ha) as (C2 & B2 & M2). clear A2.
  destruct (deliver env self1 w1) as [self2 w2]. cbn [fst snd] in *.
  rewrite (backoff_done env fuel self2 w2 B2).
  exists self2, w2.
  split; [reflexivity |].
  split; [exact C2 |]. split; [exact B2 |]. split; [exact M2 |].
  split; [rewrite F1; exact I1 |].
  split; [rewrite F2; exact I2 |].
  split; [rewrite F4; exact I7 |].
  split; [rewrite F5; exact I8 |].
  split; [rewrite U2; exact U1 |].
  split; [rewrite S2; exact S1 |].
  rewrite G2, Htr. cbn [config unconnected mqtt_config_topic mqtt_command_topic].
  split; apply in_or_app; left; apply in_or_app; right; apply in_or_app; right;
    apply in_or_app; right; apply in_or_app; right.
  - left. reflexivity.
  - right. left. reflexivity.
Qed.

Lemma the_first_connection_needs_no_retry_witness :
  exists self' w',
    __init__ 1 (answers_at 0 500) greenhouse (offline 7) = Some (self', w') /\
    connected self' = true /\ utcnow w' = 7.
Proof.
  destruct (the_first_connection_needs_no_retry
              0 (answers_at 0 500) greenhouse (offline 7))
    as (self' & w' & H & Hc & _ & _ & _ & _ & _ & _ & Hu & _).
  - exists [], 0. reflexivity.
  - exists self', w'. split; [exact H |]. split; [exact Hc | exact Hu].
Defined.

(** *** The time that the retry loop takes *)







(** *** Publishing *)

Lemma timedelta_seconds_within_the_hour td :
  0 <= td < seconds 3601 -> timedelta_seconds td <= 3600.
Proof.
  intros H. unfold timedelta_seconds, seconds in *.
  rewrite Z.mod_small by lia.
  apply Z.lt_succ_r. apply Z.div_lt_upper_bound; lia.
Qed.

(** X17.  A publish at most one
    hour after the token was issued (and up to a second more, which
    [.seconds] cuts off) does not touch the link: it prints the payload and
    sends one message with qos 1 under the token that the client has, to
    the topic given, or to the events topic of the device when the topic is
    empty.  No flag, no clock and no counter changes, and no fuel is
    needed. *)
Theorem publish_within_the_hour_keeps_the_link
    (fuel : nat) (env : Env) (self : Mqtt) (key : string) (value : Py.value)
    (topic : string) (w : World) :
  jwt_exp_mins self = 60 ->
  0 <= utcnow w - jwt_iat self < seconds 3601 ->
  publish fuel env self key value topic w
  = Some (self,
          {| utcnow := utcnow w; draws := draws w; turns := turns w;
             trace := trace w
                      ++ [Print "Publishing payload" [Py.VDict [(key, value)]];
                          Publish (topic_of self topic) key value 1
                            (password (client self))] |}).
Proof.
  intros Hm Hage. unfold publish, __check_and_refresh_jwt.
  pose proof (timedelta_seconds_within_the_hour _ Hage) as H.
  rewrite Hm.
  destruct (Z.gtb_spec (timedelta_seconds (utcnow w - jwt_iat self)) (60 * 60))
    as [Hgt | _]; [lia |].
  unfold emit, topic_of. cbn [utcnow draws turns trace].
  rewrite <- app_assoc. reflexivity.
Qed.

Lemma publish_within_the_hour_keeps_the_link_witness :
  publish 0 (dead_network 0) (linked 100) "temp" (Py.VFloat 21) EmptyString
    {| utcnow := 100 + seconds 3600; draws := 0; turns := 0; trace := [] |}
  = Some (linked 100,
          {| utcnow := 100 + seconds 3600; draws := 0; turns := 0;
             trace := [Print "Publishing payload"
                         [Py.VDict [("temp", Py.VFloat 21)]];
                       Publish "/devices/rpi/events" "temp" (Py.VFloat 21) 1
                         (Some (token_of 100))] |}).
Proof.
  apply (publish_within_the_hour_keeps_the_link
           0 (dead_network 0) (linked 100) "temp" (Py.VFloat 21) EmptyString
           {| utcnow := 100 + seconds 3600; draws := 0; turns := 0; trace := [] |}).
  - reflexivity.
  - cbn. lia.
Defined.

(** X18.  When the seconds
    of the age of the token are above the window and the broker
    acknowledges the new connection, [publish] prints that it refreshes,
    disconnects, makes a new client with a token issued now, connects and
    subscribes again without a sleep, and then sends the one message with
    qos 1 under the new token, to the topic given or to the default topic
    of the link.  The link is connected afterwards and its [jwt_iat] is the
    time of the call. *)
Theorem publish_renews_a_stale_token_before_it_sends
    (fuel : nat) (env : Env) (self : Mqtt) (key : string) (value : Py.value)
    (topic : string) (w : World) :
  60 * jwt_exp_mins self < timedelta_seconds (utcnow w - jwt_iat self) ->
  acknowledged env (S (turns w)) ->
  exists self' w' tr,
    publish (S fuel) env self key value topic w = Some (self', w') /\
    connected self' = true /\ should_backoff self' = false /\
    jwt_iat self' = utcnow w /\
    password (client self') = Some (token_at (config self) (utcnow w)) /\
    utcnow w' = utcnow w /\
    delays (trace w') = delays (trace w) /\
    trace w'
    = trace w
      ++ [Print "Refreshing token after {}s"
            [Py.VInt (timedelta_seconds (utcnow w - jwt_iat self))];
          Disconnect]
      ++ tr
      ++ [Print "Publishing payload" [Py.VDict [(key, value)]];
          Publish (topic_of self topic) key value 1
            (Some (token_at (config self) (utcnow w)))] /\
    In (UsernamePwSet (token_at (config self) (utcnow w))) tr.
Proof.
  intros Hold Ha. unfold publish, __check_and_refresh_jwt.
  apply Z.gtb_lt in Hold. rewrite Hold.
  set (age := timedelta_seconds (utcnow w - jwt_iat self)).
  set (w0 := emit Disconnect (emit (Print "Refreshing token after {}s" [Py.VInt age]) w)).
  set (self0 := with_jwt_iat self (utcnow (emit (Print "Refreshing token after {}s" [Py.VInt age]) w))).
  destruct (deliver_spec env self0 w0)
    as ((F1 & F2 & F3 & F4 & F5) & (U1 & D1 & S1 & [tr1 G1]) & T1 & _ & _).
  destruct (deliver env self0 w0) as [self1 w1]. cbn [fst snd] in *.
  unfold __connect_with_retry.
  destruct (init_and_connect_unfold env self1 w1)
    as (self2 & w2 & E & I1 & I2 & I3 & I4 & I5 & I6 & I7 & I8
        & (U2 & D2 & S2 & _) & T2 & (tra & trb & Htr)).
  rewrite E. clear E.
  destruct (deliver_spec env self2 w2)
    as ((K1 & K2 & K3 & K4 & K5) & (U3 & D3 & S3 & [tr3 G3]) & T3 & _ & A3).
  rewrite T2, T1 in A3. destruct (A3 Ha) as (C3 & B3 & M3). clear A3.
  destruct (deliver env self2 w2) as [self3 w3]. cbn [fst snd] in *.
  rewrite (backoff_done env fuel self3 w3 B3).
  assert (Hc : config self1 = config self) by (rewrite F1; reflexivity).
  assert (Hu : utcnow w1 = utcnow w) by (rewrite U1; reflexivity).
  rewrite Hc, Hu in *.
  exists self3. eexists.
  exists (tr1 ++ tra ++ [UsernamePwSet (token_at (config self) (utcnow w))]
          ++ trb ++ [Subscribe (mqtt_config_topic (config self)) 1;
                     Subscribe (mqtt_command_topic (config self)) 0] ++ tr3).
  split; [reflexivity |].
  split; [exact C3 |]. split; [exact B3 |].
  split; [rewrite K4; exact I7 |].
  split; [rewrite K5; exact I8 |].
  split; [cbn [utcnow emit]; rewrite U3, U2; reflexivity |].
  split.
  - rewrite !trace_emit, !delays_app. cbn [delays flat_map app].
    rewrite !app_nil_r, S3, S2, S1. subst w0. rewrite !trace_emit, !delays_app.
    cbn [delays flat_map app]. rewrite !app_nil_r. reflexivity.
  - split.
    + rewrite !trace_emit, G3, Htr, G1. subst w0. rewrite !trace_emit.
      rewrite K5, I8, K2, I2, F2. unfold topic_of.
      cbn [publishing_default_topic with_jwt_iat].
      rewrite <- !app_assoc. reflexivity.
    + apply in_or_app. right. apply in_or_app. right. left. reflexivity.
Qed.

Lemma publish_renews_a_stale_token_before_it_sends_witness :
  exists self' w',
    publish 1 (answers_at 1 0) (linked 0) "temp" (Py.VFloat 21) EmptyString
      (offline (seconds 3601))
    = Some (self', w') /\
    password (client self') = Some (token_at greenhouse (seconds 3601)).
Proof.
  destruct (publish_renews_a_stale_token_before_it_sends
              0 (answers_at 1 0) (linked 0) "temp" (Py.VFloat 21) EmptyString
              (offline (seconds 3601)))
    as (self' & w' & tr & H & _ & _ & _ & Hp & _).
  - reflexivity.
  - exists [], 0. reflexivity.
  - exists self', w'. split; [exact H | exact Hp].
Defined.

End mqtt_facts.

(** ** The character display *)

Module lcd_facts.
Import character_lcd_pcf8574 lcd_fixtures.

Local Open Scope string_scope.
Local Open Scope list_scope.
Local Open Scope Z_scope.

Lemma wire_write8 value char_mode self :
  wire (_write8 value char_mode self)
  = wire self ++ [Sleep 1000;
                  Send value (if char_mode then _RS_DATA else _RS_INSTRUCTION);
                  Sleep 50].
Proof. unfold _write8, emit; simpl. rewrite <- !app_assoc. reflexivity. Qed.

(** *** The cursor *)

Lemma row_offset r :
  tuple_get _LCD_ROW_OFFSETS r
  = if (0 <=? (if r <? 0 then r + 4 else r)) && ((if r <? 0 then r + 4 else r) <? 4)
    then Py.Ok (nth (Z.to_nat (if r <? 0 then r + 4 else r)) _LCD_ROW_OFFSETS 0)
    else Py.Raised (Py.Raise Py.IndexError "tuple index out of range").
Proof. reflexivity. Qed.

Lemma row_offset_exists r :
  0 <= r <= 3 -> exists offset, tuple_get _LCD_ROW_OFFSETS r = Py.Ok offset.
Proof.
  intros Hr. rewrite row_offset.
  destruct (Z.ltb_spec r 0); [lia |].
  destruct (Z.leb_spec 0 r); [| lia].
  destruct (Z.ltb_spec r 4); [| lia].
  eexists. reflexivity.
Qed.

Lemma data_bytes_app w w' : data_bytes (w ++ w') = data_bytes w ++ data_bytes w'.
Proof. apply flat_map_app. Qed.

Lemma instructions_app w w' :
  instructions (w ++ w') = instructions w ++ instructions w'.
Proof. apply flat_map_app. Qed.

(** On a display of 1 to 4 lines a row that is not negative is clamped to
    the last line, and the call sends the address of the clamped position. *)
Lemma cursor_position_spec c r self :
  1 <= lines self <= 4 ->
  0 <= r ->
  exists self' offset,
    cursor_position c r self = Py.Ok self' /\
    row self' = Z.min r (lines self - 1) /\
    column self' = Z.min c (columns self - 1) /\
    tuple_get _LCD_ROW_OFFSETS (row self') = Py.Ok offset /\
    wire self'
    = wire self ++ [Sleep 1000;
                    Send (Z.lor _LCD_SETDDRAMADDR (column self' + offset))
                      _RS_INSTRUCTION;
                    Sleep 50] /\
    lines self' = lines self /\ columns self' = columns self /\
    displaymode self' = displaymode self /\
    _column_align self' = _column_align self /\
    _message self' = _message self.
Proof.
  intros Hl Hr. unfold cursor_position.
  assert (Er : (if r >=? lines self then lines self - 1 else r)
               = Z.min r (lines self - 1)).
  { destruct (Z.geb_spec r (lines self)); lia. }
  assert (Ec : (if c >=? columns self then columns self - 1 else c)
               = Z.min c (columns self - 1)).
  { destruct (Z.geb_spec c (columns self)); lia. }
  rewrite Er, Ec.
  destruct (row_offset_exists (Z.min r (lines self - 1))) as [offset Ho]; [lia |].
  rewrite Ho.
  eexists. exists offset.
  split; [reflexivity |].
  cbn [row column wire set_position lines columns displaymode _column_align _message].
  rewrite wire_write8. repeat split. exact Ho.
Qed.

(** X19.  On a display of 1 to 4
    lines, [cursor_position] with a row that is not negative never raises: the
    row is clamped to the last line and the column to the last column, the
    object keeps the clamped position, and one instruction is sent, the DDRAM
    address of the clamped column plus the offset of the clamped row. *)
Theorem cursor_position_clamps_to_the_display
    (c r : Z) (self : Character_LCD) :
  1 <= lines self <= 4 ->
  0 <= r ->
  exists self' offset,
    cursor_position c r self = Py.Ok self' /\
    row self' = Z.min r (lines self - 1) /\
    column self' = Z.min c (columns self - 1) /\
    tuple_get _LCD_ROW_OFFSETS (row self') = Py.Ok offset /\
    wire self'
    = wire self ++ [Sleep 1000;
                    Send (Z.lor _LCD_SETDDRAMADDR (column self' + offset))
                      _RS_INSTRUCTION;
                    Sleep 50].
Proof.
  intros Hl Hr.
  destruct (cursor_position_spec c r self Hl Hr)
    as (self' & offset & H & H1 & H2 & H3 & H4 & _).
  exists self', offset. repeat split; assumption.
Qed.

(** X20.  There are offsets
    for 4 rows only: on an object made with more than 4 lines, a row of 4 or
    more raises [IndexError], before anything is sent or stored. *)
Theorem cursor_position_raises_below_the_fourth_row
    (c r : Z) (self : Character_LCD) :
  4 <= r -> 4 < lines self ->
  cursor_position c r self
  = Py.Raised (Py.Raise Py.IndexError "tuple index out of range").
Proof.
  intros Hr Hl. unfold cursor_position.
  set (r' := if r >=? lines self then lines self - 1 else r).
  assert (H : 4 <= r') by (unfold r'; destruct (Z.geb_spec r (lines self)); lia).
  rewrite row_offset.
  destruct (Z.ltb_spec r' 0); [lia |].
  destruct (Z.leb_spec 0 r'); [| lia].
  destruct (Z.ltb_spec r' 4); [lia |].
  reflexivity.
Qed.

(** *** The message *)

(** What a call of [cursor_position] inside the setter of [message] keeps
    and adds. *)
Lemma cursor_position_in_message c r self :
  1 <= lines self <= 4 ->
  0 <= r ->
  exists self',
    cursor_position c r self = Py.Ok self' /\
    lines self' = lines self /\ _message self' = _message self /\
    data_bytes (wire self') = data_bytes (wire self) /\
    List.length (instructions (wire self'))
    = S (List.length (instructions (wire self))).
Proof.
  intros Hl Hr.
  destruct (cursor_position_spec c r self Hl Hr)
    as (self' & offset & H & _ & _ & _ & Hw & Hlines & _ & _ & _ & Hm).
  exists self'. rewrite Hw, data_bytes_app, instructions_app, length_app.
  repeat split; try assumption.
  - simpl. apply app_nil_r.
  - simpl. lia.
Qed.

Lemma message_character_spec c self line initial :
  1 <= lines self <= 4 ->
  0 <= line ->
  0 <= initial ->
  exists self' line' initial',
    message_character c (self, line, initial) = Py.Ok (self', line', initial') /\
    lines self' = lines self /\ _message self' = _message self /\
    0 <= line' /\ 1 <= initial' /\
    data_bytes (wire self')
    = data_bytes (wire self)
      ++ (if Ascii.eqb c "010"%char then [] else [ord c]) /\
    List.length (instructions (wire self'))
    = (List.length (instructions (wire self))
       + (if (initial =? 0)%Z then 1 else 0)
       + (if Ascii.eqb c "010"%char then 1 else 0))%nat.
Proof.
  intros Hl Hline Hinit. unfold message_character.
  assert (Hfirst : exists self1 initial1,
             (if initial =? 0
              then match cursor_position
                           (if entry_left self then column self
                            else columns self - 1 - column self) line self with
                   | Py.Ok self0 => Py.Ok (self0, initial + 1)
                   | Py.Raised e => Py.Raised e
                   end
              else Py.Ok (self, initial)) = Py.Ok (self1, initial1) /\
             lines self1 = lines self /\ _message self1 = _message self /\
             1 <= initial1 /\
             data_bytes (wire self1) = data_bytes (wire self) /\
             List.length (instructions (wire self1))
             = (List.length (instructions (wire self))
                + (if (initial =? 0)%Z then 1 else 0))%nat).
  { destruct (Z.eqb_spec initial 0) as [-> | Hne].
    - destruct (cursor_position_in_message
                  (if entry_left self then column self
                   else columns self - 1 - column self) line self Hl Hline)
        as (self1 & H & H1 & H2 & H3 & H4).
      exists self1, (0 + 1). rewrite H.
      repeat split; try assumption; lia.
    - exists self, initial. repeat split; lia. }
  destruct Hfirst as (self1 & initial1 & Hf & L1 & M1 & I1 & D1 & N1).
  rewrite Hf.
  destruct (Ascii.eqb c "010"%char).
  - match goal with |- context [cursor_position ?col (line + 1) self1] =>
      destruct (cursor_position_in_message col (line + 1) self1) as (self2 & H & H1 & H2 & H3 & H4);
        [lia | lia |]
    end.
    exists self2, (line + 1), initial1. rewrite H.
    repeat split; try lia; try congruence.
    rewrite H3, D1. symmetry. apply app_nil_r.
  - exists (_write8 (ord c) true self1), line, initial1.
    rewrite wire_write8, data_bytes_app, instructions_app, length_app.
    repeat split; try assumption; try lia.
    + rewrite D1. reflexivity.
    + simpl. lia.
Qed.

Lemma message_loop_spec message :
  forall self line initial,
    1 <= lines self <= 4 ->
    0 <= line ->
    0 <= initial ->
    exists self' line' initial',
      message_loop message (self, line, initial) = Py.Ok (self', line', initial') /\
      _message self' = _message self /\
      data_bytes (wire self')
      = data_bytes (wire self) ++ map ord (printable message) /\
      List.length (instructions (wire self'))
      = (List.length (instructions (wire self))
         + (match message with
            | EmptyString => 0
            | _ => if (initial =? 0)%Z then 1 else 0
            end)
         + line_feeds message)%nat.
Proof.
  induction message as [| c rest IH]; intros self line initial Hl Hline Hinit.
  - exists self, line, initial. simpl. rewrite app_nil_r.
    repeat split; lia.
  - cbn [message_loop].
    destruct (message_character_spec c self line initial Hl Hline Hinit)
      as (self1 & line1 & initial1 & H & L1 & M1 & Hline1 & I1 & D1 & N1).
    rewrite H.
    destruct (IH self1 line1 initial1) as (self' & line' & initial' & H' & M' & D' & N');
      [lia | lia | lia |].
    exists self', line', initial'. rewrite H'.
    split; [reflexivity |]. split; [congruence |].
    split.
    + rewrite D', D1, <- app_assoc. cbn [printable].
      destruct (Ascii.eqb c "010"%char); reflexivity.
    + rewrite N', N1. cbn [line_feeds].
      assert (E : (match rest with
                   | EmptyString => 0
                   | String _ _ => if (initial1 =? 0)%Z then 1 else 0
                   end = 0)%nat).
      { destruct rest; [reflexivity |].
        destruct (Z.eqb_spec initial1 0); [lia | reflexivity]. }
      rewrite E. destruct (Ascii.eqb c "010"%char); lia.
Qed.

(** X21.  On a display
    of 1 to 4 lines, setting [message] never raises, however many line feeds
    the text has: the bytes sent as data are the codes of the characters that
    are no line feed, in order; the instructions sent are one cursor move for
    a text that is not empty plus one for each line feed; and the stored
    cursor position is back at (0, 0) afterwards. *)
Theorem message_sends_its_characters_and_resets_the_cursor
    (message : string) (self : Character_LCD) :
  1 <= lines self <= 4 ->
  0 <= row self ->
  exists self',
    message_set message self = Py.Ok self' /\
    _message self' = Some message /\
    row self' = 0 /\ column self' = 0 /\
    data_bytes (wire self')
    = data_bytes (wire self) ++ map ord (printable message) /\
    List.length (instructions (wire self'))
    = (List.length (instructions (wire self))
       + (match message with EmptyString => 0 | _ => 1 end)
       + line_feeds message)%nat.
Proof.
  intros Hl Hr. unfold message_set.
  destruct (message_loop_spec message (set_message message self) (row self) 0)
    as (self' & line' & initial' & H & M & D & N); [exact Hl | exact Hr | lia |].
  cbn [row set_message] in *. rewrite H.
  exists (set_position 0 0 self').
  cbn [row column set_position _message wire].
  repeat split; assumption.
Qed.

(** *** The flags of the display control *)











(** *** Custom characters *)

Lemma list_get_nat pattern k :
  list_get pattern (Z.of_nat k)
  = if (k <? List.length pattern)%nat then Py.Ok (nth k pattern 0)
    else Py.Raised (Py.Raise Py.IndexError "list index out of range").
Proof.
  unfold list_get.
  destruct (Z.ltb_spec (Z.of_nat k) 0); [lia |].
  destruct (Z.leb_spec 0 (Z.of_nat k)); [| lia].
  rewrite Nat2Z.id. simpl.
  destruct (Z.ltb_spec (Z.of_nat k) (Z.of_nat (List.length pattern)));
    destruct (Nat.ltb_spec k (List.length pattern)); try lia; reflexivity.
Qed.

Lemma firstn_skipn_step n k (pattern : list Z) :
  (k < List.length pattern)%nat ->
  firstn (S n) (skipn k pattern) = nth k pattern 0 :: firstn n (skipn (S k) pattern).
Proof.
  revert pattern. induction k as [| k IH]; intros pattern Hk.
  - destruct pattern; [simpl in Hk; lia | reflexivity].
  - destruct pattern as [| x pattern]; [simpl in Hk; lia |].
    simpl in Hk. apply (IH pattern). lia.
Qed.

Lemma create_char_loop_spec n :
  forall k pattern self,
    (k <= List.length pattern)%nat ->
    let r := create_char_loop n (Z.of_nat k) pattern self in
    instructions (wire (snd r)) = instructions (wire self) /\
    data_bytes (wire (snd r))
    = data_bytes (wire self) ++ firstn n (skipn k pattern) /\
    fst r = if (k + n <=? List.length pattern)%nat then Py.Ok tt
            else Py.Raised (Py.Raise Py.IndexError "list index out of range").
Proof.
  induction n as [| n IH]; intros k pattern self Hlen; cbv zeta.
  - cbn [create_char_loop fst snd firstn]. rewrite app_nil_r, Nat.add_0_r.
    repeat split.
    destruct (Nat.leb_spec k (List.length pattern)); [reflexivity | lia].
  - cbn [create_char_loop]. rewrite list_get_nat.
    destruct (Nat.ltb_spec k (List.length pattern)) as [Hk | Hk].
    + replace (Z.of_nat k + 1) with (Z.of_nat (S k)) by lia.
      destruct (IH (S k) pattern (_write8 (nth k pattern 0) true self))
        as (I & D & R); [lia |].
      rewrite I, D, wire_write8, instructions_app, data_bytes_app.
      rewrite (firstn_skipn_step n k pattern Hk).
      repeat split.
      * simpl. apply app_nil_r.
      * simpl. rewrite <- app_assoc. reflexivity.
      * rewrite R. replace (S k + n)%nat with (k + S n)%nat by lia. reflexivity.
    + cbn [fst snd].
      rewrite skipn_all2 by lia.
      destruct (Nat.leb_spec (k + S n) (List.length pattern)); [lia |].
      rewrite firstn_nil, app_nil_r. repeat split.
Qed.

Lemma cgram_address location :
  Z.lor _LCD_SETCGRAMADDR (Z.shiftl (Z.land location 0x7) 3)
  = 0x40 + 8 * (location mod 8).
Proof.
  change 0x7 with (Z.ones 3). rewrite Z.land_ones by lia.
  rewrite Z.shiftl_mul_pow2 by lia.
  change (2 ^ 3) with 8.
  pose proof (Z.mod_pos_bound location 8 ltac:(lia)) as Hm.
  set (m := location mod 8) in *.
  assert (E : m = 0 \/ m = 1 \/ m = 2 \/ m = 3 \/ m = 4 \/ m = 5 \/ m = 6 \/ m = 7)
    by lia.
  destruct E as [-> | [-> | [-> | [-> | [-> | [-> | [-> | ->]]]]]]]; reflexivity.
Qed.

(** X23.  [create_char]
    takes the location modulo 8: the instruction it sends is the CGRAM address
    [0x40 + 8 * (location mod 8)].  It then sends the first 8 bytes of the
    pattern as data; with a pattern of fewer than 8 bytes it sends them all
    and then raises [IndexError], leaving the character half written. *)
Theorem create_char_writes_the_address_and_the_pattern
    (location : Z) (pattern : list Z) (self : Character_LCD) :
  instructions (wire (snd (create_char location pattern self)))
  = instructions (wire self) ++ [0x40 + 8 * (location mod 8)] /\
  data_bytes (wire (snd (create_char location pattern self)))
  = data_bytes (wire self) ++ firstn 8 pattern /\
  fst (create_char location pattern self)
  = if (8 <=? List.length pattern)%nat then Py.Ok tt
    else Py.Raised (Py.Raise Py.IndexError "list index out of range").
Proof.
  unfold create_char. rewrite cgram_address.
  destruct (create_char_loop_spec 8 0 pattern
              (_write8 (0x40 + 8 * (location mod 8)) false self)) as (I & D & R);
    [lia |].
  change (Z.of_nat 0) with 0 in *. cbv zeta in *.
  rewrite I, D, R, wire_write8, instructions_app, data_bytes_app.
  simpl. rewrite !app_nil_r. repeat split.
Qed.

(** *** The direction of the text *)

Lemma entry_left_testbit self : entry_left self = Z.testbit (displaymode self) 1.
Proof.
  unfold entry_left.
  assert (E : Z.land (displaymode self) _LCD_ENTRYLEFT
              = if Z.testbit (displaymode self) 1 then 2 else 0).
  { apply Z.bits_inj'. intros n Hn.
    change _LCD_ENTRYLEFT with (2 ^ 1).
    rewrite Z.land_spec, Z.pow2_bits_eqb by lia.
    destruct (Z.eqb_spec 1 n) as [<- | Hne].
    - destruct (Z.testbit (displaymode self) 1); reflexivity.
    - rewrite andb_false_r.
      destruct (Z.testbit (displaymode self) 1).
      + change 2 with (2 ^ 1). rewrite Z.pow2_bits_eqb by lia.
        symmetry. apply Z.eqb_neq. exact Hne.
      + rewrite Z.bits_0. reflexivity. }
  rewrite E. destruct (Z.testbit (displaymode self) 1); reflexivity.
Qed.

Lemma displaymode_left_to_right self :
  displaymode (text_direction_set LEFT_TO_RIGHT self)
  = Z.lor (displaymode self) (2 ^ 1).
Proof. reflexivity. Qed.

Lemma displaymode_right_to_left self :
  displaymode (text_direction_set RIGHT_TO_LEFT self)
  = Z.land (displaymode self) (Z.lnot (2 ^ 1)).
Proof. reflexivity. Qed.

(** X24.  Setting [text_direction]
    to [LEFT_TO_RIGHT] sets the entry bit of [displaymode] and setting it to
    [RIGHT_TO_LEFT] clears it; the other bits stay.  Any other value is stored
    as the direction, but changes no mode and sends nothing. *)
Theorem text_direction_sets_the_entry_bit_only (self : Character_LCD) :
  entry_left (text_direction_set LEFT_TO_RIGHT self) = true /\
  entry_left (text_direction_set RIGHT_TO_LEFT self) = false /\
  (forall k, 0 <= k -> k <> 1 ->
     Z.testbit (displaymode (text_direction_set LEFT_TO_RIGHT self)) k
     = Z.testbit (displaymode self) k /\
     Z.testbit (displaymode (text_direction_set RIGHT_TO_LEFT self)) k
     = Z.testbit (displaymode self) k) /\
  (forall direction,
     direction <> LEFT_TO_RIGHT -> direction <> RIGHT_TO_LEFT ->
     displaymode (text_direction_set direction self) = displaymode self /\
     wire (text_direction_set direction self) = wire self /\
     _direction (text_direction_set direction self) = Some direction).
Proof.
  rewrite !entry_left_testbit, displaymode_left_to_right, displaymode_right_to_left.
  split; [rewrite Z.lor_spec, Z.pow2_bits_eqb by lia; apply orb_true_r |].
  split; [rewrite Z.land_spec, Z.lnot_spec, Z.pow2_bits_eqb by lia;
          apply andb_false_r |].
  split.
  - intros k Hk Hne.
    rewrite Z.lor_spec, Z.land_spec, Z.lnot_spec, !Z.pow2_bits_eqb by lia.
    destruct (Z.eqb_spec 1 k); [lia |].
    split; [apply orb_false_r | apply andb_true_r].
  - intros direction H0 H1. unfold text_direction_set.
    destruct (Z.eqb_spec direction LEFT_TO_RIGHT); [contradiction |].
    destruct (Z.eqb_spec direction RIGHT_TO_LEFT); [contradiction |].
    repeat split.
Qed.

(** A display of 16 columns and 2 lines after its initialisation, and the
    witnesses of the statements above on it. *)
Lemma cursor_position_clamps_to_the_display_witness :
  exists self',
    cursor_position 20 5 (__init__ 16 2) = Py.Ok self' /\
    row self' = 1 /\ column self' = 15.
Proof.
  destruct (cursor_position_clamps_to_the_display 20 5 (__init__ 16 2))
    as (self' & offset & H & Hr & Hc & _).
  - cbn. lia.
  - lia.
  - exists self'. repeat split; assumption.
Defined.

Lemma cursor_position_raises_below_the_fourth_row_witness :
  cursor_position 0 4 (__init__ 20 5)
  = Py.Raised (Py.Raise Py.IndexError "tuple index out of range").
Proof.
  apply cursor_position_raises_below_the_fourth_row.
  - lia.
  - cbn. lia.
Defined.

Lemma message_sends_its_characters_and_resets_the_cursor_witness :
  exists self',
    message_set ("Temp: 21" ^^ fixtures.NL ^^ fixtures.NL ^^ fixtures.NL ^^ "ok")
      (__init__ 16 2)
    = Py.Ok self' /\
    row self' = 0 /\ column self' = 0 /\
    data_bytes (wire self') = [84; 101; 109; 112; 58; 32; 50; 49; 111; 107].
Proof.
  destruct (message_sends_its_characters_and_resets_the_cursor
              ("Temp: 21" ^^ fixtures.NL ^^ fixtures.NL ^^ fixtures.NL ^^ "ok")
              (__init__ 16 2))
    as (self' & H & _ & Hr & Hc & Hd & _).
  - cbn. lia.
  - cbn. lia.
  - exists self'. repeat split; assumption.
Defined.

End lcd_facts.
